(** * bytenode: the bytecode-cache lifecycle of [src/index.ts]

    A shallow embedding of the header patcher ([fixBytecode]), the
    source-hash reader ([readSourceHash]), the bytecode runner
    ([runBytecode]), the [.jsc] module loader hook and [compileFile],
    together with the properties the specification states about them.

    Conventions.
    - A JavaScript string is the list of its UTF-16 code units, so that
      [length] is JavaScript's [.length].
    - A [Buffer] is a list of bytes; the numbers the code computes from
      bytes are integers below [2^32], which JavaScript's doubles represent
      exactly, so they are modelled in [Z].
    - The V8 engine, the file system and the [path] module are not part of
      the repository: they are the fields of a [Host] record.  Compiling a
      text runs no code of the user and is a function of the text; running a
      script, applying a function and calling a method of an object run code
      of the user, which may read and change the buffers, the files and the
      global state: these take the store and return a new one.
    - The engine limits the length of a string; building the placeholder
      from a decoded length fails past that limit, as [String.prototype.repeat]
      and [+] do.
    - The built-in objects the program uses ([String], [Buffer], [Array],
      [Math], [fs], [path]) are the ones the host ships: the user has not
      replaced their methods.
    - The world also records, in order, the requests the program itself makes
      to its host. *)

From Stdlib Require Import ZArith Strings.String Strings.Ascii Strings.Byte.
From stdpp Require Import base decidable option list gmap.

Local Open Scope Z_scope.

(** ** JavaScript strings *)

Abbreviation JSString := (list N).

(** An ASCII literal as a JavaScript string. *)
Definition js (s : string) : JSString :=
  map N_of_ascii (list_ascii_of_string s).

(** [String.prototype.startsWith] (position 0). *)
Fixpoint startsWith (s p : JSString) : bool :=
  match p, s with
  | [], _ => true
  | c :: p', d :: s' => (c =? d)%N && startsWith s' p'
  | _ :: _, [] => false
  end.

(** ** Buffers *)

Abbreviation Buffer := (list byte).

Definition byteVal (x : byte) : Z := Z.of_N (Byte.to_N x).

(** [buf.slice(start, end)] for non-negative [start] and [end]: both ends are
    clamped to the length of the buffer. *)
Definition slice (buf : Buffer) (start finish : nat) : Buffer :=
  take (finish - start) (drop start buf).

(** [source.copy(target, targetStart)]: the bytes of [source] overwrite
    [target] from [targetStart] on; what does not fit in [target] is dropped,
    and nothing is copied when [targetStart] is at or past its end.  The
    length of [target] never changes. *)
Definition copy (source target : Buffer) (targetStart : nat) : Buffer :=
  list_inserts targetStart source target.

(** [Array.prototype.reduce] with the index passed to the callback. *)
Fixpoint reduceFrom {A B} (f : B -> A -> nat -> B) (k : nat) (acc : B)
    (l : list A) : B :=
  match l with
  | [] => acc
  | x :: l' => reduceFrom f (S k) (f acc x k) l'
  end.

Definition reduce {A B} (f : B -> A -> nat -> B) (init : B) (l : list A) : B :=
  reduceFrom f 0%nat init l.

(** ** Version tests of [fixBytecode] and [readSourceHash] *)

(** [process.version.startsWith('v8.8') || process.version.startsWith('v8.9')] *)
Definition isNode8 (version : JSString) : bool :=
  startsWith version (js "v8.8") || startsWith version (js "v8.9").

(** [startsWith('v12') || startsWith('v13') || startsWith('v14') || startsWith('v15')] *)
Definition isNode12to15 (version : JSString) : bool :=
  startsWith version (js "v12") || startsWith version (js "v13") ||
  startsWith version (js "v14") || startsWith version (js "v15").

(** ** The header patcher, on the bytes

    [fixBytecodeBytes version dummyBytecode bytecodeBuffer] is the content of
    [bytecodeBuffer] after the three branches of [fixBytecode], where
    [dummyBytecode] is the buffer [compileCode] returned for the dummy
    source. *)
Definition fixBytecodeBytes (version : JSString) (dummyBytecode bytecodeBuffer : Buffer)
    : Buffer :=
  if isNode8 version then
    let bytecodeBuffer := copy (slice dummyBytecode 16 20) bytecodeBuffer 16 in
    copy (slice dummyBytecode 20 24) bytecodeBuffer 20
  else if isNode12to15 version then
    copy (slice dummyBytecode 12 16) bytecodeBuffer 12
  else
    let bytecodeBuffer := copy (slice dummyBytecode 12 16) bytecodeBuffer 12 in
    copy (slice dummyBytecode 16 20) bytecodeBuffer 16.

(** ** The source-hash reader, on the bytes *)
Definition readSourceHashBytes (version : JSString) (bytecodeBuffer : Buffer) : Z :=
  if isNode8 version then
    reduce (fun sum number power => sum + byteVal number * 256 ^ Z.of_nat power) 0
           (slice bytecodeBuffer 12 16)
  else
    reduce (fun sum number power => sum + byteVal number * 256 ^ Z.of_nat power) 0
           (slice bytecodeBuffer 8 12).

(** ** Values, errors and the world *)

(** A reference to an object on the heap. *)
Definition loc := nat.

Inductive HostObject := Process | Global | ModuleExtensions | ModuleCache.

(** The function [require] that the loader hook builds: it forwards to
    [module.require] of [requireModule]; the other fields are the properties
    the hook attaches to it ([None]: not attached). *)
Record RequireFunction := {
  requireModule : loc;
  requireResolve : option loc;   (* resolves with [Module._resolveFilename] against this module *)
  requireMain : option loc;
  requireExtensions : option HostObject;
  requireCache : option HostObject }.

Inductive Value :=
| VUndefined
| VNull
| VBoolean (b : bool)
| VNumber (z : Z)
| VString (s : JSString)
| VBuffer (l : loc)            (* a [Buffer], whose bytes are on the heap *)
| VObject (l : loc)            (* any other object, a [Uint8Array] included *)
| VFunction (l : loc)
| VRequire (r : RequireFunction)
| VHost (o : HostObject)
| VStringObject (s : JSString). (* a [String] object [new String(s)] with no property of its own *)

Inductive TypeOf := TUndefined | TObject | TBoolean | TNumber | TString | TFunction.

Definition typeof (v : Value) : TypeOf :=
  match v with
  | VUndefined => TUndefined
  | VNull | VBuffer _ | VObject _ | VHost _ | VStringObject _ => TObject
  | VBoolean _ => TBoolean
  | VNumber _ => TNumber
  | VString _ => TString
  | VFunction _ | VRequire _ => TFunction
  end.

(** [Buffer.isBuffer] *)
Definition isBuffer (v : Value) : bool :=
  match v with VBuffer _ => true | _ => false end.

(** JavaScript's truthiness, for [||] and [if]. *)
Definition truthy (v : Value) : bool :=
  match v with
  | VUndefined | VNull => false
  | VBoolean b => b
  | VNumber z => negb (z =? 0)
  | VString s => negb (bool_decide (s = []))
  | _ => true
  end.

(** What the host (engine, file system, executed code) throws. *)
Inductive HostExn :=
| TypeError
| SyntaxError
| RangeError
| ENOENT
| Thrown (v : Value).

(** The errors of the program: one constructor per [throw] statement of
    [src/index.ts], and one for what the host throws. *)
Inductive Exn :=
| JavascriptCodeMustBeString (given : TypeOf)
| BytecodeBufferMustBeBuffer
| CachedDataRejected
| FilenameMustBeString (given : TypeOf)
| OutputMustBeString (given : TypeOf)
| ElectronNotInstalled
| HostException (e : HostExn).

(** The taxonomy of the specification. *)
Inductive ErrorKind := InvalidArgument | IncompatibleCache | HostFailure.

Definition errorKind (e : Exn) : ErrorKind :=
  match e with
  | JavascriptCodeMustBeString _ | BytecodeBufferMustBeBuffer
  | FilenameMustBeString _ | OutputMustBeString _ | ElectronNotInstalled => InvalidArgument
  | CachedDataRejected => IncompatibleCache
  | HostException _ => HostFailure
  end.

Inductive Result (A : Type) :=
| Ok (a : A)
| Throw (e : Exn).
Arguments Ok {A} a.
Arguments Throw {A} e.

Definition outcome {A} (r : HostExn + A) : Result A :=
  match r with
  | inl e => Throw (HostException e)
  | inr a => Ok a
  end.

(** The script object of [new vm.Script(code, { produceCachedData: true })]:
    what its method [createCachedData] returns ([None] when the engine build
    has no such method) and its field [cachedData] ([None]: undefined). *)
Record ProducedScript := {
  createCachedData : option Buffer;
  cachedData : option Buffer }.

(** The script object of [new vm.Script(code, { filename?, cachedData })]:
    the placeholder source, the file name when one is given, and the bytes
    the cache buffer held when the script was constructed. *)
Record CachedScript := {
  scriptSource : JSString;
  scriptFilename : option JSString;
  scriptCachedData : Buffer }.

(** The options object of [compileFile]; a field that is absent is
    [VUndefined]. *)
Record BytenodeOptions := {
  args_filename : Value;
  args_output : Value;
  args_compileAsModule : Value;
  args_electron : Value;
  args_createLoader : Value;
  args_loaderFilename : Value }.

(** What the program asks of its host. *)
Inductive Event :=
| EvNewScript (code : JSString)                    (* [new vm.Script(code, {produceCachedData})] *)
| EvNewCachedScript (script : CachedScript)        (* [new vm.Script(code, {cachedData})] *)
| EvRunInThisContext (script : CachedScript)
| EvApply (f this : Value) (args : list Value)
| EvReadFile (path : JSString)
| EvWriteFile (path : JSString) (data : Buffer)
| EvFork (code : JSString).

(** What code of the user can read and change when it runs: the buffers on
    the heap (a reference is an index), the files, and the global state of
    the engine. *)
Record Store := {
  storeHeap : list Buffer;
  storeFiles : gmap JSString Buffer;
  storeGlobals : gmap JSString Value }.

(** The host: the engine and the library functions the program calls.
    [vmRunInThisContext], [functionApply] and [objectReplace] run code of the
    user on the store; the others are functions of their arguments.
    [objectReplace] is the call [o.replace(pattern, replacement)] on an
    object or function [o] other than a [String]; it throws a [TypeError]
    when [o] has no such method.  [moduleExports] is the value of the
    property [exports] of a module object in a store. *)
Record Host := {
  processVersion : JSString;
  processMainModule : option loc;
  stringMaxLength : Z;
  vmScript : JSString -> HostExn + ProducedScript;
  vmCachedDataRejected : CachedScript -> bool;
  vmRunInThisContext : CachedScript -> Store -> (HostExn + Value) * Store;
  functionApply : Value -> Value -> list Value -> Store -> (HostExn + Value) * Store;
  objectReplace : Value -> JSString -> JSString -> Store -> (HostExn + Value) * Store;
  moduleExports : loc -> Store -> Value;
  moduleWrap : JSString -> JSString;
  stringReplace : JSString -> JSString -> JSString -> JSString;
  pathJoin : list JSString -> JSString;
  pathDirname : JSString -> JSString;
  pathRelative : JSString -> JSString -> JSString;
  pathParseName : JSString -> JSString;
  utf8Decode : Buffer -> JSString;
  utf8Encode : JSString -> Buffer;
  electronFork : JSString -> HostExn + Buffer }.

(** The world: the buffers on the heap, the files, the global state of the
    engine, and the requests the program made to the host so far, oldest
    first. *)
Record World := {
  heap : list Buffer;
  files : gmap JSString Buffer;
  globals : gmap JSString Value;
  trace : list Event }.

Definition setHeap (h : list Buffer) (w : World) : World :=
  {| heap := h; files := files w; globals := globals w; trace := trace w |}.

Definition setFiles (f : gmap JSString Buffer) (w : World) : World :=
  {| heap := heap w; files := f; globals := globals w; trace := trace w |}.

Definition emit (e : Event) (w : World) : World :=
  {| heap := heap w; files := files w; globals := globals w;
     trace := trace w ++ [e] |}.

Definition storeOf (w : World) : Store :=
  {| storeHeap := heap w; storeFiles := files w; storeGlobals := globals w |}.

Definition setStore (store : Store) (w : World) : World :=
  {| heap := storeHeap store; files := storeFiles store;
     globals := storeGlobals store; trace := trace w |}.

(** ** The monad of the program: state and exceptions *)

Definition M (A : Type) : Type := World -> Result A * World.

Global Instance M_ret : MRet M := fun A a w => (Ok a, w).

Global Instance M_bind : MBind M := fun A B f m w =>
  match m w with
  | (Ok a, w') => f a w'
  | (Throw e, w') => (Throw e, w')
  end.

Definition throw {A} (e : Exn) : M A := fun w => (Throw e, w).

Definition liftHost {A} (r : HostExn + A) : M A :=
  match r with
  | inl e => throw (HostException e)
  | inr a => mret a
  end.

(** Reading in the store. *)
Definition inspect {A} (read : Store -> A) : M A := fun w => (Ok (read (storeOf w)), w).

(** Code of the user runs on the store; what it throws is thrown on. *)
Definition perform {A} (run : Store -> (HostExn + A) * Store) : M A := fun w =>
  (outcome (run (storeOf w)).1, setStore (run (storeOf w)).2 w).

Definition tell (e : Event) : M unit := fun w => (Ok tt, emit e w).

(** A new [Buffer] object with the given bytes. *)
Definition alloc (bytes : Buffer) : M Value := fun w =>
  (Ok (VBuffer (length (heap w))), setHeap (heap w ++ [bytes]) w).

(** The bytes of a [Buffer] object.  A reference outside the heap does not
    occur in a JavaScript program; the model fails there. *)
Definition load (l : loc) : M Buffer := fun w =>
  match heap w !! l with
  | Some bytes => (Ok bytes, w)
  | None => (Throw (HostException TypeError), w)
  end.

Definition store (l : loc) (bytes : Buffer) : M unit := fun w =>
  (Ok tt, setHeap (<[l:=bytes]> (heap w)) w).

(** The content of a file, when it exists. *)
Definition fileContent (path : JSString) : M (option Buffer) := fun w =>
  (Ok (files w !! path), w).

Definition putFile (path : JSString) (bytes : Buffer) : M unit := fun w =>
  (Ok tt, setFiles (<[path:=bytes]> (files w)) w).

(** ** String helpers of the program *)

Definition COMPILED_EXTNAME : JSString := js ".jsc".

(** The dummy source of [fixBytecode]: a string literal holding U+0CA0,
    [_], U+0CA0. *)
Definition dummySource : JSString := [34; 3232; 95; 3232; 34]%N.

(** U+200B, the zero width space of [runBytecode]. *)
Definition zeroWidthSpace : JSString := [8203]%N.

Definition quote : JSString := [34]%N.

(** [s.repeat(count)]: a [RangeError] for a negative count and for a result
    longer than the engine allows ([limit]). *)
Definition stringRepeat (limit : Z) (s : JSString) (count : Z) : HostExn + JSString :=
  if (count <? 0) || (limit <? Z.of_nat (length s) * count) then inl RangeError
  else inr (mjoin (replicate (Z.to_nat count) s)).

(** [a + b] on strings: a [RangeError] for a result longer than the engine
    allows. *)
Definition stringConcat (limit : Z) (a b : JSString) : HostExn + JSString :=
  if limit <? Z.of_nat (length a + length b) then inl RangeError
  else inr (a ++ b).

Definition isLineTerminator (c : N) : bool :=
  ((c =? 10) || (c =? 13) || (c =? 8232) || (c =? 8233))%N.

Fixpoint skipLine (s : JSString) : JSString :=
  match s with
  | [] => []
  | c :: s' => if isLineTerminator c then s else skipLine s'
  end.

(** [code.replace(/^#!.*/, '')]: the pattern matches at the start of the
    string only, and [.] stops at the first line terminator. *)
Definition stripShebang (code : JSString) : JSString :=
  if startsWith code (js "#!") then skipLine code else code.

(** [loaderCode]: the template literal with its line breaks. *)
Definition loaderCode (relativePath : JSString) : JSString :=
  [10]%N ++ js "    const bytenode = require('bytenode');" ++
  [10]%N ++ js "    require('./" ++ relativePath ++ js "');" ++
  [10]%N ++ js "  ".

(** ** The program *)

Section Program.

Context (H : Host).

(** [new vm.Script(code, { produceCachedData: true })] *)
Definition newScript (code : JSString) : M ProducedScript :=
  tell (EvNewScript code) ;;
  liftHost (vmScript H code).

(** [new vm.Script(code, { filename, cachedData })].  The engine takes the
    bytes the buffer holds at that moment. *)
Definition newCachedScript (code : JSString) (filename : option JSString)
    (cached : Value) : M CachedScript :=
  match cached with
  | VBuffer l =>
      bytes ← load l;
      let script := {| scriptSource := code; scriptFilename := filename;
                       scriptCachedData := bytes |} in
      tell (EvNewCachedScript script) ;;
      mret script
  | _ => throw (HostException TypeError)
  end.

(** [script.runInThisContext()]: the script runs on the store. *)
Definition runInThisContext (script : CachedScript) : M Value :=
  tell (EvRunInThisContext script) ;;
  perform (vmRunInThisContext H script).

(** [f.apply(this, args)]: the function runs on the store. *)
Definition apply (f this : Value) (args : list Value) : M Value :=
  tell (EvApply f this args) ;;
  perform (functionApply H f this args).

(** [v.replace(pattern, replacement)] for a pattern that is a string: the
    method of strings on a string and on a [String] object; a [TypeError] on
    [undefined] and [null], which have no properties, and on a boolean and a
    number, whose prototypes have no method [replace]; on any other object
    or function, whatever the object has under that name. *)
Definition callReplace (v : Value) (pattern replacement : JSString) : M Value :=
  match v with
  | VString s | VStringObject s => mret (VString (stringReplace H s pattern replacement))
  | VUndefined | VNull | VBoolean _ | VNumber _ => throw (HostException TypeError)
  | _ => perform (objectReplace H v pattern replacement)
  end.

(** [fs.existsSync] *)
Definition existsSync (path : JSString) : M bool :=
  content ← fileContent path;
  mret (bool_decide (is_Some content)).

(** [fs.readFileSync(path)]: a new buffer with the bytes of the file. *)
Definition readFileSync (path : JSString) : M Value :=
  tell (EvReadFile path) ;;
  content ← fileContent path;
  match content with
  | Some bytes => alloc bytes
  | None => throw (HostException ENOENT)
  end.

(** [fs.readFileSync(path, 'utf-8')] *)
Definition readFileSyncUtf8 (path : JSString) : M JSString :=
  tell (EvReadFile path) ;;
  content ← fileContent path;
  match content with
  | Some bytes => mret (utf8Decode H bytes)
  | None => throw (HostException ENOENT)
  end.

(** [fs.writeFileSync(path, data)]; writing itself does not fail in this
    model. *)
Definition writeFileSync (path : JSString) (data : Value) : M unit :=
  bytes ← match data return M Buffer with
          | VBuffer l => load l
          | VString s => mret (utf8Encode H s)
          | _ => throw (HostException TypeError)
          end;
  tell (EvWriteFile path bytes) ;;
  putFile path bytes.

(** [source.slice(start, end).copy(target, targetStart)] on two buffer
    objects. *)
Definition sliceCopy (source : loc) (start finish : nat) (target : loc)
    (targetStart : nat) : M unit :=
  s ← load source;
  t ← load target;
  store target (copy (slice s start finish) t targetStart).

Definition compileCode (javascriptCode : Value) : M Value :=
  match javascriptCode with
  | VString code =>
      script ← newScript code;
      match createCachedData script with
      | Some bytes => alloc bytes
      | None =>
          match cachedData script with
          | Some bytes => alloc bytes
          | None => mret VUndefined
          end
      end
  | _ => throw (JavascriptCodeMustBeString (typeof javascriptCode))
  end.

Definition compileElectronCode (javascriptCode : JSString) : M Value :=
  let electronPath := pathJoin H [js "node_modules"; js "electron"; js "cli.js"] in
  installed ← existsSync electronPath;
  if negb installed then throw ElectronNotInstalled else
  tell (EvFork javascriptCode) ;;
  data ← liftHost (electronFork H javascriptCode);
  alloc data.

Definition fixBytecode (bytecodeBuffer : Value) : M unit :=
  match bytecodeBuffer with
  | VBuffer target =>
      dummyBytecode ← compileCode (VString dummySource);
      match dummyBytecode with
      | VBuffer dummy =>
          if isNode8 (processVersion H) then
            sliceCopy dummy 16 20 target 16 ;;
            sliceCopy dummy 20 24 target 20
          else if isNode12to15 (processVersion H) then
            sliceCopy dummy 12 16 target 12
          else
            sliceCopy dummy 12 16 target 12 ;;
            sliceCopy dummy 16 20 target 16
      | _ => throw (HostException TypeError)
      end
  | _ => throw BytecodeBufferMustBeBuffer
  end.

Definition readSourceHash (bytecodeBuffer : Value) : M Z :=
  match bytecodeBuffer with
  | VBuffer l =>
      bytes ← load l;
      mret (readSourceHashBytes (processVersion H) bytes)
  | _ => throw BytecodeBufferMustBeBuffer
  end.

Definition runBytecode (bytecodeBuffer : Value) : M Value :=
  if negb (isBuffer bytecodeBuffer) then throw BytecodeBufferMustBeBuffer else
  fixBytecode bytecodeBuffer ;;
  length ← readSourceHash bytecodeBuffer;
  let dummyCode : JSString := [] in
  dummyCode ←
    (if length >? 1 then
       repeated ← liftHost (stringRepeat (stringMaxLength H) zeroWidthSpace (length - 2));
       opened ← liftHost (stringConcat (stringMaxLength H) quote repeated);
       liftHost (stringConcat (stringMaxLength H) opened quote)
     else mret dummyCode);
  script ← newCachedScript dummyCode None bytecodeBuffer;
  if vmCachedDataRejected H script then throw CachedDataRejected else
  runInThisContext script.

Definition runBytecodeFile (filename : Value) : M Value :=
  match filename with
  | VString filename =>
      bytecodeBuffer ← readFileSync filename;
      runBytecode bytecodeBuffer
  | _ => throw (FilenameMustBeString (typeof filename))
  end.

(** The handler registered as [Module._extensions['.jsc']]; [module] is the
    module object.  The hook reads [module.exports] after it ran the script,
    for the arguments and again for [this]. *)
Definition Module_extensions_jsc (module : loc) (filename : JSString)
    : M Value :=
  bytecodeBuffer ← readFileSync filename;
  fixBytecode bytecodeBuffer ;;
  length ← readSourceHash bytecodeBuffer;
  let dummyCode : JSString := [] in
  dummyCode ←
    (if length >? 1 then
       repeated ← liftHost (stringRepeat (stringMaxLength H) zeroWidthSpace (length - 2));
       opened ← liftHost (stringConcat (stringMaxLength H) quote repeated);
       liftHost (stringConcat (stringMaxLength H) opened quote)
     else mret dummyCode);
  script ← newCachedScript dummyCode (Some filename) bytecodeBuffer;
  if vmCachedDataRejected H script then throw CachedDataRejected else
  let require := {| requireModule := module; requireResolve := None;
                    requireMain := None; requireExtensions := None;
                    requireCache := None |} in
  let require := {| requireModule := requireModule require;
                    requireResolve := Some module;
                    requireMain := requireMain require;
                    requireExtensions := requireExtensions require;
                    requireCache := requireCache require |} in
  let require :=
    match processMainModule H with
    | Some main => {| requireModule := requireModule require;
                      requireResolve := requireResolve require;
                      requireMain := Some main;
                      requireExtensions := requireExtensions require;
                      requireCache := requireCache require |}
    | None => require
    end in
  let require := {| requireModule := requireModule require;
                    requireResolve := requireResolve require;
                    requireMain := requireMain require;
                    requireExtensions := Some ModuleExtensions;
                    requireCache := requireCache require |} in
  let require := {| requireModule := requireModule require;
                    requireResolve := requireResolve require;
                    requireMain := requireMain require;
                    requireExtensions := requireExtensions require;
                    requireCache := Some ModuleCache |} in
  compiledWrapper ← runInThisContext script;
  let dirname := pathDirname H filename in
  exports ← inspect (moduleExports H module);
  let args := [exports; VRequire require; VObject module;
               VString filename; VString dirname; VHost Process; VHost Global] in
  this ← inspect (moduleExports H module);
  apply compiledWrapper this args.

(** [a || b] *)
Definition jsOr (a b : Value) : Value := if truthy a then a else b.

(** [v !== false] *)
Definition isNotFalse (v : Value) : bool :=
  match v with VBoolean false => false | _ => true end.

Definition addLoaderFile (fileToLoad : JSString) (loaderFilename : Value) : M unit :=
  loaderFilePath ←
    match loaderFilename return M JSString with
    | VBoolean _ | VUndefined | VString [] =>
        mret (stringReplace H fileToLoad (js ".jsc") (js ".loader.js"))
    | _ =>
        loaderFilename ←
          callReplace loaderFilename (js "%") (pathParseName H fileToLoad);
        match loaderFilename with
        | VString loaderFilename =>
            mret (pathJoin H [pathDirname H fileToLoad; loaderFilename])
        | _ => throw (HostException TypeError)   (* [path.join] takes strings only *)
        end
    end;
  let relativePath := pathRelative H (pathDirname H loaderFilePath) fileToLoad in
  let code := loaderCode relativePath in
  writeFileSync loaderFilePath (VString code).

(** The first argument of [compileFile]: a string, an options object, [null],
    or a value of any other type. *)
Inductive CompileArgs :=
| ArgsString (filename : JSString)
| ArgsObject (options : BytenodeOptions)
| ArgsNull
| ArgsOther.

(** [args.output], read after the file name was checked. *)
Definition argsOutput (args : CompileArgs) : Value :=
  match args with
  | ArgsObject options => args_output options
  | _ => VUndefined
  end.

Definition compileFile (args : CompileArgs) (output : Value) : M JSString :=
  '(filename, compileAsModule, electron, createLoader, loaderFilename) ←
    match args return M (Value * Value * Value * Value * Value) with
    | ArgsString filename =>
        mret (VString filename, VBoolean true, VBoolean false, VBoolean false,
              VUndefined)
    | ArgsObject options =>
        let filename := args_filename options in
        let compileAsModule := VBoolean (isNotFalse (args_compileAsModule options)) in
        let electron := args_electron options in
        let createLoader := VBoolean true in
        let loaderFilename := args_loaderFilename options in
        let createLoader :=
          if truthy loaderFilename then VBoolean true else createLoader in
        mret (filename, compileAsModule, electron, createLoader, loaderFilename)
    | ArgsNull => throw (HostException TypeError)
    | ArgsOther =>
        mret (VUndefined, VUndefined, VUndefined, VUndefined, VUndefined)
    end;
  match filename with
  | VString filename =>
      let compiledFilename :=
        jsOr (jsOr (argsOutput args) output)
             (VString (take (length filename - 3) filename ++ COMPILED_EXTNAME)) in
      match compiledFilename with
      | VString compiledFilename =>
          javascriptCode ← readFileSyncUtf8 filename;
          let code :=
            if truthy compileAsModule then moduleWrap H (stripShebang javascriptCode)
            else stripShebang javascriptCode in
          bytecodeBuffer ←
            (if truthy electron then compileElectronCode code
             else compileCode (VString code));
          writeFileSync compiledFilename bytecodeBuffer ;;
          (if truthy createLoader then addLoaderFile compiledFilename loaderFilename
           else mret tt) ;;
          mret compiledFilename
      | _ => throw (OutputMustBeString (typeof compiledFilename))
      end
  | _ => throw (FilenameMustBeString (typeof filename))
  end.

End Program.

(** ** Derived notions used in the statements *)

(** The bytes [compileCode] takes from a script object. *)
Definition producedBytes (script : ProducedScript) : option Buffer :=
  match createCachedData script with
  | Some bytes => Some bytes
  | None => cachedData script
  end.

(** The bytes of the reference buffer of [fixBytecode], when the engine
    compiles the dummy source and hands out a cache for it. *)
Definition dummyBytecodeOf (H : Host) : option Buffer :=
  match vmScript H dummySource with
  | inr script => producedBytes script
  | inl _ => None
  end.

(** The text of the placeholder of [runBytecode] (lines 149-153) and of the
    loader hook (lines 265-269) for a decoded length.  The program builds
    it when the engine allows a string of that length, see [placeholderFor]. *)
Definition dummyCodeOf (length : Z) : JSString :=
  if length >? 1
  then quote ++ mjoin (replicate (Z.to_nat (length - 2)) zeroWidthSpace) ++ quote
  else [].

(** What lines 149-153 and 265-269 compute from a decoded length: the
    placeholder, or the [RangeError] of [repeat] or of [+]. *)
Definition placeholderFor (H : Host) (length : Z) : HostExn + JSString :=
  if length >? 1 then
    match stringRepeat (stringMaxLength H) zeroWidthSpace (length - 2) with
    | inl e => inl e
    | inr repeated =>
        match stringConcat (stringMaxLength H) quote repeated with
        | inl e => inl e
        | inr opened => stringConcat (stringMaxLength H) opened quote
        end
    end
  else inr [].

(** The decoded length asks for a string longer than the engine allows. *)
Definition pastStringLimit (H : Host) (length : Z) : bool :=
  (1 <? length) && (stringMaxLength H <? length).

(** The byte of a buffer at an index, [0] past its end. *)
Definition byteAt (buf : Buffer) (i : nat) : Z :=
  from_option byteVal 0 (buf !! i).

(** The version profile, in the words of the specification: three layouts,
    the byte ranges the patcher copies in each (start, end), and the offset
    of the length field. *)
Inductive Layout := Early | Mid | Current.

Definition layoutOf (version : JSString) : Layout :=
  if isNode8 version then Early
  else if isNode12to15 version then Mid
  else Current.

Definition patchRanges (layout : Layout) : list (nat * nat) :=
  match layout with
  | Early => [(16, 20); (20, 24)]
  | Mid => [(12, 16)]
  | Current => [(12, 16); (16, 20)]
  end%nat.

Definition lengthOffset (layout : Layout) : nat :=
  match layout with
  | Early => 12
  | Mid | Current => 8
  end.

(** Copying the listed ranges of a reference buffer, in order, each to the
    offset it comes from. *)
Definition copyRanges (ranges : list (nat * nat)) (reference target : Buffer)
    : Buffer :=
  foldl (fun target range => copy (slice reference range.1 range.2) target range.1)
        target ranges.

Definition inRange (range : nat * nat) (i : nat) : bool :=
  bool_decide (range.1 ≤ i < range.2)%nat.

Definition inRanges (ranges : list (nat * nat)) (i : nat) : bool :=
  existsb (fun range => inRange range i) ranges.

(** The patcher overwrites offset [i] under [version]: some reference
    buffer and some target differ there after the patch. *)
Definition overwrites (version : JSString) (i : nat) : Prop :=
  ∃ dummyBytecode bytecodeBuffer,
    fixBytecodeBytes version dummyBytecode bytecodeBuffer !! i ≠ bytecodeBuffer !! i.

(** The little-endian value of the four bytes from [offset] on. *)
Definition littleEndian32 (buf : Buffer) (offset : nat) : Z :=
  byteAt buf offset + byteAt buf (offset + 1) * 256 ^ 1
  + byteAt buf (offset + 2) * 256 ^ 2 + byteAt buf (offset + 3) * 256 ^ 3.

(** The files written, in order, among the requests to the host. *)
Definition writesOf (events : list Event) : list (JSString * Buffer) :=
  omap (fun e => match e with EvWriteFile path data => Some (path, data) | _ => None end)
       events.

(** The invocations of functions among the requests to the host. *)
Definition appliesOf (events : list Event) : list (Value * Value * list Value) :=
  omap (fun e => match e with EvApply f this args => Some (f, this, args) | _ => None end)
       events.

(** The engine calls among the requests to the host. *)
Definition isEngineCall (e : Event) : bool :=
  match e with
  | EvNewScript _ | EvNewCachedScript _ | EvRunInThisContext _ | EvApply _ _ _ => true
  | _ => false
  end.

(** The world after the engine was asked to compile [code] and a buffer with
    [bytes] was created for its cache. *)
Definition compiled (code : JSString) (bytes : Buffer) (w : World) : World :=
  setHeap (heap w ++ [bytes]) (emit (EvNewScript code) w).

(** The world after [fixBytecode] patched the buffer at [l]: the reference
    buffer is a new object, the target holds the patched bytes, and the
    engine was asked once, for the dummy source. *)
Definition patched (H : Host) (l : loc) (dummyBytecode bytecodeBuffer : Buffer)
    (w : World) : World :=
  {| heap := <[l := fixBytecodeBytes (processVersion H) dummyBytecode bytecodeBuffer]>
               (heap w ++ [dummyBytecode]);
     files := files w;
     globals := globals w;
     trace := trace w ++ [EvNewScript dummySource] |}.

(** The script object the runner and the loader hook construct from the
    patched bytes of a cache buffer. *)
Definition cachedScriptOf (H : Host) (filename : option JSString) (bytes : Buffer)
    : CachedScript :=
  {| scriptSource := dummyCodeOf (readSourceHashBytes (processVersion H) bytes);
     scriptFilename := filename;
     scriptCachedData := bytes |}.

(** The function [require] of the loader hook once all its properties are
    attached. *)
Definition requireOf (H : Host) (module : loc) : RequireFunction :=
  {| requireModule := module;
     requireResolve := Some module;
     requireMain := processMainModule H;
     requireExtensions := Some ModuleExtensions;
     requireCache := Some ModuleCache |}.

(** The world after [fs.readFileSync(path)] returned a new buffer. *)
Definition fileRead (path : JSString) (bytes : Buffer) (w : World) : World :=
  setHeap (heap w ++ [bytes]) (emit (EvReadFile path) w).

(** The sentence "the offsets of the current layout are shared with neither
    of the other two layouts": whatever the patcher overwrites under a
    version of the current layout, it leaves alone under the versions of the
    mid and of the early layout. *)
Definition currentOffsetsUnshared : Prop :=
  ∀ current mid early : JSString,
    layoutOf current = Current → layoutOf mid = Mid → layoutOf early = Early →
    ∀ i, overwrites current i → ¬ overwrites mid i ∧ ¬ overwrites early i.

(** The options object with its [createLoader] replaced. *)
Definition withCreateLoader (createLoader : Value) (options : BytenodeOptions)
    : BytenodeOptions :=
  {| args_filename := args_filename options;
     args_output := args_output options;
     args_compileAsModule := args_compileAsModule options;
     args_electron := args_electron options;
     args_createLoader := createLoader;
     args_loaderFilename := args_loaderFilename options |}.

(** The values of [loaderFilename] with which [addLoaderFile] runs no code
    of the user: a boolean, [undefined], a string and a [String] object. *)
Definition plainLoaderFilename (loaderFilename : Value) : bool :=
  match loaderFilename with
  | VBoolean _ | VUndefined | VString _ | VStringObject _ => true
  | _ => false
  end.

(** The content of the loader file at [loaderFilePath] for an artifact. *)
Definition loaderBytes (H : Host) (loaderFilePath compiledFilename : JSString)
    : Buffer :=
  utf8Encode H
    (loaderCode (pathRelative H (pathDirname H loaderFilePath) compiledFilename)).

(** The statements of [compileFile] from the reading of the source file on
    (lines 215-239), once the file names are known to be strings. *)
Definition compileFileFrom (H : Host) (filename compiledFilename : JSString)
    (compileAsModule electron createLoader loaderFilename : Value) : M JSString :=
  javascriptCode ← readFileSyncUtf8 H filename;
  let code :=
    if truthy compileAsModule then moduleWrap H (stripShebang javascriptCode)
    else stripShebang javascriptCode in
  bytecodeBuffer ←
    (if truthy electron then compileElectronCode H code
     else compileCode H (VString code));
  writeFileSync H compiledFilename bytecodeBuffer ;;
  (if truthy createLoader then addLoaderFile H compiledFilename loaderFilename
   else mret tt) ;;
  mret compiledFilename.

(** What a run of [compileFile] with an options object wrote.  It failed
    before writing: no request to write and the files as they were.  It
    returned: the artifact was written and then the loader file, which holds
    the loader code; with a plain [loaderFilename] no other file changed.
    The artifact was written and computing the name of the loader file
    failed, which a plain [loaderFilename] never does. *)
Inductive Written (H : Host) (loaderFilename : Value) (before : World)
    : Result JSString → World → Prop :=
| WroteNothing e after :
    writesOf (trace after) = writesOf (trace before) →
    files after = files before →
    Written H loaderFilename before (Throw e) after
| WroteArtifactAndLoader compiledFilename bytecode loaderFilePath after :
    writesOf (trace after)
    = writesOf (trace before)
      ++ [(compiledFilename, bytecode);
          (loaderFilePath, loaderBytes H loaderFilePath compiledFilename)] →
    files after !! loaderFilePath
    = Some (loaderBytes H loaderFilePath compiledFilename) →
    (plainLoaderFilename loaderFilename = true →
     files after
     = <[loaderFilePath := loaderBytes H loaderFilePath compiledFilename]>
         (<[compiledFilename := bytecode]> (files before))) →
    Written H loaderFilename before (Ok compiledFilename) after
| LoaderFailed compiledFilename bytecode e after :
    plainLoaderFilename loaderFilename = false →
    writesOf (trace after) = writesOf (trace before) ++ [(compiledFilename, bytecode)] →
    Written H loaderFilename before (Throw (HostException e)) after.

(** The sentence "the runner synthesizes the placeholder for the length it
    decodes and compiles it", read for every buffer: after the patch, the
    next request of [runBytecode] to the engine is the placeholder with the
    patched bytes. *)
Definition placeholderAlwaysCompiled : Prop :=
  ∀ (H : Host) (w : World) (l : loc) (bytecodeBuffer dummyBytecode : Buffer),
    heap w !! l = Some bytecodeBuffer →
    dummyBytecodeOf H = Some dummyBytecode →
    ∃ rest,
      trace (runBytecode H (VBuffer l) w).2
      = trace w
        ++ [EvNewScript dummySource;
            EvNewCachedScript
              (cachedScriptOf H None
                 (fixBytecodeBytes (processVersion H) dummyBytecode bytecodeBuffer))]
        ++ rest.

(** ** The wrapping convention *)

(** The two strings Node's [Module.wrap] puts around the code of a module
    ([Module.wrapper]). *)
Definition nodeWrapperHead : JSString :=
  js "(function (exports, require, module, __filename, __dirname) { ".

Definition nodeWrapperTail : JSString := [10]%N ++ js "});".

Definition nodeModuleWrap (code : JSString) : JSString :=
  nodeWrapperHead ++ code ++ nodeWrapperTail.

(** The text before the first occurrence of the code unit [c]. *)
Fixpoint upTo (c : N) (s : JSString) : JSString :=
  match s with
  | [] => []
  | d :: s' => if (d =? c)%N then [] else d :: upTo c s'
  end.

(** The names in a list of names separated by commas; blanks are skipped. *)
Fixpoint splitNames (s name : JSString) : list JSString :=
  match s with
  | [] => [name]
  | c :: s' =>
      if (c =? 44)%N then name :: splitNames s' []
      else if (c =? 32)%N then splitNames s' name
      else splitNames s' (name ++ [c])
  end.

(** The names of the formal parameters of a text that starts as a function
    expression in parentheses, [(function (a, b) { ...]. *)
Definition wrapperParameters (code : JSString) : list JSString :=
  if startsWith code (js "(function (")
  then splitNames (upTo 41 (drop 11 code)) []
  else [].

(** A call binds the formal parameters to the arguments by position,
    to [undefined] where the arguments run out; an argument past the last
    parameter gets no name. *)
Fixpoint bindParameters (parameters : list JSString) (args : list Value)
    : list (JSString * Value) :=
  match parameters with
  | [] => []
  | p :: parameters' =>
      (p, default VUndefined (head args)) :: bindParameters parameters' (tail args)
  end.

(** ** The engine the specification assumes *)


(** The store on which [runBytecode] runs the script of a buffer that
    [compileCode] made in [w]: the store of [w] and, behind its buffers, the
    patched cache and the reference buffer of the patcher. *)
Definition storeAtRun (H : Host) (w : World) (cache dummyBytecode : Buffer) : Store :=
  {| storeHeap := heap w ++ [fixBytecodeBytes (processVersion H) dummyBytecode cache;
                             dummyBytecode];
     storeFiles := files w;
     storeGlobals := globals w |}.


(** ** A small host, to run the program on concrete inputs

    Its engine writes a 24-byte header (magic number, version hash, the
    length of the source in little-endian order, flag hash and two more
    words) in front of the low bytes of the source, rejects a cache whose
    length field differs from the length of the source it is given, and
    evaluates every script to one function, without touching the store.  It
    allows strings of up to 2^29 - 24 characters. *)
Module Example.

Definition lowByte (c : N) : byte :=
  default "000"%byte (Byte.of_N (c mod 256)).

Definition word (n : N) : Buffer :=
  [lowByte n; lowByte (n / 256); lowByte (n / 65536); lowByte (n / 16777216)].

Definition cacheOf (code : JSString) : Buffer :=
  word 3237998080 ++ word 2020 ++ word (N.of_nat (length code)) ++ word 707406378
  ++ word 1 ++ word 4294967295 ++ map lowByte code.

Fixpoint replaceFirst (s pattern replacement : JSString) : JSString :=
  if startsWith s pattern then replacement ++ drop (length pattern) s
  else match s with
       | [] => []
       | c :: s' => c :: replaceFirst s' pattern replacement
       end.

Definition host : Host :=
  {| processVersion := js "v16.13.0";
     processMainModule := None;
     stringMaxLength := 536870888;
     vmScript := fun code =>
       inr {| createCachedData := Some (cacheOf code); cachedData := None |};
     vmCachedDataRejected := fun script =>
       negb (Z.of_nat (length (scriptSource script))
             =? littleEndian32 (scriptCachedData script) 8);
     vmRunInThisContext := fun _ store => (inr (VFunction 9%nat), store);
     functionApply := fun _ _ args store =>
       (inr (VNumber (Z.of_nat (length args))), store);
     objectReplace := fun _ _ _ store => (inl TypeError, store);
     moduleExports := fun module _ => VObject (S module);
     moduleWrap := nodeModuleWrap;
     stringReplace := replaceFirst;
     pathJoin := fun parts => mjoin (take 1 parts ++ ((fun p => js "/" ++ p) <$> drop 1 parts));
     pathDirname := fun _ => js ".";
     pathRelative := fun _ to => to;
     pathParseName := fun path => take (length path - 4) path;
     utf8Decode := map Byte.to_N;
     utf8Encode := map lowByte;
     electronFork := fun code => inr (cacheOf code) |}.

(** A cache for the source [1+1], with its flag hash zeroed. *)
Definition foreignCache : Buffer :=
  copy (word 0) (cacheOf (js "1+1")) 12.

(** The same cache with [2^29] in its length field, more than the longest
    string of the host. *)
Definition oversizedCache : Buffer :=
  copy (word 536870912) foreignCache 8.

Definition oversizedWorld : World :=
  {| heap := [oversizedCache];
     files := {[ js "big.jsc" := oversizedCache ]};
     globals := ∅;
     trace := [] |}.

Definition world : World :=
  {| heap := [foreignCache];
     files := {[ js "a.js" := utf8Encode host (js "1+1");
                 js "a.jsc" := foreignCache ]};
     globals := ∅;
     trace := [] |}.

Definition module : loc := 7%nat.

Definition options : BytenodeOptions :=
  {| args_filename := VString (js "a.js");
     args_output := VUndefined;
     args_compileAsModule := VUndefined;
     args_electron := VUndefined;
     args_createLoader := VBoolean false;
     args_loaderFilename := VUndefined |}.

End Example.

(** ** An engine that keeps the contract of the specification

    The host of [Example] with an engine that evaluates: it compiles the
    texts a string can hold, and it runs a cache by evaluating the low bytes
    of the source, which the cache holds behind its header.  The language
    is sums of decimal digits; any other text evaluates to [undefined]. *)
Module SpecEngine.

Definition digitValue (c : N) : option Z :=
  if ((48 <=? c) && (c <=? 57))%N then Some (Z.of_N c - 48) else None.

Fixpoint sumOfDigits (s : JSString) : option Z :=
  match s with
  | [] => None
  | d :: rest =>
      x ← digitValue d;
      match rest with
      | [] => Some x
      | plus :: rest' =>
          if (plus =? 43)%N then y ← sumOfDigits rest'; Some (x + y) else None
      end
  end.

Definition completionValue (s : JSString) : Value :=
  match sumOfDigits s with
  | Some z => VNumber z
  | None => VUndefined
  end.


Definition host : Host :=
  {| processVersion := processVersion Example.host;
     processMainModule := processMainModule Example.host;
     stringMaxLength := stringMaxLength Example.host;
     vmScript := fun code =>
       if Z.of_nat (length code) <=? stringMaxLength Example.host
       then inr {| createCachedData := Some (Example.cacheOf code); cachedData := None |}
       else inl RangeError;
     vmCachedDataRejected := vmCachedDataRejected Example.host;
     vmRunInThisContext := fun script store =>
       (inr (completionValue (Byte.to_N <$> drop 24 (scriptCachedData script))), store);
     functionApply := functionApply Example.host;
     objectReplace := objectReplace Example.host;
     moduleExports := moduleExports Example.host;
     moduleWrap := moduleWrap Example.host;
     stringReplace := stringReplace Example.host;
     pathJoin := pathJoin Example.host;
     pathDirname := pathDirname Example.host;
     pathRelative := pathRelative Example.host;
     pathParseName := pathParseName Example.host;
     utf8Decode := utf8Decode Example.host;
     utf8Encode := utf8Encode Example.host;
     electronFork := electronFork Example.host |}.

Definition world : World :=
  {| heap := []; files := ∅; globals := ∅; trace := [] |}.

End SpecEngine.

(** ** Further notions and inputs for the properties of the whole code *)

(** The world after [fs.writeFileSync(path, ...)] wrote [bytes]. *)
Definition wrote (path : JSString) (bytes : Buffer) (w : World) : World :=
  {| heap := heap w;
     files := <[path := bytes]> (files w);
     globals := globals w;
     trace := trace w ++ [EvWriteFile path bytes] |}.

(** The scripts run, in order, among the requests to the host. *)
Definition runsOf (events : list Event) : list CachedScript :=
  omap (fun e => match e with EvRunInThisContext script => Some script | _ => None end)
       events.

(** The path [addLoaderFile] computes for the loader file, when
    [loaderFilename] is a boolean, [undefined], a string or a [String]
    object. *)
Definition loaderFilePathOf (H : Host) (fileToLoad : JSString) (loaderFilename : Value)
    : option JSString :=
  match loaderFilename with
  | VBoolean _ | VUndefined | VString [] =>
      Some (stringReplace H fileToLoad (js ".jsc") (js ".loader.js"))
  | VString loaderFilename | VStringObject loaderFilename =>
      Some (pathJoin H [pathDirname H fileToLoad;
                        stringReplace H loaderFilename (js "%")
                          (pathParseName H fileToLoad)])
  | _ => None
  end.

(** The text [compileFile] hands to the compiler for a source file. *)
Definition codeOf (H : Host) (compileAsModule : Value) (content : Buffer) : JSString :=
  if truthy compileAsModule then moduleWrap H (stripShebang (utf8Decode H content))
  else stripShebang (utf8Decode H content).

(** A world of the example host with an artifact for the one-character
    source [1], which the example engine rejects, and options objects: with
    Electron asked for, with an output name without the extension [.jsc],
    and with a file name that is a number. *)
Module Example2.

Definition world : World :=
  {| heap := [];
     files := {[ js "a.js" := utf8Encode Example.host (js "1+1");
                 js "one.jsc" := Example.cacheOf (js "1") ]};
     globals := ∅;
     trace := [] |}.

(** The same world with the cache of [1] in a buffer. *)
Definition rejectedWorld : World :=
  {| heap := [Example.cacheOf (js "1")];
     files := files world;
     globals := ∅;
     trace := [] |}.

Definition options : BytenodeOptions :=
  {| args_filename := VString (js "a.js");
     args_output := VString (js "a.bin");
     args_compileAsModule := VBoolean false;
     args_electron := VBoolean true;
     args_createLoader := VUndefined;
     args_loaderFilename := VUndefined |}.

Definition binOptions : BytenodeOptions :=
  {| args_filename := VString (js "a.js");
     args_output := VString (js "a.bin");
     args_compileAsModule := VBoolean false;
     args_electron := VUndefined;
     args_createLoader := VUndefined;
     args_loaderFilename := VUndefined |}.

Definition numberOptions : BytenodeOptions :=
  {| args_filename := VNumber 7;
     args_output := VUndefined;
     args_compileAsModule := VUndefined;
     args_electron := VUndefined;
     args_createLoader := VUndefined;
     args_loaderFilename := VUndefined |}.

End Example2.

(** The file name [compileFile] finds in its first argument, when it is a
    string. *)
Definition argsFilename (args : CompileArgs) : option JSString :=
  match args with
  | ArgsString filename => Some filename
  | ArgsObject options =>
      match args_filename options with
      | VString filename => Some filename
      | _ => None
      end
  | _ => None
  end.

(** The values of [compileAsModule], [electron], [createLoader] and
    [loaderFilename] in the two forms of [compileFile]. *)
Definition argsCompileAsModule (args : CompileArgs) : Value :=
  match args with
  | ArgsObject options => VBoolean (isNotFalse (args_compileAsModule options))
  | _ => VBoolean true
  end.

Definition argsElectron (args : CompileArgs) : Value :=
  match args with
  | ArgsObject options => args_electron options
  | _ => VBoolean false
  end.

Definition argsCreateLoader (args : CompileArgs) : Value :=
  match args with
  | ArgsObject options => VBoolean true
  | _ => VBoolean false
  end.

Definition argsLoaderFilename (args : CompileArgs) : Value :=
  match args with
  | ArgsObject options => args_loaderFilename options
  | _ => VUndefined
  end.

(** The output name [compileFile] chooses. *)
Definition chosenOutput (args : CompileArgs) (output : Value) (filename : JSString)
    : Value :=
  jsOr (jsOr (argsOutput args) output)
       (VString (take (length filename - 3) filename ++ COMPILED_EXTNAME)).

(** * Properties *)

(** ** The definitions on small inputs *)

Example version_tests :
  isNode8 (js "v8.9.4") = true ∧ isNode8 (js "v18.2.0") = false
  ∧ isNode12to15 (js "v14.17.0") = true ∧ isNode12to15 (js "v16.13.0") = false
  ∧ layoutOf (js "v8.8.1") = Early ∧ layoutOf (js "v13.0.0") = Mid
  ∧ layoutOf (js "v10.24.1") = Current ∧ layoutOf (js "v16.13.0") = Current.
Proof. repeat split; reflexivity. Qed.

Example copy_fits_the_target :
  copy ["001"; "002"; "003"; "004"]%byte (replicate 14 "000"%byte) 12
  = replicate 12 "000"%byte ++ ["001"; "002"]%byte
  ∧ copy ["001"; "002"; "003"; "004"]%byte (replicate 12 "000"%byte) 12
    = replicate 12 "000"%byte.
Proof. split; reflexivity. Qed.

Example fixBytecodeBytes_examples :
  let dummy := replicate 24 "255"%byte in
  let target := replicate 24 "000"%byte in
  fixBytecodeBytes (js "v8.9.4") dummy target
  = replicate 16 "000"%byte ++ replicate 8 "255"%byte
  ∧ fixBytecodeBytes (js "v14.17.0") dummy target
    = replicate 12 "000"%byte ++ replicate 4 "255"%byte ++ replicate 8 "000"%byte
  ∧ fixBytecodeBytes (js "v16.13.0") dummy target
    = replicate 12 "000"%byte ++ replicate 8 "255"%byte ++ replicate 4 "000"%byte.
Proof. repeat split; reflexivity. Qed.

Example readSourceHashBytes_examples :
  let buf := replicate 8 "000"%byte ++ ["016"; "002"; "000"; "000"; "007"; "001"]%byte in
  readSourceHashBytes (js "v16.13.0") buf = 528
  ∧ readSourceHashBytes (js "v8.9.4") buf = 263
  ∧ readSourceHashBytes (js "v16.13.0") (replicate 9 "255"%byte) = 255.
Proof. repeat split; reflexivity. Qed.

Example dummyCodeOf_examples :
  dummyCodeOf 4 = [34; 8203; 8203; 34]%N ∧ dummyCodeOf 2 = [34; 34]%N
  ∧ dummyCodeOf 1 = [] ∧ dummyCodeOf 0 = [].
Proof. repeat split; reflexivity. Qed.

Example stripShebang_examples :
  stripShebang (js "#!/usr/bin/env node" ++ [10]%N ++ js "1+1") = [10]%N ++ js "1+1"
  ∧ stripShebang (js "1+1 // #!") = js "1+1 // #!".
Proof. split; reflexivity. Qed.

(** ** Buffers: [slice] and [copy] *)

Lemma length_copy source target targetStart :
  length (copy source target targetStart) = length target.
Proof. apply length_inserts. Qed.

Lemma lookup_slice buf start finish i :
  slice buf start finish !! i =
    if decide (start + i < finish)%nat then buf !! (start + i)%nat else None.
Proof.
  unfold slice. case_decide.
  - rewrite lookup_take_lt by lia. apply lookup_drop.
  - apply lookup_take_ge. lia.
Qed.

Lemma length_slice buf start finish :
  length (slice buf start finish) = ((finish - start) `min` (length buf - start))%nat.
Proof. unfold slice. by rewrite length_take, length_drop. Qed.

(** What [reference.slice(start, finish).copy(target, start)] leaves at each
    index: the byte of the reference inside the range, as far as both buffers
    reach, and the byte of the target elsewhere. *)
Lemma lookup_copy_slice reference target start finish i :
  copy (slice reference start finish) target start !! i =
    if decide (start ≤ i < finish ∧ i < length reference ∧ i < length target)%nat
    then reference !! i else target !! i.
Proof.
  unfold copy. case_decide as Hin.
  - destruct Hin as ([? ?] & ? & ?).
    rewrite list_lookup_inserts by (rewrite ?length_slice; lia).
    rewrite lookup_slice. rewrite decide_True by lia. f_equal. lia.
  - destruct (decide (i < start)%nat).
    { by apply list_lookup_inserts_lt. }
    destruct (decide (start + length (slice reference start finish) ≤ i)%nat).
    { by apply list_lookup_inserts_ge. }
    rewrite length_slice in *.
    assert (length target ≤ i)%nat by lia.
    rewrite (lookup_ge_None_2 target) by lia.
    apply lookup_ge_None_2. rewrite length_inserts. lia.
Qed.

Lemma lookup_copyRanges ranges reference target i :
  copyRanges ranges reference target !! i =
    if decide (inRanges ranges i = true ∧ i < length reference ∧ i < length target)%nat
    then reference !! i else target !! i.
Proof.
  unfold copyRanges. revert target.
  induction ranges as [|[start finish] ranges IH]; intros target; simpl.
  { done. }
  rewrite IH, length_copy, lookup_copy_slice. unfold inRange. simpl.
  destruct (bool_decide_reflect (start ≤ i < finish)%nat), (inRanges ranges i);
    simpl; repeat case_decide; try done; exfalso; intuition (done || lia).
Qed.

Lemma length_copyRanges ranges reference target :
  length (copyRanges ranges reference target) = length target.
Proof.
  unfold copyRanges. revert target.
  induction ranges as [|r ranges IH]; intros target; simpl; [done|].
  by rewrite IH, length_copy.
Qed.

(** The three branches of the patcher are the three rows of the version
    profile. *)
Lemma fixBytecodeBytes_copyRanges version dummyBytecode bytecodeBuffer :
  fixBytecodeBytes version dummyBytecode bytecodeBuffer =
  copyRanges (patchRanges (layoutOf version)) dummyBytecode bytecodeBuffer.
Proof.
  unfold fixBytecodeBytes, layoutOf.
  destruct (isNode8 version); [done|].
  by destruct (isNode12to15 version).
Qed.

Lemma length_fixBytecodeBytes version dummyBytecode bytecodeBuffer :
  length (fixBytecodeBytes version dummyBytecode bytecodeBuffer) = length bytecodeBuffer.
Proof. rewrite fixBytecodeBytes_copyRanges. apply length_copyRanges. Qed.

Lemma lookup_fixBytecodeBytes version dummyBytecode bytecodeBuffer i :
  fixBytecodeBytes version dummyBytecode bytecodeBuffer !! i =
    if decide (inRanges (patchRanges (layoutOf version)) i = true
               ∧ i < length dummyBytecode ∧ i < length bytecodeBuffer)%nat
    then dummyBytecode !! i else bytecodeBuffer !! i.
Proof. rewrite fixBytecodeBytes_copyRanges. apply lookup_copyRanges. Qed.

Lemma fixBytecodeBytes_idempotent version dummyBytecode bytecodeBuffer :
  fixBytecodeBytes version dummyBytecode
    (fixBytecodeBytes version dummyBytecode bytecodeBuffer) =
  fixBytecodeBytes version dummyBytecode bytecodeBuffer.
Proof.
  apply list_eq. intros i.
  rewrite (lookup_fixBytecodeBytes _ _ (fixBytecodeBytes _ _ _)).
  rewrite length_fixBytecodeBytes.
  case_decide as Hin; [|done].
  rewrite lookup_fixBytecodeBytes. by rewrite decide_True.
Qed.

(** ** The source-hash reader on the bytes *)

Lemma reduce_slice_littleEndian32 (buf : Buffer) (offset : nat) :
  reduce (fun sum number power => sum + byteVal number * 256 ^ Z.of_nat power) 0
         (slice buf offset (offset + 4)) = littleEndian32 buf offset.
Proof.
  unfold slice, littleEndian32, byteAt.
  replace (offset + 4 - offset)%nat with 4%nat by lia.
  rewrite <- (Nat.add_0_r offset) at 2.
  rewrite <- !lookup_drop.
  destruct (drop offset buf) as [|x0 [|x1 [|x2 [|x3 rest]]]];
    unfold reduce; simpl; lia.
Qed.

Lemma readSourceHashBytes_littleEndian32 version (bytecodeBuffer : Buffer) :
  readSourceHashBytes version bytecodeBuffer =
  littleEndian32 bytecodeBuffer (lengthOffset (layoutOf version)).
Proof.
  unfold readSourceHashBytes, layoutOf.
  destruct (isNode8 version).
  - apply (reduce_slice_littleEndian32 _ 12).
  - destruct (isNode12to15 version); apply (reduce_slice_littleEndian32 _ 8).
Qed.

Lemma byteAt_bounds (buf : Buffer) i : 0 ≤ byteAt buf i < 256.
Proof.
  unfold byteAt. destruct (buf !! i) as [x|]; simpl; [|lia].
  unfold byteVal. pose proof (Byte.to_N_bounded x). lia.
Qed.

(** The length field lies outside the ranges the patcher copies. *)
Lemma lengthField_not_patched layout (k : nat) :
  (k < 4)%nat → inRanges (patchRanges layout) (lengthOffset layout + k) = false.
Proof.
  intros Hk. destruct layout; simpl; unfold inRange; simpl;
    repeat (rewrite bool_decide_eq_false_2 by lia); done.
Qed.

Lemma byteAt_fixBytecodeBytes version dummyBytecode bytecodeBuffer (k : nat) :
  (k < 4)%nat →
  byteAt (fixBytecodeBytes version dummyBytecode bytecodeBuffer)
         (lengthOffset (layoutOf version) + k)
  = byteAt bytecodeBuffer (lengthOffset (layoutOf version) + k).
Proof.
  intros Hk. unfold byteAt. rewrite lookup_fixBytecodeBytes.
  rewrite lengthField_not_patched by done.
  by rewrite decide_False by (by intros [? _]).
Qed.

Lemma readSourceHashBytes_fixBytecodeBytes version dummyBytecode bytecodeBuffer :
  readSourceHashBytes version (fixBytecodeBytes version dummyBytecode bytecodeBuffer)
  = readSourceHashBytes version bytecodeBuffer.
Proof.
  rewrite !readSourceHashBytes_littleEndian32. unfold littleEndian32.
  rewrite <- (Nat.add_0_r (lengthOffset (layoutOf version))) at 1 5.
  by rewrite !byteAt_fixBytecodeBytes by lia.
Qed.

(** ** Running the program: equations of the monad *)

Lemma bind_Ok {A B} (m : M A) (f : A → M B) w a w' :
  m w = (Ok a, w') → (m ≫= f) w = f a w'.
Proof. unfold mbind, M_bind. by intros ->. Qed.

Lemma bind_Throw {A B} (m : M A) (f : A → M B) w e w' :
  m w = (Throw e, w') → (m ≫= f) w = (Throw e, w').
Proof. unfold mbind, M_bind. by intros ->. Qed.

Ltac run :=
  repeat first
    [ progress simpl
    | progress unfold mbind, M_bind, mret, M_ret, throw, tell, liftHost, load,
        store, alloc, fileContent, putFile ].

Section ProgramFacts.

Context (H : Host).

Lemma compileCode_string code w :
  compileCode H (VString code) w =
    match vmScript H code with
    | inl e => (Throw (HostException e), emit (EvNewScript code) w)
    | inr script =>
        match producedBytes script with
        | Some bytes => (Ok (VBuffer (length (heap w))), compiled code bytes w)
        | None => (Ok VUndefined, emit (EvNewScript code) w)
        end
    end.
Proof.
  unfold compileCode, newScript, producedBytes, compiled. run.
  destruct (vmScript H code) as [e|script]; run; [done|].
  destruct (createCachedData script); run; [done|].
  destruct (cachedData script); by run.
Qed.

Lemma sliceCopy_eq source start finish target targetStart w s t :
  heap w !! source = Some s →
  heap w !! target = Some t →
  sliceCopy source start finish target targetStart w =
    (Ok tt, setHeap (<[target := copy (slice s start finish) t targetStart]> (heap w)) w).
Proof. intros Hs Ht. unfold sliceCopy. run. rewrite Hs. run. by rewrite Ht. Qed.

Lemma fixBytecode_patched l w bytecodeBuffer dummyBytecode :
  heap w !! l = Some bytecodeBuffer →
  dummyBytecodeOf H = Some dummyBytecode →
  fixBytecode H (VBuffer l) w = (Ok tt, patched H l dummyBytecode bytecodeBuffer w).
Proof.
  intros Hl Hd. unfold fixBytecode, dummyBytecodeOf in *.
  pose proof (lookup_lt_Some _ _ _ Hl) as Hlt.
  erewrite bind_Ok; last first.
  { rewrite compileCode_string. destruct (vmScript H dummySource); [done|].
    by rewrite Hd. }
  set (w1 := compiled dummySource dummyBytecode w).
  assert (Hdummy : heap w1 !! length (heap w) = Some dummyBytecode).
  { simpl. by rewrite lookup_app_r, Nat.sub_diag by lia. }
  assert (Htarget : heap w1 !! l = Some bytecodeBuffer).
  { simpl. by rewrite lookup_app_l by lia. }
  assert (Hinsert : ∀ x y : Buffer,
    setHeap (<[l:=y]> (heap (setHeap (<[l:=x]> (heap w1)) w1)))
            (setHeap (<[l:=x]> (heap w1)) w1)
    = setHeap (<[l:=y]> (heap w1)) w1).
  { intros x y. unfold setHeap; simpl. by rewrite list_insert_insert_eq. }
  assert (Hfirst : ∀ x : Buffer,
    heap (setHeap (<[l:=x]> (heap w1)) w1) !! length (heap w) = Some dummyBytecode
    ∧ heap (setHeap (<[l:=x]> (heap w1)) w1) !! l = Some x).
  { intros x. simpl. split.
    - rewrite list_lookup_insert_ne by lia.
      by rewrite lookup_app_r, Nat.sub_diag by lia.
    - apply list_lookup_insert_eq. rewrite length_app. lia. }
  unfold patched, fixBytecodeBytes.
  destruct (isNode8 (processVersion H)); [|destruct (isNode12to15 (processVersion H))].
  - erewrite bind_Ok by (by apply sliceCopy_eq).
    erewrite sliceCopy_eq by apply Hfirst. by rewrite Hinsert.
  - by erewrite sliceCopy_eq.
  - erewrite bind_Ok by (by apply sliceCopy_eq).
    erewrite sliceCopy_eq by apply Hfirst. by rewrite Hinsert.
Qed.

End ProgramFacts.

Section RunnerFacts.

Context (H : Host).

Lemma readSourceHash_eq l w bytes :
  heap w !! l = Some bytes →
  readSourceHash H (VBuffer l) w = (Ok (readSourceHashBytes (processVersion H) bytes), w).
Proof. intros Hl. unfold readSourceHash. run. by rewrite Hl. Qed.

Lemma newCachedScript_eq code filename l w bytes :
  heap w !! l = Some bytes →
  newCachedScript code filename (VBuffer l) w =
    let script := {| scriptSource := code; scriptFilename := filename;
                     scriptCachedData := bytes |} in
    (Ok script, emit (EvNewCachedScript script) w).
Proof. intros Hl. unfold newCachedScript. run. by rewrite Hl. Qed.

Lemma runInThisContext_eq script w :
  runInThisContext H script w =
    (outcome (vmRunInThisContext H script (storeOf w)).1,
     setStore (vmRunInThisContext H script (storeOf w)).2
       (emit (EvRunInThisContext script) w)).
Proof. done. Qed.

Lemma apply_eq f this args w :
  apply H f this args w =
    (outcome (functionApply H f this args (storeOf w)).1,
     setStore (functionApply H f this args (storeOf w)).2
       (emit (EvApply f this args) w)).
Proof. done. Qed.

Lemma length_repeat_zeroWidthSpace (n : nat) :
  length (mjoin (replicate n zeroWidthSpace)) = n.
Proof. induction n as [|n IH]; simpl; [done|]. by rewrite IH. Qed.

(** The placeholder is built exactly when the engine allows a string of the
    decoded length. *)
Lemma placeholderFor_eq (len : Z) :
  placeholderFor H len =
    if pastStringLimit H len then inl RangeError else inr (dummyCodeOf len).
Proof.
  unfold placeholderFor, pastStringLimit, dummyCodeOf.
  rewrite Z.gtb_ltb. destruct (Z.ltb_spec 1 len) as [Hlen|Hlen]; [|done].
  cbn [andb]. unfold stringRepeat.
  change (length zeroWidthSpace) with 1%nat.
  destruct (Z.ltb_spec (len - 2) 0) as [?|_]; [lia|]. cbn [orb].
  destruct (Z.ltb_spec (stringMaxLength H) (Z.of_nat 1 * (len - 2))) as [Hrep|Hrep].
  { by destruct (Z.ltb_spec (stringMaxLength H) len) as [?|?]; [|lia]. }
  unfold stringConcat. rewrite length_repeat_zeroWidthSpace.
  change (length quote) with 1%nat.
  destruct (Z.ltb_spec (stringMaxLength H) (Z.of_nat (1 + Z.to_nat (len - 2))))
    as [Hopen|Hopen].
  { by destruct (Z.ltb_spec (stringMaxLength H) len) as [?|?]; [|lia]. }
  rewrite length_app, length_repeat_zeroWidthSpace.
  change (length quote) with 1%nat.
  destruct (Z.ltb_spec (stringMaxLength H) (Z.of_nat (1 + Z.to_nat (len - 2) + 1)))
    as [Hclose|Hclose];
    destruct (Z.ltb_spec (stringMaxLength H) len) as [?|?]; try lia; done.
Qed.

Lemma placeholder_built (len : Z) w :
  (if len >? 1 then
     repeated ← liftHost (stringRepeat (stringMaxLength H) zeroWidthSpace (len - 2));
     opened ← liftHost (stringConcat (stringMaxLength H) quote repeated);
     liftHost (stringConcat (stringMaxLength H) opened quote)
   else mret []) w
  = (outcome (placeholderFor H len), w).
Proof.
  unfold placeholderFor. destruct (len >? 1); [|done].
  destruct (stringRepeat _ _ _) as [e|repeated]; [done|]. run.
  destruct (stringConcat _ _ repeated) as [e|opened]; [done|]. run.
  by destruct (stringConcat _ opened _).
Qed.

Lemma heap_patched l dummyBytecode bytecodeBuffer w :
  heap w !! l = Some bytecodeBuffer →
  heap (patched H l dummyBytecode bytecodeBuffer w) !! l
  = Some (fixBytecodeBytes (processVersion H) dummyBytecode bytecodeBuffer).
Proof.
  intros Hl. simpl. apply list_lookup_insert_eq.
  rewrite length_app. apply lookup_lt_Some in Hl. lia.
Qed.

(** What [runBytecode] does with a buffer, when the engine compiles the
    dummy source. *)
Lemma runBytecode_eq l w bytecodeBuffer dummyBytecode :
  heap w !! l = Some bytecodeBuffer →
  dummyBytecodeOf H = Some dummyBytecode →
  let bytes := fixBytecodeBytes (processVersion H) dummyBytecode bytecodeBuffer in
  let script := cachedScriptOf H None bytes in
  let w0 := patched H l dummyBytecode bytecodeBuffer w in
  let w1 := emit (EvNewCachedScript script) w0 in
  runBytecode H (VBuffer l) w =
    if pastStringLimit H (readSourceHashBytes (processVersion H) bytes)
    then (Throw (HostException RangeError), w0)
    else if vmCachedDataRejected H script then (Throw CachedDataRejected, w1)
    else (outcome (vmRunInThisContext H script (storeOf w1)).1,
          setStore (vmRunInThisContext H script (storeOf w1)).2
            (emit (EvRunInThisContext script) w1)).
Proof.
  intros Hl Hd bytes script w0 w1. unfold runBytecode. cbn [isBuffer negb].
  erewrite bind_Ok by (by apply fixBytecode_patched).
  erewrite bind_Ok by (by apply readSourceHash_eq, heap_patched).
  cbv zeta. fold bytes. fold w0.
  destruct (pastStringLimit H (readSourceHashBytes (processVersion H) bytes)) eqn:Hpast.
  { erewrite bind_Throw; [done|]. by rewrite placeholder_built, placeholderFor_eq, Hpast. }
  erewrite bind_Ok by (by rewrite placeholder_built, placeholderFor_eq, Hpast).
  erewrite bind_Ok by (by apply newCachedScript_eq, heap_patched).
  fold bytes. change {| scriptSource := _; scriptFilename := None;
                        scriptCachedData := bytes |} with script.
  fold w1. destruct (vmCachedDataRejected H script); [done|].
  apply runInThisContext_eq.
Qed.

Lemma readFileSync_eq path w bytes :
  files w !! path = Some bytes →
  readFileSync path w = (Ok (VBuffer (length (heap w))), fileRead path bytes w).
Proof. intros Hf. unfold readFileSync. run. by rewrite Hf. Qed.

(** What the loader hook does with an artifact file, when the engine compiles
    the dummy source. *)
Lemma Module_extensions_jsc_eq module filename w bytecodeBuffer dummyBytecode :
  files w !! filename = Some bytecodeBuffer →
  dummyBytecodeOf H = Some dummyBytecode →
  let bytes := fixBytecodeBytes (processVersion H) dummyBytecode bytecodeBuffer in
  let script := cachedScriptOf H (Some filename) bytes in
  let w0 := patched H (length (heap w)) dummyBytecode bytecodeBuffer
              (fileRead filename bytecodeBuffer w) in
  let w1 := emit (EvNewCachedScript script) w0 in
  let ran := vmRunInThisContext H script (storeOf w1) in
  let w2 := setStore ran.2 (emit (EvRunInThisContext script) w1) in
  let exports := moduleExports H module ran.2 in
  let args := [exports; VRequire (requireOf H module);
               VObject module; VString filename;
               VString (pathDirname H filename); VHost Process; VHost Global] in
  Module_extensions_jsc H module filename w =
    if pastStringLimit H (readSourceHashBytes (processVersion H) bytes)
    then (Throw (HostException RangeError), w0)
    else if vmCachedDataRejected H script then (Throw CachedDataRejected, w1)
    else
      match ran.1 with
      | inl e => (Throw (HostException e), w2)
      | inr compiledWrapper =>
          (outcome (functionApply H compiledWrapper exports args (storeOf w2)).1,
           setStore (functionApply H compiledWrapper exports args (storeOf w2)).2
             (emit (EvApply compiledWrapper exports args) w2))
      end.
Proof.
  intros Hf Hd bytes script w0 w1 ran w2 exports args. unfold Module_extensions_jsc.
  erewrite bind_Ok by (by apply readFileSync_eq).
  assert (Hl : heap (fileRead filename bytecodeBuffer w) !! length (heap w)
               = Some bytecodeBuffer).
  { simpl. by rewrite lookup_app_r, Nat.sub_diag by lia. }
  erewrite bind_Ok by (by apply fixBytecode_patched).
  erewrite bind_Ok by (by apply readSourceHash_eq, heap_patched).
  cbv zeta. fold bytes. fold w0.
  destruct (pastStringLimit H (readSourceHashBytes (processVersion H) bytes)) eqn:Hpast.
  { erewrite bind_Throw; [done|]. by rewrite placeholder_built, placeholderFor_eq, Hpast. }
  erewrite bind_Ok by (by rewrite placeholder_built, placeholderFor_eq, Hpast).
  erewrite bind_Ok by (by apply newCachedScript_eq, heap_patched).
  fold bytes. change {| scriptSource := _; scriptFilename := Some filename;
                        scriptCachedData := bytes |} with script.
  fold w1. destruct (vmCachedDataRejected H script); [done|].
  unfold mbind, M_bind. rewrite runInThisContext_eq. fold ran. fold w2.
  destruct (ran.1) as [e|compiledWrapper]; simpl; [done|].
  rewrite apply_eq. unfold args, exports, requireOf.
  assert (Hstore : storeOf w2 = ran.2) by (unfold w2; by destruct ran.2).
  rewrite Hstore.
  by destruct (processMainModule H).
Qed.

End RunnerFacts.

(** ** The header patcher *)

Lemma fixBytecode_no_dummy H l w :
  dummyBytecodeOf H = None →
  ∃ e, fixBytecode H (VBuffer l) w
       = (Throw (HostException e), emit (EvNewScript dummySource) w).
Proof.
  intros Hd. unfold fixBytecode, dummyBytecodeOf in *.
  unfold mbind, M_bind. rewrite compileCode_string.
  destruct (vmScript H dummySource) as [e|script]; [by eexists|].
  rewrite Hd. by eexists.
Qed.

Lemma overwrites_inRanges version i :
  overwrites version i → inRanges (patchRanges (layoutOf version)) i = true.
Proof.
  intros (d & b & Hne). rewrite lookup_fixBytecodeBytes in Hne.
  case_decide as Hin; [by destruct Hin|done].
Qed.

(** C3. The Header Patcher is idempotent: patching a cache buffer twice
    leaves it byte for byte as patching it once does.  This holds for the
    bytes, whatever the engine version and the reference buffer, and for the
    buffer object that [fixBytecode] patches in place, whether or not the
    engine hands out a reference buffer. *)
Theorem fixBytecode_idempotent (H : Host) (w : World) (l : loc)
    (bytecodeBuffer : Buffer) :
  heap w !! l = Some bytecodeBuffer →
  (∀ version dummyBytecode,
     fixBytecodeBytes version dummyBytecode
       (fixBytecodeBytes version dummyBytecode bytecodeBuffer)
     = fixBytecodeBytes version dummyBytecode bytecodeBuffer)
  ∧ heap ((fixBytecode H (VBuffer l) ;; fixBytecode H (VBuffer l)) w).2 !! l
    = heap (fixBytecode H (VBuffer l) w).2 !! l.
Proof.
  intros Hl. split.
  { intros. apply fixBytecodeBytes_idempotent. }
  destruct (dummyBytecodeOf H) as [d|] eqn:Hd.
  - erewrite bind_Ok by (by apply fixBytecode_patched).
    erewrite !fixBytecode_patched by (done || by apply heap_patched).
    cbn [snd].
    erewrite !heap_patched by (done || by apply heap_patched).
    by rewrite fixBytecodeBytes_idempotent.
  - destruct (fixBytecode_no_dummy H l w Hd) as [e He].
    by erewrite bind_Throw, He.
Qed.

Lemma fixBytecode_idempotent_witness :
  heap Example.world !! 0%nat = Some Example.foreignCache
  ∧ heap ((fixBytecode Example.host (VBuffer 0%nat) ;;
           fixBytecode Example.host (VBuffer 0%nat)) Example.world).2 !! 0%nat
    = heap (fixBytecode Example.host (VBuffer 0%nat) Example.world).2 !! 0%nat.
Proof.
  split; [reflexivity|].
  apply (fixBytecode_idempotent Example.host Example.world 0%nat Example.foreignCache).
  reflexivity.
Defined.

(** C4, as the code has it.  The patcher copies from the reference buffer
    the ranges of one of three layouts, chosen by the engine version: the
    early layout (v8.8, v8.9) has the two 4-byte ranges at offsets 16 and 20,
    the mid layout (v12 to v15) the single 4-byte range at offset 12, and the
    current layout, which every other version uses, the two 4-byte ranges at
    offsets 12 and 16.  The range at 12 is common to the mid and the current
    layout, the range at 16 to the early and the current layout. *)
Theorem fixBytecode_layouts (version : JSString) (dummyBytecode bytecodeBuffer : Buffer) :
  match layoutOf version with
  | Early => isNode8 version = true
  | Mid => isNode8 version = false ∧ isNode12to15 version = true
  | Current => isNode8 version = false ∧ isNode12to15 version = false
  end
  ∧ patchRanges Early = [(16, 20); (20, 24)]%nat
  ∧ patchRanges Mid = [(12, 16)]%nat
  ∧ patchRanges Current = [(12, 16); (16, 20)]%nat
  ∧ fixBytecodeBytes version dummyBytecode bytecodeBuffer
    = copyRanges (patchRanges (layoutOf version)) dummyBytecode bytecodeBuffer
  ∧ length (fixBytecodeBytes version dummyBytecode bytecodeBuffer)
    = length bytecodeBuffer
  ∧ ∀ i, fixBytecodeBytes version dummyBytecode bytecodeBuffer !! i
         = if decide (inRanges (patchRanges (layoutOf version)) i = true
                      ∧ i < length dummyBytecode ∧ i < length bytecodeBuffer)%nat
           then dummyBytecode !! i else bytecodeBuffer !! i.
Proof.
  split; [|repeat split].
  - unfold layoutOf. destruct (isNode8 version); [done|].
    by destruct (isNode12to15 version).
  - apply fixBytecodeBytes_copyRanges.
  - apply length_fixBytecodeBytes.
  - apply lookup_fixBytecodeBytes.
Qed.

(** C4, as the specification words it, fails: offset 12 is overwritten under
    v16.13.0 (current layout) and under v14.17.0 (mid layout). *)
Lemma currentOffsetsUnshared_fails : ¬ currentOffsetsUnshared.
Proof.
  intros Hclaim.
  destruct (Hclaim (js "v16.13.0") (js "v14.17.0") (js "v8.9.4")
              eq_refl eq_refl eq_refl 12%nat) as [Hmid _].
  - exists (replicate 24 "001"%byte), (replicate 24 "000"%byte). vm_compute. congruence.
  - apply Hmid.
    exists (replicate 24 "001"%byte), (replicate 24 "000"%byte). vm_compute. congruence.
Qed.

(** ** The source-hash reader *)

(** C5. [readSourceHash] returns the little-endian value of a 4-byte field
    of the buffer, the sum of [byte[i] * 256^i]: the field at offset 12 under
    the early layout, and the field at offset 8 under the mid and under the
    current layout.  Bytes past the end of a short buffer count as zero. *)
Theorem readSourceHash_decodes (H : Host) (w : World) (l : loc) (bytecodeBuffer : Buffer) :
  heap w !! l = Some bytecodeBuffer →
  let offset := if isNode8 (processVersion H) then 12%nat else 8%nat in
  let value :=
    byteAt bytecodeBuffer offset * 256 ^ 0 + byteAt bytecodeBuffer (offset + 1) * 256 ^ 1
    + byteAt bytecodeBuffer (offset + 2) * 256 ^ 2
    + byteAt bytecodeBuffer (offset + 3) * 256 ^ 3 in
  readSourceHash H (VBuffer l) w = (Ok value, w)
  ∧ offset = lengthOffset (layoutOf (processVersion H))
  ∧ lengthOffset Early = 12%nat ∧ lengthOffset Mid = 8%nat ∧ lengthOffset Current = 8%nat
  ∧ 0 ≤ value < 2 ^ 32.
Proof.
  intros Hl offset value.
  assert (Hoff : offset = lengthOffset (layoutOf (processVersion H))).
  { unfold offset, layoutOf. destruct (isNode8 (processVersion H)); [done|].
    by destruct (isNode12to15 (processVersion H)). }
  repeat split; try done.
  - rewrite (readSourceHash_eq H l w bytecodeBuffer Hl).
    rewrite readSourceHashBytes_littleEndian32, <- Hoff.
    unfold littleEndian32, value. do 2 f_equal. lia.
  - pose proof (byteAt_bounds bytecodeBuffer offset).
    pose proof (byteAt_bounds bytecodeBuffer (offset + 1)).
    pose proof (byteAt_bounds bytecodeBuffer (offset + 2)).
    pose proof (byteAt_bounds bytecodeBuffer (offset + 3)). lia.
  - pose proof (byteAt_bounds bytecodeBuffer offset).
    pose proof (byteAt_bounds bytecodeBuffer (offset + 1)).
    pose proof (byteAt_bounds bytecodeBuffer (offset + 2)).
    pose proof (byteAt_bounds bytecodeBuffer (offset + 3)). lia.
Qed.

Lemma readSourceHash_decodes_witness :
  heap Example.world !! 0%nat = Some Example.foreignCache
  ∧ readSourceHash Example.host (VBuffer 0%nat) Example.world = (Ok 3, Example.world).
Proof.
  split; [reflexivity|].
  apply (readSourceHash_decodes Example.host Example.world 0%nat Example.foreignCache).
  reflexivity.
Defined.

(** C9. Under every engine version, the patcher overwrites none of the four
    bytes the reader decodes, so the decoded length of a buffer is the same
    before and after patching: on the bytes, for every reference buffer, and
    on the buffer object, where [readSourceHash] after [fixBytecode] returns
    what [readSourceHash] alone returns. *)
Theorem readSourceHash_fixBytecode (H : Host) (w : World) (l : loc)
    (bytecodeBuffer dummyBytecode : Buffer) :
  heap w !! l = Some bytecodeBuffer →
  dummyBytecodeOf H = Some dummyBytecode →
  (∀ version (k : nat), (k < 4)%nat →
     ¬ overwrites version (lengthOffset (layoutOf version) + k))
  ∧ (∀ version reference,
       readSourceHashBytes version (fixBytecodeBytes version reference bytecodeBuffer)
       = readSourceHashBytes version bytecodeBuffer)
  ∧ ((fixBytecode H (VBuffer l) ;; readSourceHash H (VBuffer l)) w).1
    = (readSourceHash H (VBuffer l) w).1.
Proof.
  intros Hl Hd. repeat split.
  - intros version k Hk Hover. apply overwrites_inRanges in Hover.
    by rewrite lengthField_not_patched in Hover.
  - intros. apply readSourceHashBytes_fixBytecodeBytes.
  - erewrite bind_Ok by (by apply fixBytecode_patched).
    erewrite !readSourceHash_eq by (done || by apply heap_patched).
    cbn [fst]. by rewrite readSourceHashBytes_fixBytecodeBytes.
Qed.

Lemma readSourceHash_fixBytecode_witness :
  heap Example.world !! 0%nat = Some Example.foreignCache
  ∧ dummyBytecodeOf Example.host = Some (Example.cacheOf dummySource)
  ∧ ((fixBytecode Example.host (VBuffer 0%nat) ;;
      readSourceHash Example.host (VBuffer 0%nat)) Example.world).1
    = (readSourceHash Example.host (VBuffer 0%nat) Example.world).1.
Proof.
  split; [reflexivity|]. split; [reflexivity|].
  apply (readSourceHash_fixBytecode Example.host Example.world 0%nat
           Example.foreignCache (Example.cacheOf dummySource)); reflexivity.
Defined.

(** ** The bytecode runner *)

Lemma repeat_zeroWidthSpace (n : nat) :
  mjoin (replicate n zeroWidthSpace) = replicate n 8203%N.
Proof. induction n as [|n IH]; simpl; [done|]. by rewrite IH. Qed.

Lemma dummyCodeOf_eq (length : Z) :
  dummyCodeOf length =
    if decide (1 < length) then 34%N :: replicate (Z.to_nat (length - 2)) 8203%N ++ [34%N]
    else [].
Proof.
  unfold dummyCodeOf. rewrite repeat_zeroWidthSpace.
  destruct (Z.gtb_spec length 1); case_decide; done || lia.
Qed.

Lemma length_dummyCodeOf (len : Z) :
  1 < len → Z.of_nat (length (dummyCodeOf len)) = len.
Proof.
  intros Hlen. rewrite dummyCodeOf_eq, decide_True by done.
  simpl. rewrite length_app, length_replicate. simpl. lia.
Qed.

(** C2. For a buffer object, [runBytecode] first patches it in place with
    the Header Patcher, whatever it holds, and then reads the length in the
    patched bytes.  When that length is past the longest string of the
    engine, building the placeholder throws a RangeError and nothing is
    compiled.  Otherwise it hands the placeholder and the patched bytes to
    the engine; it throws the error of kind IncompatibleCache exactly when
    the engine reports the cache rejected, and then the script is not run;
    otherwise it runs the script on the store of that moment, and its
    outcome and the store it leaves are those of that run.  When the engine
    hands out no cache for the dummy source of the patcher, the patcher
    itself fails with an error of the host and nothing else happens. *)
Theorem runBytecode_steps (H : Host) (w : World) (l : loc) (bytecodeBuffer : Buffer) :
  heap w !! l = Some bytecodeBuffer →
  let result := runBytecode H (VBuffer l) w in
  errorKind CachedDataRejected = IncompatibleCache
  ∧ match dummyBytecodeOf H with
    | Some dummyBytecode =>
        let bytes := fixBytecodeBytes (processVersion H) dummyBytecode bytecodeBuffer in
        let len := readSourceHashBytes (processVersion H) bytes in
        let script :=
          {| scriptSource := dummyCodeOf len;
             scriptFilename := None;
             scriptCachedData := bytes |} in
        let patchedWorld := patched H l dummyBytecode bytecodeBuffer w in
        let compiledWorld := emit (EvNewCachedScript script) patchedWorld in
        let ran := vmRunInThisContext H script (storeOf compiledWorld) in
        heap patchedWorld !! l = Some bytes
        ∧ (result.1 = Throw CachedDataRejected
           ↔ pastStringLimit H len = false ∧ vmCachedDataRejected H script = true)
        ∧ (if pastStringLimit H len
           then result = (Throw (HostException RangeError), patchedWorld)
                ∧ trace result.2 = trace w ++ [EvNewScript dummySource]
           else if vmCachedDataRejected H script
           then result = (Throw CachedDataRejected, compiledWorld)
                ∧ trace result.2
                  = trace w ++ [EvNewScript dummySource; EvNewCachedScript script]
           else result = (outcome ran.1,
                          setStore ran.2 (emit (EvRunInThisContext script) compiledWorld))
                ∧ trace result.2
                  = trace w ++ [EvNewScript dummySource; EvNewCachedScript script;
                                EvRunInThisContext script])
        ∧ (∀ v, result.1 = Ok v →
             pastStringLimit H len = false
             ∧ vmCachedDataRejected H script = false
             ∧ ran.1 = inr v)
    | None =>
        ∃ e, result = (Throw (HostException e), emit (EvNewScript dummySource) w)
    end.
Proof.
  intros Hl result. split; [done|].
  destruct (dummyBytecodeOf H) as [dummyBytecode|] eqn:Hd.
  - intros bytes len script patchedWorld compiledWorld ran.
    assert (Hlt : (l < length (heap w ++ [dummyBytecode]))%nat).
    { rewrite length_app. apply lookup_lt_Some in Hl. lia. }
    split; [by apply list_lookup_insert_eq|].
    unfold result. rewrite (runBytecode_eq H l w _ _ Hl Hd).
    fold bytes. fold len. change (cachedScriptOf H None bytes) with script.
    fold patchedWorld. fold compiledWorld. fold ran.
    destruct (pastStringLimit H len); [|destruct (vmCachedDataRejected H script)];
      cbn [fst snd].
    + split; [split; [done|by intros [? _]]|]. split; [done|]. by intros v Hv.
    + split; [done|]. split; [|by intros v Hv].
      split; [done|]. simpl. by rewrite <- !app_assoc.
    + split.
      { split; [|by intros [_ ?]]. by destruct (ran.1). }
      split.
      { split; [done|]. simpl. by rewrite <- !app_assoc. }
      intros v Hv. split; [done|]. split; [done|].
      destruct (ran.1); simpl in Hv; congruence.
  - destruct (fixBytecode_no_dummy H l w Hd) as [e He]. exists e.
    unfold result, runBytecode. cbn [isBuffer negb].
    by erewrite bind_Throw.
Qed.

Lemma runBytecode_steps_witness :
  heap Example.world !! 0%nat = Some Example.foreignCache
  ∧ heap (patched Example.host 0%nat (Example.cacheOf dummySource) Example.foreignCache
            Example.world) !! 0%nat
    = Some (Example.cacheOf (js "1+1"))
  ∧ (runBytecode Example.host (VBuffer 0%nat) Example.world).1 = Ok (VFunction 9%nat).
Proof.
  split; [reflexivity|].
  pose proof (runBytecode_steps Example.host Example.world 0%nat Example.foreignCache
                eq_refl) as [_ Hsteps].
  change (dummyBytecodeOf Example.host) with (Some (Example.cacheOf dummySource))
    in Hsteps.
  destruct Hsteps as (Hheap & _ & Hrun & _).
  split; [exact Hheap|].
  change (pastStringLimit _ _) with false in Hrun.
  change (vmCachedDataRejected _ _) with false in Hrun.
  destruct Hrun as [-> _]. reflexivity.
Defined.

(** C7. For every input that is not a buffer object, a string for one,
    [runBytecode] throws its error of kind InvalidArgument and leaves the
    world as it was: no request to the engine is made and no buffer is
    patched. *)
Theorem runBytecode_not_a_buffer (H : Host) (v : Value) (w : World) :
  isBuffer v = false →
  runBytecode H v w = (Throw BytecodeBufferMustBeBuffer, w)
  ∧ errorKind BytecodeBufferMustBeBuffer = InvalidArgument
  ∧ filter (λ e, isEngineCall e = true) (trace (runBytecode H v w).2)
    = filter (λ e, isEngineCall e = true) (trace w)
  ∧ heap (runBytecode H v w).2 = heap w.
Proof.
  intros Hv. unfold runBytecode. by rewrite Hv.
Qed.

Lemma runBytecode_not_a_buffer_witness :
  isBuffer (VString (js "1+1")) = false
  ∧ runBytecode Example.host (VString (js "1+1")) Example.world
    = (Throw BytecodeBufferMustBeBuffer, Example.world).
Proof.
  split; [reflexivity|].
  apply (runBytecode_not_a_buffer Example.host (VString (js "1+1")) Example.world).
  reflexivity.
Defined.

(** C6, as the specification words it, fails: for a buffer whose length field
    holds [2^29], more than the longest string of the host, [runBytecode]
    throws the RangeError of building the placeholder and compiles no
    placeholder at all. *)
Lemma placeholderAlwaysCompiled_fails : ¬ placeholderAlwaysCompiled.
Proof.
  intros Hclaim.
  destruct (Hclaim Example.host Example.oversizedWorld 0%nat Example.oversizedCache
              (Example.cacheOf dummySource) eq_refl eq_refl) as [rest Hrest].
  rewrite (runBytecode_eq Example.host 0%nat Example.oversizedWorld
             Example.oversizedCache (Example.cacheOf dummySource) eq_refl eq_refl)
    in Hrest.
  change (pastStringLimit _ _) with true in Hrest.
  apply (f_equal length) in Hrest. cbn [snd] in Hrest.
  rewrite !length_app in Hrest. cbn [patched trace length] in Hrest.
  rewrite !length_app in Hrest. cbn [length] in Hrest. lia.
Qed.

(** C6, as the code has it.  The runner and the loader hook read a length
    [len] in the patched bytes.  When [len > 1] and [len] is past the
    longest string of the engine, building the placeholder throws a
    RangeError and the engine is asked for nothing more.  Otherwise they
    compile a placeholder made from [len]: when [len > 1], a quote,
    [len - 2] zero width spaces and a quote, which has exactly [len]
    characters; when [len <= 1], the empty string. *)
Theorem placeholder_has_decoded_length (H : Host) (w : World) (l : loc)
    (module : loc) (filename : JSString)
    (bytecodeBuffer dummyBytecode : Buffer) :
  heap w !! l = Some bytecodeBuffer →
  files w !! filename = Some bytecodeBuffer →
  dummyBytecodeOf H = Some dummyBytecode →
  let bytes := fixBytecodeBytes (processVersion H) dummyBytecode bytecodeBuffer in
  let len := readSourceHashBytes (processVersion H) bytes in
  let dummyCode :=
    if decide (1 < len)
    then [34%N] ++ replicate (Z.to_nat (len - 2)) 8203%N ++ [34%N]
    else [] in
  if decide (1 < len ∧ stringMaxLength H < len)
  then
    runBytecode H (VBuffer l) w
    = (Throw (HostException RangeError), patched H l dummyBytecode bytecodeBuffer w)
    ∧ trace (runBytecode H (VBuffer l) w).2 = trace w ++ [EvNewScript dummySource]
    ∧ Module_extensions_jsc H module filename w
      = (Throw (HostException RangeError),
         patched H (length (heap w)) dummyBytecode bytecodeBuffer
           (fileRead filename bytecodeBuffer w))
    ∧ trace (Module_extensions_jsc H module filename w).2
      = trace w ++ [EvReadFile filename; EvNewScript dummySource]
  else
    (if decide (1 < len) then Z.of_nat (length dummyCode) = len else dummyCode = [])
    ∧ (∃ rest,
         trace (runBytecode H (VBuffer l) w).2
         = trace w ++ [EvNewScript dummySource;
                       EvNewCachedScript {| scriptSource := dummyCode;
                                            scriptFilename := None;
                                            scriptCachedData := bytes |}] ++ rest)
    ∧ (∃ rest,
         trace (Module_extensions_jsc H module filename w).2
         = trace w ++ [EvReadFile filename; EvNewScript dummySource;
                       EvNewCachedScript {| scriptSource := dummyCode;
                                            scriptFilename := Some filename;
                                            scriptCachedData := bytes |}] ++ rest).
Proof.
  intros Hl Hf Hd bytes len dummyCode.
  assert (Hcode : dummyCode = dummyCodeOf len).
  { unfold dummyCode. by rewrite dummyCodeOf_eq. }
  rewrite (runBytecode_eq H l w _ _ Hl Hd).
  rewrite (Module_extensions_jsc_eq H module filename w _ _ Hf Hd).
  fold bytes. fold len. unfold cachedScriptOf. fold len. rewrite <- Hcode.
  unfold pastStringLimit.
  destruct (Z.ltb_spec 1 len) as [Hlen|Hlen];
    [destruct (Z.ltb_spec (stringMaxLength H) len) as [Hmax|Hmax]|];
    cbn [andb]; case_decide as Hcase; try lia.
  - split; [done|]. split; [done|]. split; [done|].
    simpl. by rewrite <- !app_assoc.
  - split; [|split].
    + rewrite decide_True by done. rewrite Hcode. by apply length_dummyCodeOf.
    + destruct (vmCachedDataRejected H _); cbn [snd]; simpl; rewrite <- !app_assoc.
      * by exists [].
      * by eexists [_].
    + destruct (vmCachedDataRejected H _);
        [|destruct (vmRunInThisContext H _ _).1];
        cbn [snd]; simpl; rewrite <- !app_assoc.
      * by exists [].
      * by eexists [_].
      * by eexists [_; _].
  - split; [|split].
    + rewrite decide_False by lia. unfold dummyCode. by rewrite decide_False by lia.
    + destruct (vmCachedDataRejected H _); cbn [snd]; simpl; rewrite <- !app_assoc.
      * by exists [].
      * by eexists [_].
    + destruct (vmCachedDataRejected H _);
        [|destruct (vmRunInThisContext H _ _).1];
        cbn [snd]; simpl; rewrite <- !app_assoc.
      * by exists [].
      * by eexists [_].
      * by eexists [_; _].
Qed.

Lemma placeholder_has_decoded_length_witness :
  heap Example.world !! 0%nat = Some Example.foreignCache
  ∧ Example.world.(files) !! js "a.jsc" = Some Example.foreignCache
  ∧ dummyBytecodeOf Example.host = Some (Example.cacheOf dummySource)
  ∧ ∃ rest,
      trace (runBytecode Example.host (VBuffer 0%nat) Example.world).2
      = trace Example.world
        ++ [EvNewScript dummySource;
            EvNewCachedScript {| scriptSource := [34; 8203; 34]%N;
                                 scriptFilename := None;
                                 scriptCachedData := Example.cacheOf (js "1+1") |}]
        ++ rest.
Proof.
  split; [reflexivity|]. split; [vm_compute; reflexivity|]. split; [reflexivity|].
  pose proof (placeholder_has_decoded_length Example.host Example.world 0%nat
                Example.module (js "a.jsc") Example.foreignCache
                (Example.cacheOf dummySource) eq_refl
                ltac:(vm_compute; reflexivity) eq_refl) as Hplaceholder.
  cbv zeta in Hplaceholder.
  destruct (decide _) as [Hpast|_] in Hplaceholder.
  - exfalso. vm_compute in Hpast. destruct Hpast as [_ Hpast]. discriminate Hpast.
  - exact (proj1 (proj2 Hplaceholder)).
Defined.

(** ** [compileFile] and the files it writes *)

Lemma bind_inv {A B} (m : M A) (f : A → M B) w r w' :
  (m ≫= f) w = (r, w') →
  (∃ a w1, m w = (Ok a, w1) ∧ f a w1 = (r, w'))
  ∨ (∃ e, m w = (Throw e, w') ∧ r = Throw e).
Proof.
  unfold mbind, M_bind. destruct (m w) as [[a|e] w1]; intros Hrun.
  - left. by exists a, w1.
  - right. exists e. by inversion Hrun.
Qed.

Ltac writes :=
  unfold compiled, setHeap, setFiles, setStore, emit, writesOf; simpl;
  rewrite ?omap_app; simpl; rewrite ?app_nil_r; try done.

Section CompileFileFacts.

Context (H : Host).

Lemma compileCode_writes v w r w' :
  compileCode H v w = (r, w') →
  writesOf (trace w') = writesOf (trace w) ∧ files w' = files w.
Proof.
  destruct v; try (intros [= <- <-]; done).
  rewrite compileCode_string.
  destruct (vmScript H s) as [e|script].
  { intros [= <- <-]. split; writes. }
  destruct (producedBytes script); intros [= <- <-]; split; writes.
Qed.

Lemma compileElectronCode_writes code w r w' :
  compileElectronCode H code w = (r, w') →
  writesOf (trace w') = writesOf (trace w) ∧ files w' = files w.
Proof.
  unfold compileElectronCode, existsSync. run.
  destruct (bool_decide _); run; [|by intros [= <- <-]].
  destruct (electronFork H code); run; intros [= <- <-]; split; writes.
Qed.

Lemma readFileSyncUtf8_writes path w r w' :
  readFileSyncUtf8 H path w = (r, w') →
  writesOf (trace w') = writesOf (trace w) ∧ files w' = files w.
Proof.
  unfold readFileSyncUtf8. run.
  destruct (files w !! path); run; intros [= <- <-]; split; writes.
Qed.

Lemma writeFileSync_writes path data w r w' :
  writeFileSync H path data w = (r, w') →
  (r = Ok tt
   ∧ ∃ bytes, writesOf (trace w') = writesOf (trace w) ++ [(path, bytes)]
              ∧ files w' = <[path := bytes]> (files w))
  ∨ (∃ e, r = Throw e ∧ writesOf (trace w') = writesOf (trace w) ∧ files w' = files w).
Proof.
  unfold writeFileSync. intros Hrun.
  apply bind_inv in Hrun as [(bytes & w1 & Hbytes & Hrun)|(e & Hbytes & ->)].
  - left. revert Hrun. run. intros [= <- <-]. split; [done|]. exists bytes.
    assert (w1 = w) as ->; [|split; writes].
    destruct data; revert Hbytes; run; try by intros [= <- <-].
    destruct (heap w !! l); by intros [= <- <-].
  - right. exists e. split; [done|].
    assert (w' = w) as ->; [|done].
    destruct data; revert Hbytes; run; try by intros [= <- <-].
    destruct (heap w !! l); by intros [= <- <-].
Qed.

(** Writing a string to a file. *)
Lemma writeFileSync_string_writes path code w :
  writeFileSync H path (VString code) w
  = (Ok tt, setFiles (<[path := utf8Encode H code]> (files w))
              (emit (EvWriteFile path (utf8Encode H code)) w)).
Proof. done. Qed.

Lemma addLoaderFile_writes fileToLoad loaderFilename w r w' :
  addLoaderFile H fileToLoad loaderFilename w = (r, w') →
  (r = Ok tt
   ∧ ∃ loaderFilePath,
       writesOf (trace w')
       = writesOf (trace w) ++ [(loaderFilePath, loaderBytes H loaderFilePath fileToLoad)]
       ∧ files w' !! loaderFilePath = Some (loaderBytes H loaderFilePath fileToLoad)
       ∧ (plainLoaderFilename loaderFilename = true →
          files w'
          = <[loaderFilePath := loaderBytes H loaderFilePath fileToLoad]> (files w)))
  ∨ (∃ e, r = Throw (HostException e) ∧ plainLoaderFilename loaderFilename = false
     ∧ writesOf (trace w') = writesOf (trace w)).
Proof.
  unfold addLoaderFile.
  assert (Hwritten : ∀ loaderFilePath w1,
    writesOf (trace w1) = writesOf (trace w) →
    (plainLoaderFilename loaderFilename = true → files w1 = files w) →
    writeFileSync H loaderFilePath
      (VString (loaderCode (pathRelative H (pathDirname H loaderFilePath) fileToLoad))) w1
    = (r, w') →
    (r = Ok tt
     ∧ ∃ loaderFilePath,
         writesOf (trace w')
         = writesOf (trace w) ++ [(loaderFilePath, loaderBytes H loaderFilePath fileToLoad)]
         ∧ files w' !! loaderFilePath = Some (loaderBytes H loaderFilePath fileToLoad)
         ∧ (plainLoaderFilename loaderFilename = true →
            files w'
            = <[loaderFilePath := loaderBytes H loaderFilePath fileToLoad]> (files w)))
    ∨ (∃ e, r = Throw (HostException e) ∧ plainLoaderFilename loaderFilename = false
       ∧ writesOf (trace w') = writesOf (trace w))).
  { intros p w1 Hw1 Hf1. rewrite writeFileSync_string_writes. intros [= <- <-].
    left. split; [done|]. exists p. split; [|split].
    - cbn [trace setFiles emit]. unfold writesOf in *. rewrite omap_app, Hw1. done.
    - cbn [files setFiles]. by rewrite lookup_insert_eq.
    - intros Hplain. cbn [files setFiles emit]. by rewrite Hf1. }
  assert (Hfailed : ∀ e w1,
    writesOf (trace w1) = writesOf (trace w) →
    plainLoaderFilename loaderFilename = false →
    (@Throw unit (HostException e), w1) = (r, w') →
    (r = Ok tt
     ∧ ∃ loaderFilePath,
         writesOf (trace w')
         = writesOf (trace w) ++ [(loaderFilePath, loaderBytes H loaderFilePath fileToLoad)]
         ∧ files w' !! loaderFilePath = Some (loaderBytes H loaderFilePath fileToLoad)
         ∧ (plainLoaderFilename loaderFilename = true →
            files w'
            = <[loaderFilePath := loaderBytes H loaderFilePath fileToLoad]> (files w)))
    ∨ (∃ e, r = Throw (HostException e) ∧ plainLoaderFilename loaderFilename = false
       ∧ writesOf (trace w') = writesOf (trace w))).
  { intros e w1 Hw1 Hplain [= <- <-]. right. by exists e. }
  assert (Hobject : ∀ v,
    plainLoaderFilename loaderFilename = false →
    (loaderFilePath ←
       (loaderFilename ← perform (objectReplace H v (js "%") (pathParseName H fileToLoad));
        match loaderFilename with
        | VString loaderFilename =>
            mret (pathJoin H [pathDirname H fileToLoad; loaderFilename])
        | _ => throw (HostException TypeError)
        end);
     writeFileSync H loaderFilePath
       (VString (loaderCode (pathRelative H (pathDirname H loaderFilePath) fileToLoad)))) w
    = (r, w') →
    (r = Ok tt
     ∧ ∃ loaderFilePath,
         writesOf (trace w')
         = writesOf (trace w) ++ [(loaderFilePath, loaderBytes H loaderFilePath fileToLoad)]
         ∧ files w' !! loaderFilePath = Some (loaderBytes H loaderFilePath fileToLoad)
         ∧ (plainLoaderFilename loaderFilename = true →
            files w'
            = <[loaderFilePath := loaderBytes H loaderFilePath fileToLoad]> (files w)))
    ∨ (∃ e, r = Throw (HostException e) ∧ plainLoaderFilename loaderFilename = false
       ∧ writesOf (trace w') = writesOf (trace w))).
  { intros v Hplain. unfold mbind, M_bind, perform.
    destruct (objectReplace H v _ _ (storeOf w)) as [[e|replaced] store'];
      cbn [fst snd outcome].
    { by apply Hfailed. }
    destruct replaced; try (by apply Hfailed).
    unfold mret, M_ret. apply Hwritten; [done|]. by rewrite Hplain. }
  destruct loaderFilename as [| |b|z|s|l|l|l|rq|o|s]; cbv zeta;
    try (by apply Hobject);
    try (by apply (Hfailed TypeError w));
    try (by apply (Hwritten _ w)).
  - destruct s; by apply (Hwritten _ w).
Qed.

End CompileFileFacts.

Section CompileFileLoader.

Context (H : Host).

Lemma compileFileFrom_writes filename compiledFilename compileAsModule electron
    createLoader loaderFilename w r w' :
  compileFileFrom H filename compiledFilename compileAsModule electron createLoader
    loaderFilename w = (r, w') →
  if truthy createLoader then Written H loaderFilename w r w'
  else (∃ e, r = Throw e ∧ writesOf (trace w') = writesOf (trace w)
             ∧ files w' = files w)
       ∨ (∃ bytecode, r = Ok compiledFilename
           ∧ writesOf (trace w') = writesOf (trace w) ++ [(compiledFilename, bytecode)]
           ∧ files w' = <[compiledFilename := bytecode]> (files w)).
Proof.
  unfold compileFileFrom. intros Hrun.
  assert (Hfail : ∀ e, writesOf (trace w') = writesOf (trace w) ∧ files w' = files w →
    if truthy createLoader then Written H loaderFilename w (Throw e) w'
    else (∃ e0, @Throw JSString e = Throw e0 ∧ writesOf (trace w') = writesOf (trace w)
                ∧ files w' = files w)
         ∨ (∃ bytecode, Throw e = Ok compiledFilename
             ∧ writesOf (trace w') = writesOf (trace w) ++ [(compiledFilename, bytecode)]
             ∧ files w' = <[compiledFilename := bytecode]> (files w))).
  { intros e [He Hf]. destruct (truthy createLoader); [by constructor|]. left. by exists e. }
  apply bind_inv in Hrun as [(javascriptCode & w1 & Hread & Hrun)|(e & Hread & ->)];
    last first.
  { apply Hfail. by eapply readFileSyncUtf8_writes. }
  apply readFileSyncUtf8_writes in Hread as [Hread Hfiles1].
  assert (Hw2 : ∀ r2 w2,
    (if truthy electron
     then compileElectronCode H
            (if truthy compileAsModule then moduleWrap H (stripShebang javascriptCode)
             else stripShebang javascriptCode)
     else compileCode H
            (VString (if truthy compileAsModule
                      then moduleWrap H (stripShebang javascriptCode)
                      else stripShebang javascriptCode))) w1 = (r2, w2) →
    writesOf (trace w2) = writesOf (trace w) ∧ files w2 = files w).
  { intros r2 w2 Hcompile. rewrite <- Hread, <- Hfiles1.
    destruct (truthy electron);
      [by eapply compileElectronCode_writes|by eapply compileCode_writes]. }
  apply bind_inv in Hrun as [(bytecodeBuffer & w2 & Hcompile & Hrun)|(e & Hcompile & ->)];
    last first.
  { apply Hfail. by eapply Hw2. }
  apply Hw2 in Hcompile as [Hwrites2 Hfiles2].
  apply bind_inv in Hrun as [([] & w3 & Hwrite & Hrun)|(e & Hwrite & ->)]; last first.
  { apply Hfail.
    apply writeFileSync_writes in Hwrite as [[? _]|(? & _ & -> & ->)]; done. }
  apply writeFileSync_writes in Hwrite as [[_ (bytecode & Hw3 & Hf3)]|(? & ? & _)];
    [|done].
  rewrite Hwrites2 in Hw3. rewrite Hfiles2 in Hf3.
  destruct (truthy createLoader).
  - apply bind_inv in Hrun as [([] & w4 & Hloader & Hrun)|(e & Hloader & ->)].
    + inversion Hrun; subst.
      apply addLoaderFile_writes in Hloader
        as [(_ & p & Hw4 & Hlookup & Hf4)|(? & ? & _)]; [|done].
      eapply (WroteArtifactAndLoader _ _ _ _ bytecode p).
      * by rewrite Hw4, Hw3, <- app_assoc.
      * done.
      * intros Hplain. by rewrite Hf4, Hf3.
    + apply addLoaderFile_writes in Hloader
        as [(? & _)|(e' & Hr & Hplain & Hw4)]; [done|].
      inversion Hr; subst.
      eapply LoaderFailed; [done|]. by rewrite Hw4, Hw3.
  - revert Hrun. run. intros [= <- <-]. right. by exists bytecode.
Qed.

End CompileFileLoader.

Section CompileFileForms.

Context (H : Host).

Lemma compileFile_options options output :
  compileFile H (ArgsObject options) output =
    match args_filename options with
    | VString filename =>
        match jsOr (jsOr (args_output options) output)
                (VString (take (length filename - 3) filename ++ COMPILED_EXTNAME)) with
        | VString compiledFilename =>
            compileFileFrom H filename compiledFilename
              (VBoolean (isNotFalse (args_compileAsModule options)))
              (args_electron options) (VBoolean true) (args_loaderFilename options)
        | compiledFilename => throw (OutputMustBeString (typeof compiledFilename))
        end
    | filename => throw (FilenameMustBeString (typeof filename))
    end.
Proof.
  unfold compileFile, compileFileFrom, argsOutput.
  unfold mbind at 1. unfold M_bind at 1. unfold mret at 1. unfold M_ret at 1.
  cbv beta iota zeta.
  destruct (truthy (args_loaderFilename options));
    destruct (args_filename options); try reflexivity;
    destruct (jsOr (jsOr _ _) _); reflexivity.
Qed.

Lemma compileFile_string filename output :
  compileFile H (ArgsString filename) output =
    match jsOr (jsOr VUndefined output)
            (VString (take (length filename - 3) filename ++ COMPILED_EXTNAME)) with
    | VString compiledFilename =>
        compileFileFrom H filename compiledFilename (VBoolean true) (VBoolean false)
          (VBoolean false) VUndefined
    | compiledFilename => throw (OutputMustBeString (typeof compiledFilename))
    end.
Proof.
  unfold compileFile, compileFileFrom, argsOutput.
  unfold mbind at 1. unfold M_bind at 1. unfold mret at 1. unfold M_ret at 1.
  cbv beta iota zeta.
  destruct (jsOr (jsOr _ _) _); reflexivity.
Qed.

End CompileFileForms.

(** C10. Called with an options object, [compileFile] never looks at
    [createLoader]: whenever it returns, it has written the artifact and,
    after it, the loader file; the loader file then holds the loader code,
    and with a [loaderFilename] that is undefined, a boolean, a string or a
    [String] object the files are those of before with these two written.
    (When it throws, it has written nothing and the files are as they were,
    or it has written the artifact alone because computing the name of the
    loader file from [loaderFilename] failed, which those values never
    cause.)  Called with a file name, the legacy form, it writes the
    artifact and no loader file: when it returns, the files are those of
    before with the artifact written. *)
Theorem compileFile_options_write_loader (H : Host) (options : BytenodeOptions)
    (output : Value) (w : World) :
  (∀ createLoader,
     compileFile H (ArgsObject (withCreateLoader createLoader options)) output w
     = compileFile H (ArgsObject options) output w)
  ∧ Written H (args_loaderFilename options) w
      (compileFile H (ArgsObject options) output w).1
      (compileFile H (ArgsObject options) output w).2
  ∧ ∀ filename,
      let result := compileFile H (ArgsString filename) output w in
      (∃ e, result.1 = Throw e ∧ writesOf (trace result.2) = writesOf (trace w)
            ∧ files result.2 = files w)
      ∨ (∃ compiledFilename bytecode,
           result.1 = Ok compiledFilename
           ∧ writesOf (trace result.2)
             = writesOf (trace w) ++ [(compiledFilename, bytecode)]
           ∧ files result.2 = <[compiledFilename := bytecode]> (files w)).
Proof.
  split; [|split].
  - intros createLoader. by rewrite !compileFile_options.
  - rewrite compileFile_options.
    destruct (args_filename options) as [| | | |filename| | | | | |];
      try (by constructor).
    destruct (jsOr (jsOr _ _) _) as [| | | |compiledFilename| | | | | |];
      try (by constructor).
    destruct (compileFileFrom _ _ _ _ _ _ _ _) as [r w'] eqn:Hrun.
    by apply compileFileFrom_writes in Hrun.
  - intros filename result. unfold result. rewrite compileFile_string.
    destruct (jsOr (jsOr _ _) _) as [| | | |compiledFilename| | | | | |];
      try (left; by eexists).
    destruct (compileFileFrom _ _ _ _ _ _ _ _) as [r w'] eqn:Hrun.
    apply compileFileFrom_writes in Hrun. simpl in Hrun.
    destruct Hrun as [Hfail|[bytecode [-> Hw]]]; [by left|].
    right. by exists compiledFilename, bytecode.
Qed.

Lemma compileFile_options_write_loader_witness :
  args_createLoader Example.options = VBoolean false
  ∧ (compileFile Example.host (ArgsObject Example.options) VUndefined Example.world).1
    = Ok (js "a.jsc")
  ∧ Written Example.host (args_loaderFilename Example.options) Example.world
      (compileFile Example.host (ArgsObject Example.options) VUndefined Example.world).1
      (compileFile Example.host (ArgsObject Example.options) VUndefined Example.world).2.
Proof.
  split; [reflexivity|]. split; [vm_compute; reflexivity|].
  apply (compileFile_options_write_loader Example.host Example.options VUndefined
           Example.world).
Defined.

(** On the example host, with [createLoader: false], the options form
    writes [a.jsc] and then [a.loader.js]; the legacy form writes [a.jsc]. *)
Example compileFile_options_example :
  (writesOf (trace (compileFile Example.host (ArgsObject Example.options) VUndefined
                      Example.world).2)).*1
  = [js "a.jsc"; js "a.loader.js"]
  ∧ (writesOf (trace (compileFile Example.host (ArgsString (js "a.js")) VUndefined
                        Example.world).2)).*1
    = [js "a.jsc"].
Proof. split; vm_compute; reflexivity. Qed.

(** * Further properties of the code *)

(** ** The patcher on the bytes *)

(** X1. Patching leaves a buffer as it is exactly when the buffer already
    holds the bytes of the reference buffer at every offset of the layout's
    ranges that both buffers reach. *)
Theorem fixBytecodeBytes_fixed_iff (version : JSString)
    (dummyBytecode bytecodeBuffer : Buffer) :
  fixBytecodeBytes version dummyBytecode bytecodeBuffer = bytecodeBuffer
  ↔ ∀ i, inRanges (patchRanges (layoutOf version)) i = true →
         (i < length dummyBytecode)%nat → (i < length bytecodeBuffer)%nat →
         dummyBytecode !! i = bytecodeBuffer !! i.
Proof.
  split.
  - intros Hfix i Hin Hd Hb.
    pose proof (lookup_fixBytecodeBytes version dummyBytecode bytecodeBuffer i) as Hi.
    rewrite Hfix, decide_True in Hi by done. done.
  - intros Hsame. apply list_eq. intros i.
    rewrite lookup_fixBytecodeBytes. case_decide as Hin; [|done].
    destruct Hin as (? & ? & ?). by apply Hsame.
Qed.

(** X2. The patch erases whatever the target held in the patched ranges: two
    targets of the same length that agree at every offset the patcher does
    not overwrite have the same bytes after patching. *)
Theorem fixBytecodeBytes_erases (version : JSString)
    (dummyBytecode target1 target2 : Buffer) :
  length target1 = length target2 →
  (∀ i, inRanges (patchRanges (layoutOf version)) i = false
        ∨ (length dummyBytecode ≤ i)%nat →
        target1 !! i = target2 !! i) →
  fixBytecodeBytes version dummyBytecode target1
  = fixBytecodeBytes version dummyBytecode target2.
Proof.
  intros Hlen Hsame. apply list_eq. intros i.
  rewrite !lookup_fixBytecodeBytes, Hlen.
  case_decide as Hin; [done|].
  destruct (inRanges (patchRanges (layoutOf version)) i) eqn:Hr.
  - destruct (decide (i < length dummyBytecode)%nat).
    + rewrite !lookup_ge_None_2; [done|lia..].
    + apply Hsame. right. lia.
  - apply Hsame. by left.
Qed.

Lemma fixBytecodeBytes_erases_witness :
  fixBytecodeBytes (js "v16.13.0") (Example.cacheOf dummySource)
    (copy (Example.word 0) (Example.cacheOf (js "1+1")) 16)
  = fixBytecodeBytes (js "v16.13.0") (Example.cacheOf dummySource)
      (Example.cacheOf (js "1+1")).
Proof.
  apply fixBytecodeBytes_erases; [reflexivity|].
  intros i Hi.
  assert (Hcases : (i < 12 ∨ 20 ≤ i)%nat).
  { destruct Hi as [Hi|Hi]; [|vm_compute in Hi; lia].
    destruct (decide (12 ≤ i < 20)%nat) as [Hin|]; [|lia].
    exfalso. revert Hi. unfold inRanges, inRange; simpl.
    destruct (decide (i < 16)%nat).
    - rewrite bool_decide_eq_true_2 by lia. done.
    - rewrite (bool_decide_eq_true_2 (16 ≤ i < 20)%nat) by lia.
      by rewrite orb_true_r. }
  destruct Hcases as [Hlt|Hge].
  - do 12 (destruct i as [|i]; [reflexivity|]). lia.
  - do 20 (destruct i as [|i]; [lia|]). reflexivity.
Defined.

(** X3. A buffer too short to reach the first patched offset (12 bytes or
    fewer) is left as it is by the patcher, and a buffer that does not reach
    the length field decodes to 0. *)
Theorem short_buffer_untouched (version : JSString)
    (dummyBytecode bytecodeBuffer : Buffer) :
  (length bytecodeBuffer ≤ 12)%nat →
  fixBytecodeBytes version dummyBytecode bytecodeBuffer = bytecodeBuffer
  ∧ ((length bytecodeBuffer ≤ lengthOffset (layoutOf version))%nat →
     readSourceHashBytes version bytecodeBuffer = 0
     ∧ dummyCodeOf (readSourceHashBytes version bytecodeBuffer) = []).
Proof.
  intros Hshort. split.
  - apply list_eq. intros i. rewrite lookup_fixBytecodeBytes.
    case_decide as Hin; [|done]. destruct Hin as (Hin & _ & Hi). exfalso.
    destruct (layoutOf version); unfold inRanges, inRange in Hin; simpl in Hin;
      repeat (rewrite bool_decide_eq_false_2 in Hin by lia); done.
  - intros Hfield.
    assert (Hzero : readSourceHashBytes version bytecodeBuffer = 0).
    { rewrite readSourceHashBytes_littleEndian32. unfold littleEndian32, byteAt.
      rewrite !lookup_ge_None_2 by lia. done. }
    by rewrite Hzero.
Qed.

Lemma short_buffer_untouched_witness :
  fixBytecodeBytes (js "v8.9.4") (Example.cacheOf dummySource) (Example.word 258)
  = Example.word 258.
Proof.
  apply (short_buffer_untouched (js "v8.9.4") (Example.cacheOf dummySource)
           (Example.word 258)).
  simpl. lia.
Defined.

(** ** The length field and the placeholder *)

Lemma byteVal_inj (x y : byte) : byteVal x = byteVal y → x = y.
Proof.
  unfold byteVal. intros Hxy. apply N2Z.inj in Hxy.
  pose proof (Byte.of_to_N x) as Hx. rewrite Hxy, Byte.of_to_N in Hx.
  by inversion Hx.
Qed.

(** X4. The decoded length determines the four bytes of the length field:
    two buffers that reach the end of the field and decode to the same
    length hold the same four bytes there. *)
Theorem readSourceHashBytes_injective (version : JSString) (buffer1 buffer2 : Buffer) :
  let offset := lengthOffset (layoutOf version) in
  (offset + 4 ≤ length buffer1)%nat →
  (offset + 4 ≤ length buffer2)%nat →
  readSourceHashBytes version buffer1 = readSourceHashBytes version buffer2 →
  slice buffer1 offset (offset + 4) = slice buffer2 offset (offset + 4).
Proof.
  intros offset Hlen1 Hlen2. rewrite !readSourceHashBytes_littleEndian32.
  fold offset. unfold littleEndian32, byteAt. intros Hsum.
  assert (Hsome : ∀ (buf : Buffer) k, (offset + 4 ≤ length buf)%nat → (k < 4)%nat →
            ∃ x, buf !! (offset + k)%nat = Some x).
  { intros buf k Hbuf Hk. apply lookup_lt_is_Some. lia. }
  destruct (Hsome buffer1 0%nat Hlen1) as [x0 Hx0]; [lia|].
  destruct (Hsome buffer1 1%nat Hlen1) as [x1 Hx1]; [lia|].
  destruct (Hsome buffer1 2%nat Hlen1) as [x2 Hx2]; [lia|].
  destruct (Hsome buffer1 3%nat Hlen1) as [x3 Hx3]; [lia|].
  destruct (Hsome buffer2 0%nat Hlen2) as [y0 Hy0]; [lia|].
  destruct (Hsome buffer2 1%nat Hlen2) as [y1 Hy1]; [lia|].
  destruct (Hsome buffer2 2%nat Hlen2) as [y2 Hy2]; [lia|].
  destruct (Hsome buffer2 3%nat Hlen2) as [y3 Hy3]; [lia|].
  rewrite Nat.add_0_r in Hx0, Hy0.
  rewrite Hx0, Hx1, Hx2, Hx3, Hy0, Hy1, Hy2, Hy3 in Hsum. simpl in Hsum.
  assert (Hbound : ∀ x, 0 ≤ byteVal x < 256).
  { intros x. unfold byteVal. pose proof (Byte.to_N_bounded x). lia. }
  pose proof (Hbound x0). pose proof (Hbound x1). pose proof (Hbound x2).
  pose proof (Hbound x3). pose proof (Hbound y0). pose proof (Hbound y1).
  pose proof (Hbound y2). pose proof (Hbound y3).
  assert (x0 = y0) as -> by (apply byteVal_inj; lia).
  assert (x1 = y1) as -> by (apply byteVal_inj; lia).
  assert (x2 = y2) as -> by (apply byteVal_inj; lia).
  assert (x3 = y3) as -> by (apply byteVal_inj; lia).
  apply list_eq. intros i. rewrite !lookup_slice. case_decide; [|done].
  destruct i as [|[|[|[|i]]]]; try lia;
    rewrite ?Nat.add_0_r; congruence.
Qed.

Lemma readSourceHashBytes_injective_witness :
  slice Example.foreignCache 8 12 = slice (Example.cacheOf (js "2*3")) 8 12.
Proof.
  apply (readSourceHashBytes_injective (js "v16.13.0") Example.foreignCache
           (Example.cacheOf (js "2*3"))); vm_compute; (lia || reflexivity).
Defined.

(** X5. Building the placeholder for a decoded length that is not negative
    fails, with a RangeError, exactly when the length is past the longest
    string of the engine.  Otherwise the placeholder has exactly that many
    characters unless the length is 1: for the length 1 the placeholder is
    the empty string, one character short.  A placeholder that is not empty
    is a string literal: it starts and ends with a quote and holds only zero
    width spaces between them. *)
Theorem placeholderFor_length (H : Host) (len : Z) :
  0 ≤ len →
  match placeholderFor H len with
  | inl e => e = RangeError ∧ 1 < len ∧ stringMaxLength H < len
  | inr dummyCode =>
      (1 < len → len ≤ stringMaxLength H)
      ∧ (Z.of_nat (length dummyCode) = len ↔ len ≠ 1)
      ∧ (len = 1 → dummyCode = [])
      ∧ (dummyCode = []
         ∨ ∃ count, dummyCode = [34%N] ++ replicate count 8203%N ++ [34%N])
  end.
Proof.
  intros Hlen. rewrite placeholderFor_eq. unfold pastStringLimit.
  destruct (Z.ltb_spec 1 len) as [Hgt|Hgt];
    [destruct (Z.ltb_spec (stringMaxLength H) len) as [Hmax|Hmax]|]; cbn [andb].
  - done.
  - split; [done|]. rewrite dummyCodeOf_eq, decide_True by done.
    split; [|split].
    + split; [lia|]. intros _. simpl.
      rewrite length_app, length_replicate. simpl. lia.
    + lia.
    + right. by eexists.
  - split; [lia|]. rewrite dummyCodeOf_eq, decide_False by lia.
    split; [|split]; [|done|by left]. simpl. lia.
Qed.

Lemma placeholderFor_length_witness :
  0 ≤ 536870912
  ∧ placeholderFor Example.host 1 = inr []
  ∧ placeholderFor Example.host 5 = inr [34; 8203; 8203; 8203; 34]%N
  ∧ placeholderFor Example.host 536870912 = inl RangeError.
Proof.
  split; [lia|]. split; [reflexivity|]. split; [reflexivity|].
  pose proof (placeholderFor_length Example.host 536870912 ltac:(lia)) as Hlength.
  destruct (placeholderFor Example.host 536870912) as [e|dummyCode].
  - destruct Hlength as [-> _]. reflexivity.
  - exfalso. destruct Hlength as [Hmax _]. vm_compute in Hmax.
    by specialize (Hmax eq_refl).
Defined.

(** ** Version detection *)

Lemma startsWith_prefix (s p : JSString) :
  startsWith s p = true ↔ ∃ rest, s = p ++ rest.
Proof.
  revert s. induction p as [|c p IH]; intros s.
  { destruct s; simpl; (split; [by eexists|done]). }
  destruct s as [|d s]; simpl.
  { split; [done|]. by intros [rest Hrest]. }
  rewrite andb_true_iff, N.eqb_eq, IH. split.
  - intros [-> [rest ->]]. by exists rest.
  - intros [rest [= -> ->]]. split; [done|]. by exists rest.
Qed.

(** X6. The engine version is recognised by prefix alone: a version takes
    the early layout exactly when its string begins with [v8.8] or [v8.9],
    and the mid layout exactly when it begins with [v12], [v13], [v14] or
    [v15], whatever follows (so [v120.0.0] takes the mid layout); every
    other string, the empty one included, takes the current layout. *)
Theorem layoutOf_by_prefix (version : JSString) :
  (layoutOf version = Early
   ↔ ∃ rest, version = js "v8.8" ++ rest ∨ version = js "v8.9" ++ rest)
  ∧ (layoutOf version = Mid
     ↔ ∃ rest, version = js "v12" ++ rest ∨ version = js "v13" ++ rest
               ∨ version = js "v14" ++ rest ∨ version = js "v15" ++ rest)
  ∧ (layoutOf version = Current
     ↔ ¬ ∃ prefix rest,
           prefix ∈ [js "v8.8"; js "v8.9"; js "v12"; js "v13"; js "v14"; js "v15"]
           ∧ version = prefix ++ rest).
Proof.
  assert (H8 : isNode8 version = true
    ↔ ∃ rest, version = js "v8.8" ++ rest ∨ version = js "v8.9" ++ rest).
  { unfold isNode8. rewrite orb_true_iff, !startsWith_prefix. split.
    - intros [[rest Hr]|[rest Hr]]; exists rest; tauto.
    - intros [rest [Hr|Hr]]; [left|right]; by exists rest. }
  assert (H12 : isNode12to15 version = true
    ↔ ∃ rest, version = js "v12" ++ rest ∨ version = js "v13" ++ rest
              ∨ version = js "v14" ++ rest ∨ version = js "v15" ++ rest).
  { unfold isNode12to15. rewrite !orb_true_iff, !startsWith_prefix. split.
    - intros [[[[rest Hr]|[rest Hr]]|[rest Hr]]|[rest Hr]]; exists rest; tauto.
    - intros [rest [Hr|[Hr|[Hr|Hr]]]];
        [left; left; left|left; left; right|left; right|right]; by exists rest. }
  assert (Hexcl : isNode8 version = true → isNode12to15 version = true → False).
  { rewrite H8, H12. intros [r1 Hr1] [r2 Hr2].
    destruct Hr1 as [->| ->]; destruct Hr2 as [Hr2|[Hr2|[Hr2|Hr2]]]; discriminate. }
  unfold layoutOf.
  destruct (isNode8 version) eqn:E8; [|destruct (isNode12to15 version) eqn:E12].
  - split; [|split].
    + split; [intros _; by apply H8|done].
    + split; [done|]. intros Hmid. apply H12 in Hmid. by destruct Hexcl.
    + split; [done|]. intros Hnone. exfalso. apply Hnone.
      destruct (proj1 H8 eq_refl) as [rest [->| ->]];
        eexists _, rest; (split; [|done]); by repeat constructor.
  - split; [|split].
    + split; [done|]. intros He. apply H8 in He. done.
    + split; [intros _; by apply H12|done].
    + split; [done|]. intros Hnone. exfalso. apply Hnone.
      destruct (proj1 H12 eq_refl) as [rest [->|[->|[->| ->]]]];
        eexists _, rest; (split; [|done]); by repeat constructor.
  - split; [|split].
    + split; [done|]. intros He. apply H8 in He. done.
    + split; [done|]. intros Hm. apply H12 in Hm. done.
    + split; [|done]. intros _ (prefix & rest & Hin & Hv).
      rewrite !elem_of_cons, elem_of_nil in Hin.
      enough (false = true) by done.
      destruct Hin as [->|[->|[->|[->|[->|[->|[]]]]]]];
        [apply H8|apply H8|apply H12|apply H12|apply H12|apply H12];
        exists rest; tauto.
Qed.

(** ** The interpreter directive *)

Lemma skipLine_split (s : JSString) :
  ∃ line, s = line ++ skipLine s
    ∧ Forall (λ c, isLineTerminator c = false) line
    ∧ match skipLine s with
      | [] => True
      | c :: _ => isLineTerminator c = true
      end.
Proof.
  induction s as [|c s (line & Hs & Hline & Hhead)]; simpl.
  { by exists []. }
  destruct (isLineTerminator c) eqn:Hc.
  - exists []. by rewrite Hc.
  - exists (c :: line). split; [by rewrite Hs at 1|]. split; [|done].
    by constructor.
Qed.

(** X7. Stripping the interpreter directive removes only characters of the
    first line and keeps its line break, so every later line keeps its
    number; it removes something only from a text that begins with [#!];
    and stripping a second time changes nothing. *)
Theorem stripShebang_first_line (code : JSString) :
  ∃ directive,
    code = directive ++ stripShebang code
    ∧ Forall (λ c, isLineTerminator c = false) directive
    ∧ (startsWith code (js "#!") = false ↔ directive = [])
    ∧ stripShebang (stripShebang code) = stripShebang code.
Proof.
  destruct (startsWith code (js "#!")) eqn:Hstart.
  - destruct (skipLine_split code) as (line & Hcode & Hline & Hhead).
    assert (Hstrip : stripShebang code = skipLine code).
    { unfold stripShebang. by rewrite Hstart. }
    rewrite Hstrip.
    exists line. split; [done|]. split; [done|]. split.
    + split; [done|]. intros ->. simpl in Hcode. exfalso.
      apply startsWith_prefix in Hstart as [rest ->].
      change (skipLine (js "#!" ++ rest)) with (skipLine rest) in Hcode.
      assert (Hlen : length (js "#!" ++ rest) = length (skipLine rest)) by congruence.
      destruct (skipLine_split rest) as (l2 & Hc2 & _).
      rewrite Hc2 in Hlen at 1. rewrite !length_app in Hlen. simpl in Hlen. lia.
    + unfold stripShebang.
      destruct (startsWith (skipLine code) (js "#!")) eqn:Hagain; [|done].
      apply startsWith_prefix in Hagain as [rest Hrest].
      rewrite Hrest in Hhead. discriminate.
  - assert (Hstrip : stripShebang code = code).
    { unfold stripShebang. by rewrite Hstart. }
    exists []. rewrite !Hstrip. done.
Qed.

(** ** [compileCode] *)

(** X8. Given anything but a string, [compileCode] throws its error of kind
    InvalidArgument, naming the type it was given, and asks nothing of the
    engine: the world is as it was. *)
Theorem compileCode_not_a_string (H : Host) (javascriptCode : Value) (w : World) :
  typeof javascriptCode ≠ TString →
  compileCode H javascriptCode w
  = (Throw (JavascriptCodeMustBeString (typeof javascriptCode)), w)
  ∧ errorKind (JavascriptCodeMustBeString (typeof javascriptCode)) = InvalidArgument.
Proof. intros Htype. by destruct javascriptCode. Qed.

Lemma compileCode_not_a_string_witness :
  typeof (VBuffer 0%nat) ≠ TString
  ∧ compileCode Example.host (VBuffer 0%nat) Example.world
    = (Throw (JavascriptCodeMustBeString TObject), Example.world).
Proof.
  split; [discriminate|].
  apply (compileCode_not_a_string Example.host (VBuffer 0%nat) Example.world).
  discriminate.
Defined.

(** X9. Given a string, [compileCode] asks the engine once, for that string,
    touches no file and changes no buffer that exists: when it returns a
    buffer, that buffer is a new object, holding the bytes of
    [createCachedData()] when the engine has the method and the bytes of the
    field [cachedData] otherwise; with neither it returns [undefined]; and
    when the engine throws, [compileCode] throws the same. *)
Theorem compileCode_new_buffer (H : Host) (code : JSString) (w : World) :
  let result := compileCode H (VString code) w in
  files result.2 = files w
  ∧ trace result.2 = trace w ++ [EvNewScript code]
  ∧ (∀ l bytes, heap w !! l = Some bytes → heap result.2 !! l = Some bytes)
  ∧ match vmScript H code with
    | inl e => result.1 = Throw (HostException e) ∧ heap result.2 = heap w
    | inr script =>
        match createCachedData script, cachedData script with
        | Some bytes, _ | None, Some bytes =>
            result.1 = Ok (VBuffer (length (heap w)))
            ∧ heap w !! length (heap w) = None
            ∧ heap result.2 = heap w ++ [bytes]
        | None, None => result.1 = Ok VUndefined ∧ heap result.2 = heap w
        end
    end.
Proof.
  intros result. unfold result. rewrite compileCode_string. unfold producedBytes.
  destruct (vmScript H code) as [e|script]; [done|].
  assert (Hfresh : heap w !! length (heap w) = None) by by apply lookup_ge_None_2.
  destruct (createCachedData script) as [bytes|].
  - repeat split; try done. intros l b Hl. simpl. by apply lookup_app_l_Some.
  - destruct (cachedData script) as [bytes|]; [|done].
    repeat split; try done. intros l b Hl. simpl. by apply lookup_app_l_Some.
Qed.

(** ** What the runner leaves alone *)

Lemma fixBytecode_no_cache H l w :
  dummyBytecodeOf H = None →
  fixBytecode H (VBuffer l) w
  = (Throw (HostException match vmScript H dummySource with
                          | inl e => e
                          | inr _ => TypeError
                          end),
     emit (EvNewScript dummySource) w).
Proof.
  intros Hd. unfold fixBytecode, dummyBytecodeOf in *.
  unfold mbind, M_bind. rewrite compileCode_string.
  destruct (vmScript H dummySource) as [e|script]; [done|].
  by rewrite Hd.
Qed.

Lemma runBytecode_no_cache H l w :
  dummyBytecodeOf H = None →
  runBytecode H (VBuffer l) w
  = (Throw (HostException match vmScript H dummySource with
                          | inl e => e
                          | inr _ => TypeError
                          end),
     emit (EvNewScript dummySource) w).
Proof.
  intros Hd. unfold runBytecode. cbn [isBuffer negb].
  by erewrite bind_Throw by (by apply fixBytecode_no_cache).
Qed.

Lemma runsOf_app (events more : list Event) :
  runsOf (events ++ more) = runsOf events ++ runsOf more.
Proof. unfold runsOf. by rewrite omap_app. Qed.




(** X11. Retrying fails the same way.  When a run of [runBytecode] did not
    get to run a script, running the buffer again gives the same outcome,
    again without running a script, and leaves the same bytes in the buffer:
    the first run left the buffer patched, the second patches it again
    without effect and reads the same length.  In particular a buffer that
    was rejected is rejected again. *)
Theorem runBytecode_again (H : Host) (w : World) (l : loc) (bytecodeBuffer : Buffer) :
  heap w !! l = Some bytecodeBuffer →
  let first := runBytecode H (VBuffer l) w in
  let second := runBytecode H (VBuffer l) first.2 in
  (runsOf (trace first.2) = runsOf (trace w) →
   second.1 = first.1
   ∧ heap second.2 !! l = heap first.2 !! l
   ∧ runsOf (trace second.2) = runsOf (trace w))
  ∧ (first.1 = Throw CachedDataRejected → second.1 = Throw CachedDataRejected).
Proof.
  intros Hl first second. unfold second, first.
  destruct (dummyBytecodeOf H) as [d|] eqn:Hd.
  - rewrite (runBytecode_eq H l w _ _ Hl Hd).
    set (bytes := fixBytecodeBytes (processVersion H) d bytecodeBuffer).
    set (script := cachedScriptOf H None bytes).
    assert (Hpatched : ∀ w1, heap w1 !! l = Some bytes →
      runBytecode H (VBuffer l) w1
      = (if pastStringLimit H (readSourceHashBytes (processVersion H) bytes)
         then (Throw (HostException RangeError), patched H l d bytes w1)
         else if vmCachedDataRejected H script
         then (Throw CachedDataRejected,
               emit (EvNewCachedScript script) (patched H l d bytes w1))
         else (outcome (vmRunInThisContext H script
                          (storeOf (emit (EvNewCachedScript script)
                                      (patched H l d bytes w1)))).1,
               setStore (vmRunInThisContext H script
                           (storeOf (emit (EvNewCachedScript script)
                                       (patched H l d bytes w1)))).2
                 (emit (EvRunInThisContext script)
                    (emit (EvNewCachedScript script) (patched H l d bytes w1)))))
        ∧ heap (patched H l d bytes w1) !! l = Some bytes).
    { intros w1 Hl1. rewrite (runBytecode_eq H l w1 _ _ Hl1 Hd).
      rewrite (heap_patched H l d bytes w1 Hl1).
      replace (fixBytecodeBytes (processVersion H) d bytes) with bytes
        by (unfold bytes; by rewrite fixBytecodeBytes_idempotent).
      done. }
    pose proof (heap_patched H l d bytecodeBuffer w Hl) as Hl0. fold bytes in Hl0.
    destruct (pastStringLimit H _) eqn:Hpast;
      [|destruct (vmCachedDataRejected H script) eqn:Hrej]; cbn [fst snd].
    + destruct (Hpatched _ Hl0) as [-> Hl1]. rewrite ?Hpast. cbn [fst snd].
      split; [|done]. intros _. split; [done|]. split; [by rewrite Hl1, Hl0|].
      cbn [patched trace]. by rewrite !runsOf_app, !app_nil_r.
    + assert (Hl0' : heap (emit (EvNewCachedScript script)
                             (patched H l d bytecodeBuffer w)) !! l = Some bytes)
        by done.
      destruct (Hpatched _ Hl0') as [-> Hl1]. rewrite ?Hpast, ?Hrej. cbn [fst snd].
      split; [|done]. intros _. split; [done|].
      split; [cbn [emit heap]; by rewrite Hl1, Hl0|].
      cbn [patched emit trace]. by rewrite !runsOf_app, !app_nil_r.
    + split.
      * cbn [patched emit setStore trace]. rewrite !runsOf_app, !app_nil_r.
        cbn [runsOf omap]. intros Hruns. exfalso.
        apply (f_equal length) in Hruns. rewrite length_app in Hruns.
        simpl in Hruns. lia.
      * by destruct (vmRunInThisContext H script _).1.
  - rewrite !(runBytecode_no_cache H l _ Hd). cbn [fst snd emit trace heap].
    split; [|done]. intros _. split; [done|]. split; [done|].
    by rewrite !runsOf_app, !app_nil_r.
Qed.

Lemma runBytecode_again_witness :
  heap Example2.rejectedWorld !! 0%nat = Some (Example.cacheOf (js "1"))
  ∧ (runBytecode Example.host (VBuffer 0%nat) Example2.rejectedWorld).1
    = Throw CachedDataRejected
  ∧ (runBytecode Example.host (VBuffer 0%nat)
       (runBytecode Example.host (VBuffer 0%nat) Example2.rejectedWorld).2).1
    = Throw CachedDataRejected.
Proof.
  split; [reflexivity|]. split; [vm_compute; reflexivity|].
  apply (runBytecode_again Example.host Example2.rejectedWorld 0%nat
           (Example.cacheOf (js "1")) eq_refl).
  vm_compute; reflexivity.
Defined.

(** ** [runBytecodeFile] and the loader hook: failures *)

(** X12. [runBytecodeFile] throws its error of kind InvalidArgument for a
    file name that is not a string, without touching the world, and the
    error of the file system for a file that does not exist, after that one
    request.  For a file that exists it runs a new buffer holding the bytes
    of the file, exactly as [runBytecode] does; the patch is applied to that
    buffer only: unless a script was run, every file is afterwards as it
    was. *)
Theorem runBytecodeFile_cases (H : Host) (filename : Value) (w : World) :
  let result := runBytecodeFile H filename w in
  match filename with
  | VString path =>
      match files w !! path with
      | Some bytes =>
          result = runBytecode H (VBuffer (length (heap w))) (fileRead path bytes w)
          ∧ heap (fileRead path bytes w) !! length (heap w) = Some bytes
          ∧ (runsOf (trace result.2) = runsOf (trace w) → files result.2 = files w)
      | None => result = (Throw (HostException ENOENT), emit (EvReadFile path) w)
      end
  | _ => result = (Throw (FilenameMustBeString (typeof filename)), w)
         ∧ errorKind (FilenameMustBeString (typeof filename)) = InvalidArgument
  end.
Proof.
  intros result. unfold result. destruct filename as [| | | |path| | | | | |]; try done.
  unfold runBytecodeFile.
  destruct (files w !! path) as [bytes|] eqn:Hf.
  - erewrite bind_Ok by (by apply readFileSync_eq). split; [done|].
    assert (Hl : heap (fileRead path bytes w) !! length (heap w) = Some bytes).
    { simpl. by rewrite lookup_app_r, Nat.sub_diag by lia. }
    split; [done|].
    destruct (dummyBytecodeOf H) as [d|] eqn:Hd.
    + rewrite (runBytecode_eq H _ _ _ _ Hl Hd).
      destruct (pastStringLimit H _); [done|].
      destruct (vmCachedDataRejected H _); [done|].
      cbn [snd patched emit fileRead setHeap setStore trace].
      rewrite !runsOf_app, !app_nil_r. cbn [runsOf omap]. intros Hruns. exfalso.
      apply (f_equal length) in Hruns. rewrite length_app in Hruns.
      simpl in Hruns. lia.
    + by rewrite (runBytecode_no_cache H _ _ Hd).
  - unfold readFileSync. run. by rewrite Hf.
Qed.

(** X13. Where the loader hook fails.  For a file that does not exist it
    throws the error of the file system after that one request.  When the
    engine hands out no cache for the dummy source, the patcher fails.  For
    a length past the longest string of the engine it throws a RangeError
    and compiles nothing; for a cache the engine rejects it throws the error
    of kind IncompatibleCache and the script is not run; in these cases the
    files and the global state are as they were.  When running the script
    throws, the hook throws the same and the wrapper is not applied.  When
    the script evaluates to a value, the hook applies it, and what the call
    throws the hook throws: only then has it failed after calling the
    wrapper. *)
Theorem loader_hook_failures (H : Host) (module : loc) (filename : JSString)
    (w : World) :
  let result := Module_extensions_jsc H module filename w in
  match files w !! filename with
  | None => result = (Throw (HostException ENOENT), emit (EvReadFile filename) w)
  | Some bytecodeBuffer =>
      match dummyBytecodeOf H with
      | None =>
          (∃ e, result.1 = Throw (HostException e))
          ∧ trace result.2 = trace w ++ [EvReadFile filename; EvNewScript dummySource]
          ∧ files result.2 = files w ∧ globals result.2 = globals w
      | Some dummyBytecode =>
          let bytes := fixBytecodeBytes (processVersion H) dummyBytecode bytecodeBuffer in
          let len := readSourceHashBytes (processVersion H) bytes in
          let script :=
            {| scriptSource := dummyCodeOf len;
               scriptFilename := Some filename;
               scriptCachedData := bytes |} in
          if pastStringLimit H len
          then result.1 = Throw (HostException RangeError)
               ∧ trace result.2
                 = trace w ++ [EvReadFile filename; EvNewScript dummySource]
               ∧ files result.2 = files w ∧ globals result.2 = globals w
          else if vmCachedDataRejected H script
          then result.1 = Throw CachedDataRejected
               ∧ trace result.2
                 = trace w ++ [EvReadFile filename; EvNewScript dummySource;
                               EvNewCachedScript script]
               ∧ files result.2 = files w ∧ globals result.2 = globals w
          else
            ∃ before,
              storeFiles before = files w ∧ storeGlobals before = globals w
              ∧ match (vmRunInThisContext H script before).1 with
                | inl e =>
                    result.1 = Throw (HostException e)
                    ∧ trace result.2
                      = trace w ++ [EvReadFile filename; EvNewScript dummySource;
                                    EvNewCachedScript script; EvRunInThisContext script]
                    ∧ appliesOf (trace result.2) = appliesOf (trace w)
                    ∧ storeOf result.2 = (vmRunInThisContext H script before).2
                | inr compiledWrapper =>
                    ∃ this args,
                      result.1
                      = outcome (functionApply H compiledWrapper this args
                                   (vmRunInThisContext H script before).2).1
                      ∧ storeOf result.2
                        = (functionApply H compiledWrapper this args
                             (vmRunInThisContext H script before).2).2
                      ∧ trace result.2
                        = trace w ++ [EvReadFile filename; EvNewScript dummySource;
                                      EvNewCachedScript script;
                                      EvRunInThisContext script;
                                      EvApply compiledWrapper this args]
                end
      end
  end.
Proof.
  intros result. unfold result.
  destruct (files w !! filename) as [bytecodeBuffer|] eqn:Hf; last first.
  { unfold Module_extensions_jsc, readFileSync. run. by rewrite Hf. }
  destruct (dummyBytecodeOf H) as [d|] eqn:Hd.
  - rewrite (Module_extensions_jsc_eq H module filename w _ _ Hf Hd).
    unfold cachedScriptOf. cbv zeta.
    destruct (pastStringLimit H _).
    { split; [done|]. split; [|done]. simpl. by rewrite <- !app_assoc. }
    destruct (vmCachedDataRejected H _).
    { split; [done|]. split; [|done]. simpl. by rewrite <- !app_assoc. }
    set (before := storeOf (emit _ (patched _ _ _ _ _))).
    exists before. split; [done|]. split; [done|].
    destruct (vmRunInThisContext H _ before) as [[e|compiledWrapper] store'];
      cbn [fst snd].
    + split; [done|]. split; [simpl; by rewrite <- !app_assoc|].
      split; [|by destruct store'].
      unfold appliesOf. simpl. by rewrite !omap_app, !app_nil_r.
    + eexists _, _. split; [by destruct store'|]. split.
      * destruct store'. cbn [setStore storeOf emit heap files globals].
        by destruct (functionApply H _ _ _ _).2.
      * simpl. by rewrite <- !app_assoc.
  - unfold Module_extensions_jsc.
    erewrite bind_Ok by (by apply readFileSync_eq).
    erewrite bind_Throw by (by apply fixBytecode_no_cache).
    split; [by eexists|]. split; [|done]. simpl. by rewrite <- !app_assoc.
Qed.

(** On the example host the artifact of the one-character source [1] is
    rejected: its length field holds 1 and the placeholder is empty. *)
Example loader_hook_rejects_one_character :
  (Module_extensions_jsc Example.host Example.module (js "one.jsc") Example2.world).1
  = Throw CachedDataRejected
  ∧ (runBytecodeFile Example.host (VString (js "one.jsc")) Example2.world).1
    = Throw CachedDataRejected.
Proof. split; vm_compute; reflexivity. Qed.

(** ** Compiling and running *)

(** Running the buffer [compileCode] returned for a source. *)
Lemma compileCode_runBytecode_eq (H : Host) (code : JSString) (w : World)
    (script : ProducedScript) (bytes dummyBytecode : Buffer) :
  vmScript H code = inr script →
  producedBytes script = Some bytes →
  dummyBytecodeOf H = Some dummyBytecode →
  let cached :=
    {| scriptSource := dummyCodeOf (readSourceHashBytes (processVersion H) bytes);
       scriptFilename := None;
       scriptCachedData := fixBytecodeBytes (processVersion H) dummyBytecode bytes |} in
  let patchedWorld :=
    {| heap := heap w ++ [fixBytecodeBytes (processVersion H) dummyBytecode bytes;
                          dummyBytecode];
       files := files w;
       globals := globals w;
       trace := trace w ++ [EvNewScript code; EvNewScript dummySource] |} in
  let compiledWorld := emit (EvNewCachedScript cached) patchedWorld in
  let ran := vmRunInThisContext H cached (storeOf compiledWorld) in
  (compileCode H (VString code) ≫= runBytecode H) w =
    if pastStringLimit H (readSourceHashBytes (processVersion H) bytes)
    then (Throw (HostException RangeError), patchedWorld)
    else if vmCachedDataRejected H cached then (Throw CachedDataRejected, compiledWorld)
    else (outcome ran.1, setStore ran.2 (emit (EvRunInThisContext cached) compiledWorld)).
Proof.
  intros Hscript Hbytes Hd cached patchedWorld compiledWorld ran.
  erewrite bind_Ok; last first.
  { rewrite compileCode_string, Hscript, Hbytes. done. }
  assert (Hl : heap (compiled code bytes w) !! length (heap w) = Some bytes).
  { simpl. by rewrite lookup_app_r, Nat.sub_diag by lia. }
  rewrite (runBytecode_eq H _ _ _ _ Hl Hd).
  unfold cachedScriptOf. rewrite readSourceHashBytes_fixBytecodeBytes. fold cached.
  assert (Hpatched : patched H (length (heap w)) dummyBytecode bytes
                       (compiled code bytes w) = patchedWorld).
  { unfold patched, patchedWorld. cbn [compiled setHeap emit heap files globals trace].
    f_equal.
    - rewrite <- app_assoc. rewrite <- (Nat.add_0_r (length (heap w))).
      by rewrite insert_app_r.
    - by rewrite <- app_assoc. }
  rewrite Hpatched. done.
Qed.

(** X14. Running the buffer [compileCode] returned for a source: the engine
    is handed the cache it produced for the source, patched with the cache
    of the dummy source, and the placeholder for the length that cache
    holds, unless that length is past the longest string of the engine; the
    outcome is the error of kind IncompatibleCache when the engine rejects
    this pair and the outcome of running it otherwise, on a store that holds
    the two new buffers and is otherwise the one of before.  The source
    itself never reaches the engine a second time. *)
Theorem compileCode_then_runBytecode (H : Host) (code : JSString) (w : World)
    (script : ProducedScript) (bytes dummyBytecode : Buffer) :
  vmScript H code = inr script →
  producedBytes script = Some bytes →
  dummyBytecodeOf H = Some dummyBytecode →
  let cached :=
    {| scriptSource := dummyCodeOf (readSourceHashBytes (processVersion H) bytes);
       scriptFilename := None;
       scriptCachedData := fixBytecodeBytes (processVersion H) dummyBytecode bytes |} in
  let before := storeAtRun H w bytes dummyBytecode in
  let result := (compileCode H (VString code) ≫= runBytecode H) w in
  if pastStringLimit H (readSourceHashBytes (processVersion H) bytes)
  then result.1 = Throw (HostException RangeError)
       ∧ storeOf result.2 = before
       ∧ trace result.2 = trace w ++ [EvNewScript code; EvNewScript dummySource]
  else if vmCachedDataRejected H cached
  then result.1 = Throw CachedDataRejected
       ∧ storeOf result.2 = before
       ∧ trace result.2
         = trace w ++ [EvNewScript code; EvNewScript dummySource;
                       EvNewCachedScript cached]
  else result.1 = outcome (vmRunInThisContext H cached before).1
       ∧ storeOf result.2 = (vmRunInThisContext H cached before).2
       ∧ trace result.2
         = trace w ++ [EvNewScript code; EvNewScript dummySource;
                       EvNewCachedScript cached; EvRunInThisContext cached].
Proof.
  intros Hscript Hbytes Hd cached before result. unfold result.
  rewrite (compileCode_runBytecode_eq H code w script bytes dummyBytecode
             Hscript Hbytes Hd).
  fold cached. cbv zeta.
  destruct (pastStringLimit H _); [|destruct (vmCachedDataRejected H cached)];
    cbn [fst snd].
  - done.
  - split; [done|]. split; [done|]. simpl. by rewrite <- !app_assoc.
  - split; [done|]. split.
    + by destruct (vmRunInThisContext H cached _).2.
    + simpl. by rewrite <- !app_assoc.
Qed.

Lemma compileCode_then_runBytecode_witness :
  vmScript Example.host (js "1+1")
  = inr {| createCachedData := Some (Example.cacheOf (js "1+1")); cachedData := None |}
  ∧ dummyBytecodeOf Example.host = Some (Example.cacheOf dummySource)
  ∧ ((compileCode Example.host (VString (js "1+1")) ≫= runBytecode Example.host)
       Example.world).1
    = Ok (VFunction 9%nat).
Proof.
  split; [reflexivity|]. split; [reflexivity|].
  pose proof (compileCode_then_runBytecode Example.host (js "1+1") Example.world
                {| createCachedData := Some (Example.cacheOf (js "1+1"));
                   cachedData := None |}
                (Example.cacheOf (js "1+1")) (Example.cacheOf dummySource)
                eq_refl eq_refl eq_refl) as Hrun.
  cbv zeta in Hrun.
  change (pastStringLimit _ _) with false in Hrun.
  change (vmCachedDataRejected _ _) with false in Hrun.
  exact (proj1 Hrun).
Defined.

(** ** [compileFile]: its arguments *)

Section CompileFileArguments.

Context (H : Host).

(** Both forms of [compileFile] with a file name that is a string. *)
Lemma compileFile_named args output filename :
  argsFilename args = Some filename →
  compileFile H args output =
    match chosenOutput args output filename with
    | VString compiledFilename =>
        compileFileFrom H filename compiledFilename (argsCompileAsModule args)
          (argsElectron args) (argsCreateLoader args) (argsLoaderFilename args)
    | compiledFilename => throw (OutputMustBeString (typeof compiledFilename))
    end.
Proof.
  unfold chosenOutput. destruct args as [f|options| |]; simpl; try done.
  - intros [= ->]. apply compileFile_string.
  - rewrite compileFile_options.
    destruct (args_filename options); try done. by intros [= ->].
Qed.

Lemma compileFileFrom_returns filename compiledFilename compileAsModule electron
    createLoader loaderFilename w name w' :
  compileFileFrom H filename compiledFilename compileAsModule electron createLoader
    loaderFilename w = (Ok name, w') →
  name = compiledFilename.
Proof.
  unfold compileFileFrom. intros Hrun.
  apply bind_inv in Hrun as [(? & ? & _ & Hrun)|(? & _ & [=])].
  apply bind_inv in Hrun as [(? & ? & _ & Hrun)|(? & _ & [=])].
  apply bind_inv in Hrun as [(? & ? & _ & Hrun)|(? & _ & [=])].
  apply bind_inv in Hrun as [(? & ? & _ & Hrun)|(? & _ & [=])].
  by inversion Hrun.
Qed.

End CompileFileArguments.

(** X15. [compileFile] rejects a first argument in which it finds no file
    name that is a string before it asks anything of the host: an options
    object whose [filename] is not a string, and a first argument that is
    neither a string nor an object, get the error of kind InvalidArgument;
    [null] gets the TypeError of reading a property of [null].  The world is
    as it was. *)
Theorem compileFile_filename_not_a_string (H : Host) (options : BytenodeOptions)
    (output : Value) (w : World) :
  typeof (args_filename options) ≠ TString →
  compileFile H (ArgsObject options) output w
  = (Throw (FilenameMustBeString (typeof (args_filename options))), w)
  ∧ compileFile H ArgsOther output w = (Throw (FilenameMustBeString TUndefined), w)
  ∧ compileFile H ArgsNull output w = (Throw (HostException TypeError), w)
  ∧ errorKind (FilenameMustBeString (typeof (args_filename options))) = InvalidArgument.
Proof.
  intros Htype. split; [|done]. rewrite compileFile_options.
  by destruct (args_filename options).
Qed.

Lemma compileFile_filename_not_a_string_witness :
  typeof (args_filename Example2.numberOptions) ≠ TString
  ∧ compileFile Example.host (ArgsObject Example2.numberOptions) VUndefined
      Example.world
    = (Throw (FilenameMustBeString TNumber), Example.world).
Proof.
  split; [discriminate|].
  apply (compileFile_filename_not_a_string Example.host Example2.numberOptions
           VUndefined Example.world).
  discriminate.
Defined.

(** X16. The output name is the first truthy value among [args.output] and
    the second argument [output]; when that value is not a string,
    [compileFile] throws its error of kind InvalidArgument before it reads
    the source file: the world is as it was. *)
Theorem compileFile_output_not_a_string (H : Host) (args : CompileArgs)
    (output : Value) (filename : JSString) (w : World) :
  argsFilename args = Some filename →
  truthy (jsOr (argsOutput args) output) = true →
  typeof (jsOr (argsOutput args) output) ≠ TString →
  compileFile H args output w
  = (Throw (OutputMustBeString (typeof (jsOr (argsOutput args) output))), w)
  ∧ errorKind (OutputMustBeString (typeof (jsOr (argsOutput args) output)))
    = InvalidArgument.
Proof.
  intros Hname Htruthy Htype. split; [|done].
  rewrite (compileFile_named H args output filename Hname).
  unfold chosenOutput. unfold jsOr at 1. rewrite Htruthy.
  by destruct (jsOr (argsOutput args) output).
Qed.

Lemma compileFile_output_not_a_string_witness :
  argsFilename (ArgsString (js "a.js")) = Some (js "a.js")
  ∧ compileFile Example.host (ArgsString (js "a.js")) (VNumber 1) Example.world
    = (Throw (OutputMustBeString TNumber), Example.world).
Proof.
  split; [reflexivity|].
  apply (compileFile_output_not_a_string Example.host (ArgsString (js "a.js"))
           (VNumber 1) (js "a.js") Example.world); (reflexivity || discriminate).
Defined.

(** X17. When [compileFile] returns, it returns the output name: the value
    of [args.output] when that is truthy, else the second argument [output]
    when that is truthy, else the file name with its last three characters
    replaced by [.jsc], so that [base.js] gives [base.jsc]. *)
Theorem compileFile_returns_output_name (H : Host) (args : CompileArgs)
    (output : Value) (w w' : World) (compiledFilename : JSString) :
  compileFile H args output w = (Ok compiledFilename, w') →
  ∃ filename,
    argsFilename args = Some filename
    ∧ VString compiledFilename
      = (if truthy (argsOutput args) then argsOutput args
         else if truthy output then output
         else VString (take (length filename - 3) filename ++ js ".jsc"))
    ∧ (truthy (argsOutput args) = false → truthy output = false →
       ∀ base, filename = base ++ js ".js" → compiledFilename = base ++ js ".jsc").
Proof.
  intros Hrun.
  destruct (argsFilename args) as [filename|] eqn:Hname; last first.
  { exfalso. destruct args as [f|options| |]; simpl in Hname; try done.
    rewrite compileFile_options in Hrun.
    by destruct (args_filename options). }
  exists filename. split; [done|].
  rewrite (compileFile_named H args output filename Hname) in Hrun.
  assert (Hchosen : chosenOutput args output filename = VString compiledFilename).
  { destruct (chosenOutput args output filename); try done.
    apply compileFileFrom_returns in Hrun. by subst. }
  revert Hchosen. unfold chosenOutput, jsOr.
  destruct (truthy (argsOutput args)) eqn:Ha.
  { rewrite ?Ha. intros ->. split; [done|]. done. }
  destruct (truthy output) eqn:Ho.
  { rewrite ?Ho. intros ->. split; [done|]. done. }
  rewrite ?Ho. intros [= <-]. split; [done|]. intros _ _ base ->.
  rewrite length_app. simpl. rewrite Nat.add_sub. by rewrite take_app_length.
Qed.

Lemma compileFile_returns_output_name_witness :
  compileFile Example.host (ArgsString (js "a.js")) VUndefined Example.world
  = (Ok (js "a.jsc"),
     (compileFile Example.host (ArgsString (js "a.js")) VUndefined Example.world).2)
  ∧ ∃ filename,
      argsFilename (ArgsString (js "a.js")) = Some filename
      ∧ VString (js "a.jsc")
        = VString (take (length filename - 3) filename ++ js ".jsc").
Proof.
  assert (Hrun :
    compileFile Example.host (ArgsString (js "a.js")) VUndefined Example.world
    = (Ok (js "a.jsc"),
       (compileFile Example.host (ArgsString (js "a.js")) VUndefined Example.world).2)).
  { vm_compute. reflexivity. }
  split; [exact Hrun|].
  destruct (compileFile_returns_output_name Example.host (ArgsString (js "a.js"))
              VUndefined Example.world _ (js "a.jsc") Hrun)
    as (filename & Hname & Hout & _).
  exists filename. split; [exact Hname|exact Hout].
Defined.

(** ** [compileFile]: what it reads, compiles and writes *)

Section CompileFileRuns.

Context (H : Host).

Lemma readFileSyncUtf8_eq path w :
  readFileSyncUtf8 H path w =
    match files w !! path with
    | Some content => (Ok (utf8Decode H content), emit (EvReadFile path) w)
    | None => (Throw (HostException ENOENT), emit (EvReadFile path) w)
    end.
Proof. unfold readFileSyncUtf8. run. by destruct (files w !! path). Qed.

Lemma writeFileSync_buffer_eq path l w bytes :
  heap w !! l = Some bytes →
  writeFileSync H path (VBuffer l) w = (Ok tt, wrote path bytes w).
Proof. intros Hl. unfold writeFileSync. run. by rewrite Hl. Qed.

Lemma writeFileSync_string_eq path s w :
  writeFileSync H path (VString s) w = (Ok tt, wrote path (utf8Encode H s) w).
Proof. done. Qed.

Lemma addLoaderFile_eq fileToLoad loaderFilename loaderFilePath w :
  loaderFilePathOf H fileToLoad loaderFilename = Some loaderFilePath →
  addLoaderFile H fileToLoad loaderFilename w
  = (Ok tt, wrote loaderFilePath (loaderBytes H loaderFilePath fileToLoad) w).
Proof.
  unfold addLoaderFile, loaderFilePathOf.
  destruct loaderFilename as [| | | |s| | | | | |s]; try done;
    try (by intros [= <-]).
  destruct s; by intros [= <-].
Qed.

Lemma compileElectronCode_eq code w :
  compileElectronCode H code w =
    match files w !! pathJoin H [js "node_modules"; js "electron"; js "cli.js"] with
    | None => (Throw ElectronNotInstalled, w)
    | Some _ =>
        match electronFork H code with
        | inl e => (Throw (HostException e), emit (EvFork code) w)
        | inr data =>
            (Ok (VBuffer (length (heap w))),
             setHeap (heap w ++ [data]) (emit (EvFork code) w))
        end
    end.
Proof.
  unfold compileElectronCode, existsSync. run.
  destruct (files w !! _); run; [|done].
  by destruct (electronFork H code).
Qed.

(** The statements from line 215 on, when the source file exists and the
    engine of this process hands out a cache for the code. *)
Lemma compileFileFrom_compiled filename compiledFilename compileAsModule electron
    createLoader loaderFilename w content script bytes :
  files w !! filename = Some content →
  truthy electron = false →
  vmScript H (codeOf H compileAsModule content) = inr script →
  producedBytes script = Some bytes →
  let w1 := wrote compiledFilename bytes
              (compiled (codeOf H compileAsModule content) bytes
                 (emit (EvReadFile filename) w)) in
  compileFileFrom H filename compiledFilename compileAsModule electron createLoader
    loaderFilename w =
    if truthy createLoader then
      match loaderFilePathOf H compiledFilename loaderFilename with
      | Some loaderFilePath =>
          (Ok compiledFilename,
           wrote loaderFilePath (loaderBytes H loaderFilePath compiledFilename) w1)
      | None =>
          (addLoaderFile H compiledFilename loaderFilename ;; mret compiledFilename) w1
      end
    else (Ok compiledFilename, w1).
Proof.
  intros Hf Hel Hscript Hbytes w1. unfold compileFileFrom.
  erewrite bind_Ok by (by rewrite readFileSyncUtf8_eq, Hf).
  rewrite Hel. fold (codeOf H compileAsModule content).
  erewrite bind_Ok by (by rewrite compileCode_string, Hscript, Hbytes).
  erewrite bind_Ok; last first.
  { apply writeFileSync_buffer_eq. simpl. by rewrite lookup_app_r, Nat.sub_diag by lia. }
  fold w1. destruct (truthy createLoader); [|done].
  destruct (loaderFilePathOf H compiledFilename loaderFilename) as [p|] eqn:Hp; [|done].
  by erewrite bind_Ok by (by apply addLoaderFile_eq).
Qed.

End CompileFileRuns.

(** X18. When the source file does not exist, [compileFile] throws the
    error of the file system after that one request: nothing is compiled
    and nothing is written. *)
Theorem compileFile_source_missing (H : Host) (args : CompileArgs) (output : Value)
    (filename compiledFilename : JSString) (w : World) :
  argsFilename args = Some filename →
  chosenOutput args output filename = VString compiledFilename →
  files w !! filename = None →
  compileFile H args output w
  = (Throw (HostException ENOENT), emit (EvReadFile filename) w).
Proof.
  intros Hname Hout Hf.
  rewrite (compileFile_named H args output filename Hname), Hout.
  unfold compileFileFrom.
  by erewrite bind_Throw by (by rewrite readFileSyncUtf8_eq, Hf).
Qed.

Lemma compileFile_source_missing_witness :
  argsFilename (ArgsString (js "b.js")) = Some (js "b.js")
  ∧ files Example.world !! js "b.js" = None
  ∧ compileFile Example.host (ArgsString (js "b.js")) VUndefined Example.world
    = (Throw (HostException ENOENT), emit (EvReadFile (js "b.js")) Example.world).
Proof.
  split; [reflexivity|]. split; [vm_compute; reflexivity|].
  apply (compileFile_source_missing Example.host (ArgsString (js "b.js")) VUndefined
           (js "b.js") (js "b.jsc") Example.world);
    vm_compute; reflexivity.
Defined.

(** X19. Without the file [node_modules/electron/cli.js],
    [compileElectronCode] throws its error of kind InvalidArgument and starts
    no process; [compileFile] with a truthy [electron] then fails with that
    error after reading the source file, and neither compiles nor writes
    anything. *)
Theorem compileFile_electron_not_installed (H : Host) (args : CompileArgs)
    (output : Value) (filename compiledFilename : JSString) (content : Buffer)
    (w : World) :
  files w !! pathJoin H [js "node_modules"; js "electron"; js "cli.js"] = None →
  argsFilename args = Some filename →
  chosenOutput args output filename = VString compiledFilename →
  files w !! filename = Some content →
  truthy (argsElectron args) = true →
  (∀ code, compileElectronCode H code w = (Throw ElectronNotInstalled, w))
  ∧ errorKind ElectronNotInstalled = InvalidArgument
  ∧ compileFile H args output w
    = (Throw ElectronNotInstalled, emit (EvReadFile filename) w).
Proof.
  intros Hel Hname Hout Hf Htruthy. split; [|split; [done|]].
  { intros code. by rewrite compileElectronCode_eq, Hel. }
  rewrite (compileFile_named H args output filename Hname), Hout.
  unfold compileFileFrom.
  erewrite bind_Ok by (by rewrite readFileSyncUtf8_eq, Hf).
  rewrite Htruthy.
  erewrite bind_Throw; [done|]. rewrite compileElectronCode_eq.
  change (files (emit (EvReadFile filename) w)) with (files w). by rewrite Hel.
Qed.

Lemma compileFile_electron_not_installed_witness :
  files Example2.world
    !! pathJoin Example.host [js "node_modules"; js "electron"; js "cli.js"] = None
  ∧ truthy (argsElectron (ArgsObject Example2.options)) = true
  ∧ compileFile Example.host (ArgsObject Example2.options) VUndefined Example2.world
    = (Throw ElectronNotInstalled, emit (EvReadFile (js "a.js")) Example2.world).
Proof.
  split; [vm_compute; reflexivity|]. split; [reflexivity|].
  apply (compileFile_electron_not_installed Example.host (ArgsObject Example2.options)
           VUndefined (js "a.js") (js "a.bin") (utf8Encode Example.host (js "1+1"))
           Example2.world);
    vm_compute; reflexivity.
Defined.

(** X20. The legacy form of [compileFile], on a source file that exists:
    the compiler gets the text of the file without its interpreter
    directive, inside the module wrapper; the artifact holds exactly the
    bytes of the cache the engine produced for that text; no other file
    changes, and the requests to the host are the read, the compilation and
    the write, in this order. *)
Theorem compileFile_legacy_artifact (H : Host) (filename compiledFilename : JSString)
    (output : Value) (w : World) (content : Buffer) (script : ProducedScript)
    (bytes : Buffer) :
  chosenOutput (ArgsString filename) output filename = VString compiledFilename →
  files w !! filename = Some content →
  let code := moduleWrap H (stripShebang (utf8Decode H content)) in
  vmScript H code = inr script →
  producedBytes script = Some bytes →
  let result := compileFile H (ArgsString filename) output w in
  result.1 = Ok compiledFilename
  ∧ files result.2 = <[compiledFilename := bytes]> (files w)
  ∧ trace result.2
    = trace w ++ [EvReadFile filename; EvNewScript code;
                  EvWriteFile compiledFilename bytes].
Proof.
  intros Hout Hf code Hscript Hbytes result. unfold result.
  rewrite (compileFile_named H (ArgsString filename) output filename eq_refl), Hout.
  cbn [argsCompileAsModule argsElectron argsCreateLoader argsLoaderFilename].
  rewrite (compileFileFrom_compiled H filename compiledFilename (VBoolean true)
             (VBoolean false) (VBoolean false) VUndefined w content script bytes
             Hf eq_refl Hscript Hbytes).
  simpl. split; [done|]. split; [done|]. by rewrite <- !app_assoc.
Qed.

Lemma compileFile_legacy_artifact_witness :
  files Example.world !! js "a.js" = Some (utf8Encode Example.host (js "1+1"))
  ∧ files (compileFile Example.host (ArgsString (js "a.js")) VUndefined
             Example.world).2
    = <[js "a.jsc" :=
          Example.cacheOf
            (moduleWrap Example.host
               (stripShebang (utf8Decode Example.host
                                (utf8Encode Example.host (js "1+1")))))]>
        (files Example.world).
Proof.
  split; [vm_compute; reflexivity|].
  eapply (compileFile_legacy_artifact Example.host (js "a.js") (js "a.jsc") VUndefined
            Example.world (utf8Encode Example.host (js "1+1")));
    [reflexivity|vm_compute; reflexivity|reflexivity|reflexivity].
Defined.

(** X21. The options form of [compileFile], on a source file that exists and
    without Electron: the text is wrapped as a module unless
    [compileAsModule] is exactly [false]; the artifact is written with the
    bytes of the cache of that text and then the loader file with the loader
    code.  When the path of the loader file is another path, the artifact
    keeps the cache; when it is the path of the artifact itself (an output
    name in which [.jsc] is not found, with the default loader name), the
    loader code replaces the cache in that file. *)
Theorem compileFile_options_artifact (H : Host) (options : BytenodeOptions)
    (output : Value) (filename compiledFilename loaderFilePath : JSString)
    (w : World) (content : Buffer) (script : ProducedScript) (bytes : Buffer) :
  args_filename options = VString filename →
  chosenOutput (ArgsObject options) output filename = VString compiledFilename →
  files w !! filename = Some content →
  truthy (args_electron options) = false →
  let code :=
    match args_compileAsModule options with
    | VBoolean false => stripShebang (utf8Decode H content)
    | _ => moduleWrap H (stripShebang (utf8Decode H content))
    end in
  vmScript H code = inr script →
  producedBytes script = Some bytes →
  loaderFilePathOf H compiledFilename (args_loaderFilename options)
  = Some loaderFilePath →
  let loader :=
    utf8Encode H
      (loaderCode (pathRelative H (pathDirname H loaderFilePath) compiledFilename)) in
  let result := compileFile H (ArgsObject options) output w in
  result.1 = Ok compiledFilename
  ∧ files result.2
    = <[loaderFilePath := loader]> (<[compiledFilename := bytes]> (files w))
  ∧ trace result.2
    = trace w ++ [EvReadFile filename; EvNewScript code;
                  EvWriteFile compiledFilename bytes;
                  EvWriteFile loaderFilePath loader]
  ∧ files result.2 !! compiledFilename
    = Some (if decide (loaderFilePath = compiledFilename) then loader else bytes).
Proof.
  intros Hname Hout Hf Hel code Hscript Hbytes Hloader loader result.
  assert (Hcode : code = codeOf H (VBoolean (isNotFalse (args_compileAsModule options)))
                           content).
  { unfold code, codeOf.
    by destruct (args_compileAsModule options) as [| |[]| | | | | | | |]. }
  rewrite Hcode in Hscript.
  unfold result.
  rewrite (compileFile_named H (ArgsObject options) output filename); last first.
  { simpl. by rewrite Hname. }
  rewrite Hout.
  cbn [argsCompileAsModule argsElectron argsCreateLoader argsLoaderFilename].
  rewrite (compileFileFrom_compiled H filename compiledFilename _ (args_electron options)
             (VBoolean true) (args_loaderFilename options) w content script bytes
             Hf Hel Hscript Hbytes).
  cbn [truthy]. rewrite Hloader. cbn [fst snd]. rewrite <- Hcode.
  fold loader. change (loaderBytes H loaderFilePath compiledFilename) with loader.
  simpl. split; [done|]. split; [done|]. split; [by rewrite <- !app_assoc|].
  case_decide as Hsame.
  - subst. apply lookup_insert_eq.
  - rewrite lookup_insert_ne by done. apply lookup_insert_eq.
Qed.

Lemma compileFile_options_artifact_witness :
  args_filename Example2.binOptions = VString (js "a.js")
  ∧ loaderFilePathOf Example.host (js "a.bin")
      (args_loaderFilename Example2.binOptions) = Some (js "a.bin")
  ∧ files (compileFile Example.host (ArgsObject Example2.binOptions) VUndefined
             Example2.world).2 !! js "a.bin"
    = Some (utf8Encode Example.host (loaderCode (js "a.bin"))).
Proof.
  split; [reflexivity|]. split; [reflexivity|].
  pose proof (compileFile_options_artifact Example.host Example2.binOptions VUndefined
                (js "a.js") (js "a.bin") (js "a.bin") Example2.world
                (utf8Encode Example.host (js "1+1"))
                {| createCachedData := Some (Example.cacheOf (js "1+1"));
                   cachedData := None |}
                (Example.cacheOf (js "1+1"))
                eq_refl eq_refl) as Hrun.
  exact (proj2 (proj2 (proj2 (Hrun ltac:(vm_compute; reflexivity) eq_refl eq_refl
                                 eq_refl eq_refl)))).
Defined.

(** ** [addLoaderFile] *)

(** X22. [addLoaderFile] takes a boolean, [undefined] and the empty string
    alike, as no name given: the loader file is named after the file to
    load.  A string and a [String] object are a pattern, joined to the
    directory of the file to load.  In these cases it writes one file, the
    loader, and changes nothing else; it never reads the file to load, which
    need not exist.  On [null] and on a number it throws a TypeError and
    nothing has happened.  On any other object it calls the method
    [replace] the object has: what that call throws it throws; when the
    call returns a string, the loader is written under that name, on the
    store the call left; when it returns anything else, joining the path
    throws a TypeError. *)
Theorem addLoaderFile_cases (H : Host) (fileToLoad : JSString) (loaderFilename : Value)
    (w : World) :
  (∀ b, addLoaderFile H fileToLoad (VBoolean b) w
        = addLoaderFile H fileToLoad VUndefined w)
  ∧ addLoaderFile H fileToLoad (VString []) w = addLoaderFile H fileToLoad VUndefined w
  ∧ match loaderFilename with
    | VUndefined | VBoolean _ | VString _ | VStringObject _ =>
        ∃ loaderFilePath,
          loaderFilePathOf H fileToLoad loaderFilename = Some loaderFilePath
          ∧ addLoaderFile H fileToLoad loaderFilename w
            = (Ok tt,
               {| heap := heap w;
                  files :=
                    <[loaderFilePath :=
                        utf8Encode H
                          (loaderCode (pathRelative H (pathDirname H loaderFilePath)
                                         fileToLoad))]> (files w);
                  globals := globals w;
                  trace :=
                    trace w ++
                    [EvWriteFile loaderFilePath
                       (utf8Encode H
                          (loaderCode (pathRelative H (pathDirname H loaderFilePath)
                                         fileToLoad)))] |})
    | VNull | VNumber _ =>
        addLoaderFile H fileToLoad loaderFilename w
        = (Throw (HostException TypeError), w)
    | _ =>
        let replaced :=
          objectReplace H loaderFilename (js "%") (pathParseName H fileToLoad)
            (storeOf w) in
        addLoaderFile H fileToLoad loaderFilename w
        = match replaced.1 with
          | inl e => (Throw (HostException e), setStore replaced.2 w)
          | inr (VString name) =>
              let loaderFilePath := pathJoin H [pathDirname H fileToLoad; name] in
              (Ok tt,
               wrote loaderFilePath (loaderBytes H loaderFilePath fileToLoad)
                 (setStore replaced.2 w))
          | inr _ => (Throw (HostException TypeError), setStore replaced.2 w)
          end
    end.
Proof.
  split; [done|]. split; [done|].
  assert (Hobject : ∀ v,
    (loaderFilePath ←
       (loaderFilename ← perform (objectReplace H v (js "%") (pathParseName H fileToLoad));
        match loaderFilename with
        | VString loaderFilename =>
            mret (pathJoin H [pathDirname H fileToLoad; loaderFilename])
        | _ => throw (HostException TypeError)
        end);
     writeFileSync H loaderFilePath
       (VString (loaderCode (pathRelative H (pathDirname H loaderFilePath) fileToLoad)))) w
    = match (objectReplace H v (js "%") (pathParseName H fileToLoad) (storeOf w)).1 with
      | inl e =>
          (Throw (HostException e),
           setStore (objectReplace H v (js "%") (pathParseName H fileToLoad)
                       (storeOf w)).2 w)
      | inr (VString name) =>
          (Ok tt,
           wrote (pathJoin H [pathDirname H fileToLoad; name])
             (loaderBytes H (pathJoin H [pathDirname H fileToLoad; name]) fileToLoad)
             (setStore (objectReplace H v (js "%") (pathParseName H fileToLoad)
                          (storeOf w)).2 w))
      | inr _ =>
          (Throw (HostException TypeError),
           setStore (objectReplace H v (js "%") (pathParseName H fileToLoad)
                       (storeOf w)).2 w)
      end).
  { intros v. unfold mbind, M_bind, perform.
    destruct (objectReplace H v _ _ (storeOf w)) as [[e|replaced] store'];
      cbn [fst snd outcome]; [done|].
    by destruct replaced. }
  destruct loaderFilename as [| |b|z|s|l|l|l|rq|o|s]; try done;
    try (by apply Hobject); try (by eexists).
  destruct s; by eexists.
Qed.

(** ** Running a file and importing it *)

(** X23. For one artifact file, [runBytecodeFile] and the loader hook go the
    same way up to the compilation of the placeholder.  When the length the
    file holds is past the longest string of the engine, both throw the
    RangeError of building the placeholder after the same requests.
    Otherwise they give the engine the same placeholder and the same patched
    bytes, after the same requests; the two script objects differ in the
    file name only, which the hook passes and [runBytecodeFile] does not. *)
Theorem runBytecodeFile_and_hook_same_script (H : Host) (module : loc)
    (filename : JSString) (w : World) (bytecodeBuffer dummyBytecode : Buffer) :
  files w !! filename = Some bytecodeBuffer →
  dummyBytecodeOf H = Some dummyBytecode →
  if pastStringLimit H (readSourceHashBytes (processVersion H) bytecodeBuffer)
  then
    (runBytecodeFile H (VString filename) w).1 = Throw (HostException RangeError)
    ∧ (Module_extensions_jsc H module filename w).1 = Throw (HostException RangeError)
    ∧ trace (runBytecodeFile H (VString filename) w).2
      = trace w ++ [EvReadFile filename; EvNewScript dummySource]
    ∧ trace (Module_extensions_jsc H module filename w).2
      = trace w ++ [EvReadFile filename; EvNewScript dummySource]
  else
    ∃ placeholder bytes restOfRun restOfHook,
      trace (runBytecodeFile H (VString filename) w).2
      = trace w ++ [EvReadFile filename; EvNewScript dummySource;
                    EvNewCachedScript {| scriptSource := placeholder;
                                         scriptFilename := None;
                                         scriptCachedData := bytes |}] ++ restOfRun
      ∧ trace (Module_extensions_jsc H module filename w).2
        = trace w ++ [EvReadFile filename; EvNewScript dummySource;
                      EvNewCachedScript {| scriptSource := placeholder;
                                           scriptFilename := Some filename;
                                           scriptCachedData := bytes |}] ++ restOfHook
      ∧ bytes = fixBytecodeBytes (processVersion H) dummyBytecode bytecodeBuffer
      ∧ placeholderFor H (readSourceHashBytes (processVersion H) bytecodeBuffer)
        = inr placeholder.
Proof.
  intros Hf Hd.
  assert (Hl : heap (fileRead filename bytecodeBuffer w) !! length (heap w)
               = Some bytecodeBuffer).
  { simpl. by rewrite lookup_app_r, Nat.sub_diag by lia. }
  unfold runBytecodeFile.
  erewrite bind_Ok by (by apply readFileSync_eq).
  rewrite (runBytecode_eq H _ _ _ _ Hl Hd).
  rewrite (Module_extensions_jsc_eq H module filename w _ _ Hf Hd).
  unfold cachedScriptOf. rewrite readSourceHashBytes_fixBytecodeBytes.
  rewrite placeholderFor_eq.
  destruct (pastStringLimit H _).
  { cbn [fst snd]. split; [done|]. split; [done|].
    simpl. by rewrite <- !app_assoc. }
  exists (dummyCodeOf (readSourceHashBytes (processVersion H) bytecodeBuffer)),
         (fixBytecodeBytes (processVersion H) dummyBytecode bytecodeBuffer).
  destruct (vmCachedDataRejected H _).
  { destruct (vmCachedDataRejected H _).
    - eexists [], []. cbn [snd]. simpl. by rewrite <- !app_assoc.
    - destruct (vmRunInThisContext H _ _).1.
      + eexists [], [_]. cbn [snd]. simpl. by rewrite <- !app_assoc.
      + eexists [], [_; _]. cbn [snd]. simpl. by rewrite <- !app_assoc. }
  destruct (vmCachedDataRejected H _).
  - eexists [_], []. cbn [snd]. simpl. by rewrite <- !app_assoc.
  - destruct (vmRunInThisContext H {| scriptFilename := Some filename |} _).1.
    + eexists [_], [_]. cbn [snd]. simpl. by rewrite <- !app_assoc.
    + eexists [_], [_; _]. cbn [snd]. simpl. by rewrite <- !app_assoc.
Qed.

Lemma runBytecodeFile_and_hook_same_script_witness :
  files Example.world !! js "a.jsc" = Some Example.foreignCache
  ∧ dummyBytecodeOf Example.host = Some (Example.cacheOf dummySource)
  ∧ ∃ placeholder bytes restOfRun restOfHook,
      trace (runBytecodeFile Example.host (VString (js "a.jsc")) Example.world).2
      = trace Example.world
        ++ [EvReadFile (js "a.jsc"); EvNewScript dummySource;
            EvNewCachedScript {| scriptSource := placeholder;
                                 scriptFilename := None;
                                 scriptCachedData := bytes |}] ++ restOfRun
      ∧ trace (Module_extensions_jsc Example.host Example.module (js "a.jsc")
                 Example.world).2
        = trace Example.world
          ++ [EvReadFile (js "a.jsc"); EvNewScript dummySource;
              EvNewCachedScript {| scriptSource := placeholder;
                                   scriptFilename := Some (js "a.jsc");
                                   scriptCachedData := bytes |}] ++ restOfHook
      ∧ bytes = fixBytecodeBytes (processVersion Example.host)
                  (Example.cacheOf dummySource) Example.foreignCache
      ∧ placeholderFor Example.host
          (readSourceHashBytes (processVersion Example.host) Example.foreignCache)
        = inr placeholder.
Proof.
  split; [vm_compute; reflexivity|]. split; [reflexivity|].
  exact (runBytecodeFile_and_hook_same_script Example.host Example.module (js "a.jsc")
           Example.world Example.foreignCache (Example.cacheOf dummySource)
           ltac:(vm_compute; reflexivity) eq_refl).
Defined.

(** X24. Compiling a file in the legacy form and then importing the
    artifact: the hook reads back the cache the engine produced for the
    wrapped source, patches it in a new buffer and, unless the length the
    cache holds is past the longest string of the engine, gives the engine
    the placeholder for that length with the patched bytes; when the engine
    accepts them and the script evaluates to a value, the hook's result is
    the result of applying that value to the seven arguments, with
    [module.exports] as [this], on the store the run left. *)
Theorem compileFile_then_import (H : Host) (module : loc)
    (filename compiledFilename : JSString) (output : Value) (w : World)
    (content : Buffer) (script : ProducedScript) (bytes dummyBytecode : Buffer) :
  chosenOutput (ArgsString filename) output filename = VString compiledFilename →
  files w !! filename = Some content →
  vmScript H (moduleWrap H (stripShebang (utf8Decode H content))) = inr script →
  producedBytes script = Some bytes →
  dummyBytecodeOf H = Some dummyBytecode →
  let cached :=
    {| scriptSource := dummyCodeOf (readSourceHashBytes (processVersion H) bytes);
       scriptFilename := Some compiledFilename;
       scriptCachedData := fixBytecodeBytes (processVersion H) dummyBytecode bytes |} in
  let compiledWorld := (compileFile H (ArgsString filename) output w).2 in
  let result := Module_extensions_jsc H module compiledFilename compiledWorld in
  let before :=
    {| storeHeap := heap w ++ [bytes;
                               fixBytecodeBytes (processVersion H) dummyBytecode bytes;
                               dummyBytecode];
       storeFiles := <[compiledFilename := bytes]> (files w);
       storeGlobals := globals w |} in
  let ran := vmRunInThisContext H cached before in
  let exports := moduleExports H module ran.2 in
  let args :=
    [exports; VRequire (requireOf H module); VObject module;
     VString compiledFilename; VString (pathDirname H compiledFilename);
     VHost Process; VHost Global] in
  files compiledWorld !! compiledFilename = Some bytes
  ∧ if pastStringLimit H (readSourceHashBytes (processVersion H) bytes)
    then result.1 = Throw (HostException RangeError)
         ∧ trace result.2
           = trace compiledWorld
             ++ [EvReadFile compiledFilename; EvNewScript dummySource]
    else if vmCachedDataRejected H cached
    then result.1 = Throw CachedDataRejected
         ∧ trace result.2
           = trace compiledWorld
             ++ [EvReadFile compiledFilename; EvNewScript dummySource;
                 EvNewCachedScript cached]
    else match ran.1 with
         | inl e =>
             result.1 = Throw (HostException e)
             ∧ trace result.2
               = trace compiledWorld
                 ++ [EvReadFile compiledFilename; EvNewScript dummySource;
                     EvNewCachedScript cached; EvRunInThisContext cached]
         | inr compiledWrapper =>
             result.1
             = outcome (functionApply H compiledWrapper exports args ran.2).1
             ∧ storeOf result.2
               = (functionApply H compiledWrapper exports args ran.2).2
             ∧ trace result.2
               = trace compiledWorld
                 ++ [EvReadFile compiledFilename; EvNewScript dummySource;
                     EvNewCachedScript cached; EvRunInThisContext cached;
                     EvApply compiledWrapper exports args]
         end.
Proof.
  intros Hout Hf Hscript Hbytes Hd cached compiledWorld result before ran exports args.
  assert (Hcompiled : compiledWorld
    = wrote compiledFilename bytes
        (compiled (moduleWrap H (stripShebang (utf8Decode H content))) bytes
           (emit (EvReadFile filename) w))).
  { unfold compiledWorld.
    rewrite (compileFile_named H (ArgsString filename) output filename eq_refl), Hout.
    cbn [argsCompileAsModule argsElectron argsCreateLoader argsLoaderFilename].
    by rewrite (compileFileFrom_compiled H filename compiledFilename (VBoolean true)
                  (VBoolean false) (VBoolean false) VUndefined w content script bytes
                  Hf eq_refl Hscript Hbytes). }
  assert (Hartifact : files compiledWorld !! compiledFilename = Some bytes).
  { rewrite Hcompiled. simpl. apply lookup_insert_eq. }
  split; [done|]. unfold result.
  rewrite (Module_extensions_jsc_eq H module compiledFilename compiledWorld _ _
             Hartifact Hd).
  unfold cachedScriptOf. rewrite readSourceHashBytes_fixBytecodeBytes. fold cached.
  assert (Hbefore :
    storeOf (emit (EvNewCachedScript cached)
               (patched H (length (heap compiledWorld)) dummyBytecode bytes
                  (fileRead compiledFilename bytes compiledWorld))) = before).
  { rewrite Hcompiled. unfold before, storeOf.
    cbn [patched emit fileRead setHeap wrote compiled heap files globals trace].
    f_equal.
    rewrite <- !app_assoc. cbn [app].
    replace (length (heap w ++ [bytes])) with (length (heap w) + 1)%nat
      by (rewrite length_app; simpl; lia).
    rewrite insert_app_r. by cbn. }
  cbv zeta. rewrite Hbefore. fold ran.
  destruct (pastStringLimit H _).
  { cbn [fst snd]. split; [done|]. simpl. by rewrite <- !app_assoc. }
  destruct (vmCachedDataRejected H cached).
  { cbn [fst snd]. split; [done|]. simpl. by rewrite <- !app_assoc. }
  destruct ran as [[e|compiledWrapper] store']; cbn [fst snd].
  - split; [done|]. simpl. by rewrite <- !app_assoc.
  - fold args. split; [by destruct store'|]. split.
    + destruct store'. cbn [setStore storeOf emit heap files globals].
      by destruct (functionApply H _ _ _ _).2.
    + simpl. by rewrite <- !app_assoc.
Qed.

Lemma compileFile_then_import_witness :
  files Example.world !! js "a.js" = Some (utf8Encode Example.host (js "1+1"))
  ∧ dummyBytecodeOf Example.host = Some (Example.cacheOf dummySource)
  ∧ (Module_extensions_jsc Example.host Example.module (js "a.jsc")
       (compileFile Example.host (ArgsString (js "a.js")) VUndefined Example.world).2).1
    = Ok (VNumber 7).
Proof.
  split; [vm_compute; reflexivity|]. split; [reflexivity|].
  pose proof (compileFile_then_import Example.host Example.module (js "a.js")
           (js "a.jsc") VUndefined Example.world (utf8Encode Example.host (js "1+1"))
           {| createCachedData :=
                Some (Example.cacheOf
                        (moduleWrap Example.host
                           (stripShebang
                              (utf8Decode Example.host
                                 (utf8Encode Example.host (js "1+1"))))));
              cachedData := None |}
           (Example.cacheOf
              (moduleWrap Example.host
                 (stripShebang
                    (utf8Decode Example.host (utf8Encode Example.host (js "1+1"))))))
           (Example.cacheOf dummySource)
           eq_refl ltac:(vm_compute; reflexivity) eq_refl eq_refl eq_refl) as Himport.
  cbv zeta in Himport. destruct Himport as [_ Himport].
  change (pastStringLimit _ _) with false in Himport.
  change (vmCachedDataRejected _ _) with false in Himport.
  exact (proj1 Himport).
Defined.

(** ** The module loader hook and the wrapping convention *)

(** The parameters of the text Node's wrapper makes of any code. *)
Lemma wrapperParameters_nodeModuleWrap (code : JSString) :
  wrapperParameters (nodeModuleWrap code)
  = [js "exports"; js "require"; js "module"; js "__filename"; js "__dirname"].
Proof. reflexivity. Qed.

(** The program only adds to the record of its requests. *)
Lemma writeFileSync_trace (H : Host) path data w r w' :
  writeFileSync H path data w = (r, w') → ∃ rest, trace w' = trace w ++ rest.
Proof.
  unfold writeFileSync.
  destruct data; run; try (intros [= <- <-]; exists []; by rewrite app_nil_r).
  - intros [= <- <-]. by eexists [_].
  - destruct (heap w !! l); intros [= <- <-].
    + by eexists [_].
    + exists []. by rewrite app_nil_r.
Qed.

Lemma addLoaderFile_trace (H : Host) fileToLoad loaderFilename w r w' :
  addLoaderFile H fileToLoad loaderFilename w = (r, w') →
  ∃ rest, trace w' = trace w ++ rest.
Proof.
  unfold addLoaderFile. intros Hrun.
  apply bind_inv in Hrun as [(p & w1 & Hp & Hwrite)|(e & Hp & ->)].
  - apply writeFileSync_trace in Hwrite as [rest ->]. exists rest. f_equal.
    destruct loaderFilename as [| |b|z|s|l|l|l|rq|o|s]; revert Hp;
      try (by intros [= <- <-]);
      try (unfold callReplace, mbind, M_bind, perform, mret, M_ret, throw;
           destruct (objectReplace H _ _ _ _) as [[?|[]] ?];
           cbn [fst snd outcome]; by intros [= <- <-]).
    destruct s; by intros [= <- <-].
  - exists []. rewrite app_nil_r.
    destruct loaderFilename as [| |b|z|s|l|l|l|rq|o|s]; revert Hp;
      try (by intros [= <- <-]);
      try (unfold callReplace, mbind, M_bind, perform, mret, M_ret, throw;
           destruct (objectReplace H _ _ _ _) as [[?|[]] ?];
           cbn [fst snd outcome]; by intros [= <- <-]).
    destruct s; by intros [= <- <-].
Qed.

(** C8. When the hook loads an artifact file whose cache the engine accepts
    and whose script evaluates to [compiledWrapper], it invokes
    [compiledWrapper] once, as a function, with [module.exports] as [this]
    and with exactly seven arguments in this order: [module.exports], the
    function [require] of the module (with [resolve], [extensions] and
    [cache] attached, and [main] when the process has a main module), the
    module, the file name, the directory of the file name, the process and
    the global object; the result of the hook is the result of that call,
    on the store the run of the script left.  At compile time, [compileFile]
    hands the compiler the text of the source file inside the wrapper of
    [Module.wrap] unless [compileAsModule] is false, so the compiled unit is
    a function of five parameters, [exports], [require], [module],
    [__filename] and [__dirname]: the call binds them, by position, to the
    first five of the seven arguments, and the process and the global
    object are passed after the last parameter. *)
Theorem loader_hook_invokes_wrapper (H : Host) (module : loc)
    (filename : JSString) (w : World) (bytecodeBuffer dummyBytecode : Buffer)
    (compiledWrapper : Value) (afterRun : Store) :
  (∀ code, moduleWrap H code = nodeModuleWrap code) →
  files w !! filename = Some bytecodeBuffer →
  dummyBytecodeOf H = Some dummyBytecode →
  let bytes := fixBytecodeBytes (processVersion H) dummyBytecode bytecodeBuffer in
  let len := readSourceHashBytes (processVersion H) bytes in
  let script :=
    {| scriptSource := dummyCodeOf len;
       scriptFilename := Some filename;
       scriptCachedData := bytes |} in
  let before :=
    {| storeHeap := heap w ++ [bytes; dummyBytecode];
       storeFiles := files w;
       storeGlobals := globals w |} in
  pastStringLimit H len = false →
  vmCachedDataRejected H script = false →
  vmRunInThisContext H script before = (inr compiledWrapper, afterRun) →
  let require :=
    {| requireModule := module;
       requireResolve := Some module;
       requireMain := processMainModule H;
       requireExtensions := Some ModuleExtensions;
       requireCache := Some ModuleCache |} in
  let exports := moduleExports H module afterRun in
  let args :=
    [exports; VRequire require; VObject module;
     VString filename; VString (pathDirname H filename);
     VHost Process; VHost Global] in
  let result := Module_extensions_jsc H module filename w in
  (result.1
   = outcome (functionApply H compiledWrapper exports args afterRun).1
   ∧ storeOf result.2
     = (functionApply H compiledWrapper exports args afterRun).2
   ∧ trace result.2
     = trace w ++ [EvReadFile filename; EvNewScript dummySource;
                   EvNewCachedScript script; EvRunInThisContext script;
                   EvApply compiledWrapper exports args]
   ∧ appliesOf (trace result.2)
     = appliesOf (trace w) ++ [(compiledWrapper, exports, args)])
  ∧ (∀ (args0 : CompileArgs) (output : Value) (w0 : World)
       (source compiledFilename : JSString) (content : Buffer),
       argsFilename args0 = Some source →
       chosenOutput args0 output source = VString compiledFilename →
       files w0 !! source = Some content →
       truthy (argsElectron args0) = false →
       ∃ rest,
         trace (compileFile H args0 output w0).2
         = trace w0
           ++ [EvReadFile source;
               EvNewScript
                 (if truthy (argsCompileAsModule args0)
                  then nodeModuleWrap (stripShebang (utf8Decode H content))
                  else stripShebang (utf8Decode H content))]
           ++ rest)
  ∧ (∀ code,
       wrapperParameters (moduleWrap H code)
       = [js "exports"; js "require"; js "module"; js "__filename"; js "__dirname"]
       ∧ bindParameters (wrapperParameters (moduleWrap H code)) args
         = [(js "exports", exports);
            (js "require", VRequire require);
            (js "module", VObject module);
            (js "__filename", VString filename);
            (js "__dirname", VString (pathDirname H filename))]
       ∧ drop (length (wrapperParameters (moduleWrap H code))) args
         = [VHost Process; VHost Global]).
Proof.
  intros Hwrap Hf Hd bytes len script before Hlimit Haccepted Hrun require exports args
    result.
  split; [|split].
  - unfold result.
    rewrite (Module_extensions_jsc_eq H module filename w _ _ Hf Hd).
    fold bytes. change (cachedScriptOf H (Some filename) bytes) with script.
    fold len. rewrite Hlimit, Haccepted.
    assert (Hbefore :
      storeOf (emit (EvNewCachedScript script)
                 (patched H (length (heap w)) dummyBytecode bytecodeBuffer
                    (fileRead filename bytecodeBuffer w))) = before).
    { unfold before, storeOf.
      cbn [patched emit fileRead setHeap heap files globals trace].
      f_equal. rewrite <- !app_assoc. cbn [app].
      rewrite <- (Nat.add_0_r (length (heap w))).
      by rewrite insert_app_r. }
    cbv zeta. rewrite Hbefore, Hrun. cbn [fst snd].
    change (requireOf H module) with require. fold args.
    split; [by destruct afterRun|]. split.
    { destruct afterRun. cbn [setStore storeOf emit heap files globals].
      by destruct (functionApply H _ _ _ _).2. }
    assert (Htrace : ∀ store,
      trace (setStore store
               (emit (EvApply compiledWrapper exports args)
                  (setStore afterRun
                     (emit (EvRunInThisContext script)
                        (emit (EvNewCachedScript script)
                           (patched H (length (heap w)) dummyBytecode bytecodeBuffer
                              (fileRead filename bytecodeBuffer w)))))))
      = trace w ++ [EvReadFile filename; EvNewScript dummySource;
                    EvNewCachedScript script; EvRunInThisContext script;
                    EvApply compiledWrapper exports args]).
    { intros store. simpl. by rewrite <- !app_assoc. }
    rewrite Htrace. split; [done|].
    unfold appliesOf. by rewrite omap_app.
  - intros args0 output w0 source compiledFilename content Hname Hout Hsource Hel.
    rewrite (compileFile_named H args0 output source Hname), Hout.
    unfold compileFileFrom.
    erewrite bind_Ok by (by rewrite readFileSyncUtf8_eq, Hsource).
    rewrite Hel, Hwrap.
    set (code := if truthy (argsCompileAsModule args0) then _ else _).
    unfold mbind at 1. unfold M_bind at 1. rewrite compileCode_string.
    destruct (vmScript H code) as [e|produced].
    { exists []. simpl. by rewrite <- !app_assoc. }
    destruct (producedBytes produced) as [cache|]; last first.
    { exists []. simpl. by rewrite <- !app_assoc. }
    match goal with
    | |- context [trace (?m (compiled code cache ?w1)).2] =>
        destruct (m (compiled code cache w1)) as [r w'] eqn:Hrest
    end.
    assert (Hgrows : ∃ rest,
      trace w' = trace (compiled code cache (emit (EvReadFile source) w0)) ++ rest).
    { apply bind_inv in Hrest as [([] & w1 & Hwrite & Hrest)|(e & Hwrite & ->)];
        last by eapply writeFileSync_trace.
      apply writeFileSync_trace in Hwrite as [rest1 Hw1].
      apply bind_inv in Hrest as [([] & w2 & Hloader & Hrest)|(e & Hloader & ->)].
      - injection Hrest as _ <-.
        destruct (truthy (argsCreateLoader args0)).
        + apply addLoaderFile_trace in Hloader as [rest2 ->].
          exists (rest1 ++ rest2). by rewrite Hw1, <- app_assoc.
        + injection Hloader as <-. by exists rest1.
      - destruct (truthy (argsCreateLoader args0)); [|done].
        apply addLoaderFile_trace in Hloader as [rest2 ->].
        exists (rest1 ++ rest2). by rewrite Hw1, <- app_assoc. }
    destruct Hgrows as [rest Hgrows]. exists rest.
    cbn [snd]. rewrite Hgrows. simpl. by rewrite <- !app_assoc.
  - intros code. rewrite Hwrap. done.
Qed.

Lemma loader_hook_invokes_wrapper_witness :
  (∀ code, moduleWrap Example.host code = nodeModuleWrap code)
  ∧ Example.world.(files) !! js "a.jsc" = Some Example.foreignCache
  ∧ dummyBytecodeOf Example.host = Some (Example.cacheOf dummySource)
  ∧ (Module_extensions_jsc Example.host Example.module (js "a.jsc") Example.world).1
    = Ok (VNumber 7)
  ∧ wrapperParameters (moduleWrap Example.host (js "1+1"))
    = [js "exports"; js "require"; js "module"; js "__filename"; js "__dirname"].
Proof.
  split; [done|]. split; [vm_compute; reflexivity|]. split; [reflexivity|].
  pose proof (loader_hook_invokes_wrapper Example.host Example.module (js "a.jsc")
                Example.world Example.foreignCache (Example.cacheOf dummySource)
                (VFunction 9%nat)
                {| storeHeap :=
                     heap Example.world
                     ++ [fixBytecodeBytes (processVersion Example.host)
                           (Example.cacheOf dummySource) Example.foreignCache;
                         Example.cacheOf dummySource];
                   storeFiles := files Example.world;
                   storeGlobals := globals Example.world |}
                (fun code => eq_refl) ltac:(vm_compute; reflexivity) eq_refl
                eq_refl eq_refl eq_refl) as (Hload & _ & Hbind).
  split; [exact (proj1 Hload)|]. exact (proj1 (Hbind (js "1+1"))).
Defined.

(** ** The round trip, for an engine that keeps the contract of the
    specification *)










